(** * maxverify: the redirect-time decision pipeline of [server.js]

    A shallow embedding of the functions of [server.js] that decide a
    redirect, namely [getRealIP], [getLocationFromIP], [parseUserAgent] and
    the handler of [GET /:code], with the properties the specification
    states about them.

    Strings.  A JavaScript string is a sequence of code units.  Node decodes
    the value of an HTTP header as Latin-1, so a header string consists of
    code units below 256; such a string is a [string] here, one [ascii] for
    each code unit, and [toLowerCase] and [trim] are given for the whole
    Latin-1 range.  A string read from the datastore (the domain of a
    partner) is taken in the same range.

    Effects.  The handler is an [async] function: it awaits the pool, writes
    to the console, and starts the click recording without awaiting it.  A
    computation is a function from the [world] (the environment, the tables
    and what has been done so far) to a completion, normal or thrown, and
    the next world.  The handler returns the response together with the
    click recording it started; the recording is a computation of its own,
    run on the world of a later instant.  One computation runs without
    statements of other requests in between.

    Time.  The clock and the latency of the geolocation provider are
    numbers of milliseconds given by the environment. *)

From Stdlib Require Import ZArith NArith Ascii String List Bool Lia.
From stdpp Require Import gmap strings list fin_maps.

Local Open Scope Z_scope.

(** ** JavaScript string primitives *)

Module Js.

(** [String.prototype.toLowerCase] on one Latin-1 code unit: [A-Z] and the
    accented capitals U+00C0..U+00DE (without the multiplication sign
    U+00D7) move up by 32. *)
Definition toLowerCase_char (c : ascii) : ascii :=
  let n := N_of_ascii c in
  if ((65 <=? n)%N && (n <=? 90)%N)
     || ((192 <=? n)%N && (n <=? 222)%N && negb (n =? 215)%N)
  then ascii_of_N (n + 32) else c.

Fixpoint toLowerCase (s : string) : string :=
  match s with
  | EmptyString => EmptyString
  | String c s' => String (toLowerCase_char c) (toLowerCase s')
  end.

(** [s.startsWith(p)] *)
Fixpoint startsWith (s p : string) {struct p} : bool :=
  match p, s with
  | EmptyString, _ => true
  | String _ _, EmptyString => false
  | String b p', String a s' => Ascii.eqb a b && startsWith s' p'
  end.

(** [s.includes(p)]: [p] starts at some position of [s]. *)
Fixpoint includes (s p : string) : bool :=
  startsWith s p ||
  match s with
  | EmptyString => false
  | String _ s' => includes s' p
  end.

(** [s.split(sep)] for a one-character separator; the result is never
    empty, [''.split(',')] is [['']]. *)
Fixpoint split (sep : ascii) (s : string) : list string :=
  match s with
  | EmptyString => [EmptyString]
  | String c s' =>
      if Ascii.eqb c sep then EmptyString :: split sep s'
      else match split sep s' with
           | piece :: pieces => String c piece :: pieces
           | [] => [String c EmptyString]
           end
  end.

(** White space of [String.prototype.trim] in the Latin-1 range: TAB, LF,
    VT, FF, CR, SPACE and NO-BREAK SPACE. *)
Definition isWhiteSpace (c : ascii) : bool :=
  let n := N_of_ascii c in
  ((9 <=? n)%N && (n <=? 13)%N) || (n =? 32)%N || (n =? 160)%N.

Fixpoint trimStart (s : string) : string :=
  match s with
  | EmptyString => EmptyString
  | String c s' => if isWhiteSpace c then trimStart s' else s
  end.

Fixpoint trimEnd (s : string) : string :=
  match s with
  | EmptyString => EmptyString
  | String c s' =>
      match trimEnd s' with
      | EmptyString => if isWhiteSpace c then EmptyString else String c EmptyString
      | t => String c t
      end
  end.

Definition trim (s : string) : string := trimEnd (trimStart s).

(** Truthiness of a value that is a string or [undefined]/[null]:
    only a non-empty string is truthy. *)
Definition truthy (v : option string) : bool :=
  match v with
  | Some (String _ _) => true
  | _ => false
  end.

(** [v || dflt] where [dflt] is a string. *)
Definition or_else (v : option string) (dflt : string) : string :=
  match v with
  | Some (String c s) => String c s
  | _ => dflt
  end.

(** [a || b] where [b] may itself be [undefined]. *)
Definition or_opt (a b : option string) : option string :=
  if truthy a then a else b.

(** *** The regular expressions of the source

    The three patterns used by the handler are sequences of literal
    characters and optional characters, anchored at the start ([^]), at
    the end ([$]) or not at all. *)
Inductive atom : Type :=
| Lit (c : ascii)    (* [c]  *)
| Opt (c : ascii).   (* [c?] *)

Record regex : Type := MkRegex {
  anchored_start : bool;
  atoms : list atom;
  anchored_end : bool
}.

(** Match the atoms at the head of [s]; the result is what follows the
    match.  [c?] is greedy and gives the character back when the rest of
    the pattern fails. *)
Fixpoint match_here (p : list atom) (at_end : bool) (s : string) : option string :=
  match p with
  | [] =>
      if at_end
      then match s with EmptyString => Some EmptyString | String _ _ => None end
      else Some s
  | Lit c :: p' =>
      match s with
      | String a s' => if Ascii.eqb a c then match_here p' at_end s' else None
      | EmptyString => None
      end
  | Opt c :: p' =>
      match s with
      | String a s' =>
          if Ascii.eqb a c
          then match match_here p' at_end s' with
               | Some rest => Some rest
               | None => match_here p' at_end s
               end
          else match_here p' at_end s
      | EmptyString => match_here p' at_end s
      end
  end.

(** Leftmost match from any position: the string with the match removed,
    or [None] when the pattern matches nowhere. *)
Fixpoint remove_leftmost (p : list atom) (at_end : bool) (s : string) : option string :=
  match match_here p at_end s with
  | Some rest => Some rest
  | None =>
      match s with
      | EmptyString => None
      | String c s' => option_map (String c) (remove_leftmost p at_end s')
      end
  end.

(** [s.replace(re, '')] for a regex without the [g] flag: the first match
    is removed, a string without a match is returned as it is. *)
Definition replace_empty (re : regex) (s : string) : string :=
  if anchored_start re
  then match match_here (atoms re) (anchored_end re) s with
       | Some rest => rest
       | None => s
       end
  else match remove_leftmost (atoms re) (anchored_end re) s with
       | Some s' => s'
       | None => s
       end.

Fixpoint literal (s : string) : list atom :=
  match s with
  | EmptyString => []
  | String c s' => Lit c :: literal s'
  end.

(** [s.replace(lit, '')] with a string pattern: the first occurrence. *)
Definition replace_literal (lit : string) (s : string) : string :=
  replace_empty (MkRegex false (literal lit) false) s.

End Js.

(** ** Words of the specification about strings *)

(** [p] occurs in [s] as a substring. *)
Definition occurs_in (p s : string) : Prop :=
  exists pre post, s = pre +:+ p +:+ post.

(** [s] begins with [p]. *)
Definition begins_with (s p : string) : Prop :=
  exists rest, s = p +:+ rest.

(** ** The referrer policy of [GET /:code]

    [normalize] and [isAllowed] are the two constants the handler computes
    when the link has a partner. *)

Module ReferrerPolicy.

(** [/^https?:\/\//] *)
Definition re_protocol : Js.regex :=
  Js.MkRegex true (Js.literal "http" ++ [Js.Opt "s"%char] ++ Js.literal "://") false.

(** [/^www\./] *)
Definition re_www : Js.regex :=
  Js.MkRegex true (Js.literal "www.") false.

(** [/\/$/] *)
Definition re_trailing_slash : Js.regex :=
  Js.MkRegex false [Js.Lit "/"%char] true.

(** [str => str.replace(/^https?:\/\//, '').replace(/^www\./, '')
            .replace(/\/$/, '').toLowerCase()] *)
Definition normalize (str : string) : string :=
  Js.toLowerCase
    (Js.replace_empty re_trailing_slash
       (Js.replace_empty re_www
          (Js.replace_empty re_protocol str))).

(** The constant [isAllowed] of the handler, as a function of the
    partner's domain and of the referrer string.  The referrer is a string
    there (the result of [toString()]), so [referrer || ''] is the referrer
    itself. *)
Definition isAllowed (partnerDomain referrer : string) : bool :=
  let normalizedPartner := normalize partnerDomain in
  let normalizedRef := normalize (Js.or_else (Some referrer) "") in
  String.eqb normalizedRef normalizedPartner
  || Js.startsWith normalizedRef (normalizedPartner +:+ "/")
  || Js.includes normalizedRef normalizedPartner.

(** *** The normalization in the words of the specification *)

(** [Some rest] when [s] is [p] followed by [rest]. *)
Fixpoint strip_prefix (p s : string) {struct p} : option string :=
  match p, s with
  | EmptyString, _ => Some s
  | String _ _, EmptyString => None
  | String b p', String a s' => if Ascii.eqb a b then strip_prefix p' s' else None
  end.

(** Strip a leading [http://] or [https://]. *)
Definition strip_protocol (s : string) : string :=
  match strip_prefix "http://" s, strip_prefix "https://" s with
  | Some rest, _ => rest
  | None, Some rest => rest
  | None, None => s
  end.

(** Strip a leading [www.] label. *)
Definition strip_www (s : string) : string :=
  match strip_prefix "www." s with
  | Some rest => rest
  | None => s
  end.

(** Strip a single trailing slash. *)
Fixpoint strip_trailing_slash (s : string) : string :=
  match s with
  | EmptyString => EmptyString
  | String c EmptyString => if Ascii.eqb c "/" then EmptyString else s
  | String c s' => String c (strip_trailing_slash s')
  end.

Definition normalized (s : string) : string :=
  Js.toLowerCase (strip_trailing_slash (strip_www (strip_protocol s))).

End ReferrerPolicy.

(** ** The request and the two pure helpers: [getRealIP], [parseUserAgent] *)

(** What the handler reads of an Express request: [req.params.code],
    [req.headers] (an object from lower-case header names to strings),
    [req.ip] and [req.connection.remoteAddress]. *)
Record request : Type := MkRequest {
  params_code : string;
  headers : gmap string string;
  ip : option string;
  remoteAddress : option string
}.

(** [function getRealIP(req)] *)
Definition getRealIP (req : request) : string :=
  let forwarded := headers req !! "x-forwarded-for" in
  if Js.truthy forwarded then
    let ips := map Js.trim (Js.split ","%char (default "" forwarded)) in
    nth 0 ips ""
  else
    let realIP := headers req !! "x-real-ip" in
    if Js.truthy realIP then default "" realIP
    else
      let cfConnectingIP := headers req !! "cf-connecting-ip" in
      if Js.truthy cfConnectingIP then default "" cfConnectingIP
      else Js.or_else (Js.or_opt (ip req) (remoteAddress req)) "Unknown".

(** The object [{ device, browser, os }] returned by [parseUserAgent]. *)
Record classification : Type := MkClassification {
  device : string;
  browser : string;
  os : string
}.

(** [function parseUserAgent(userAgent)]: each of the three [let] variables
    starts at its default and is assigned by the first branch that fires. *)
Definition parseUserAgent (userAgent : option string) : classification :=
  let ua := Js.toLowerCase (Js.or_else userAgent "") in
  let device := "Desktop" in
  let device :=
    if Js.includes ua "mobile" then "Mobile"
    else if Js.includes ua "tablet" then "Tablet"
    else device in
  let browser := "Unknown" in
  let browser :=
    if Js.includes ua "chrome" && negb (Js.includes ua "edg") then "Chrome"
    else if Js.includes ua "safari" && negb (Js.includes ua "chrome") then "Safari"
    else if Js.includes ua "firefox" then "Firefox"
    else if Js.includes ua "edg" then "Edge"
    else if Js.includes ua "opera" || Js.includes ua "opr" then "Opera"
    else browser in
  let os := "Unknown" in
  let os :=
    if Js.includes ua "windows" then "Windows"
    else if Js.includes ua "mac" then "macOS"
    else if Js.includes ua "linux" then "Linux"
    else if Js.includes ua "android" then "Android"
    else if Js.includes ua "iphone" || Js.includes ua "ipad" then "iOS"
    else os in
  MkClassification device browser os.

(** *** Words of the specification about headers *)

(** [e] is the first comma-separated entry of [f]: it has no comma, and [f]
    is [e] alone or [e], a comma and the rest. *)
Definition first_entry_of (f e : string) : Prop :=
  ~ occurs_in "," e /\ (f = e \/ exists rest, f = e +:+ "," +:+ rest).

(** A header is present when it has a non-empty value. *)
Definition present (v : option string) (s : string) : Prop :=
  v = Some s /\ s <> "".

Definition absent (v : option string) : Prop :=
  v = None \/ v = Some "".

(** ** The datastore, the geolocation provider and the console

    The handler talks to three things outside the process: the PostgreSQL
    pool, the HTTP API of the geolocation provider and the console.  They
    are the state [world] that the code below threads through its calls. *)

(** *** The tables of [initDB] *)

(** [urls]: [code] is the primary key and the key of the map. *)
Record url_row : Type := MkUrl {
  url : string;
  created : Z;
  clicks : Z;
  partner_id : option Z;
  expires_at : option Z
}.

(** [partners]: [id] is the key of the map. *)
Record partner_row : Type := MkPartner {
  partner_name : string;
  partner_domain : string
}.

(** [clicks]: a row as the handler writes it; [clicked_at] is [NOW()]. *)
Record click_row : Type := MkClick {
  click_code : string;
  click_ip_address : string;
  click_country : string;
  click_city : string;
  click_region : string;
  click_user_agent : string;
  click_device : string;
  click_browser : string;
  click_os : string;
  click_referrer : string;
  clicked_at : Z
}.

(** [bypass_logs]; [detected_at] defaults to [CURRENT_TIMESTAMP]. *)
Record bypass_row : Type := MkBypass {
  bypass_code : string;
  bypass_referrer : string;
  bypass_ip_address : string;
  bypass_user_agent : string;
  detected_at : Z
}.

Record database : Type := MkDatabase {
  urls : gmap string url_row;
  partners : gmap Z partner_row;
  clicks_table : list click_row;
  bypass_logs : list bypass_row
}.

(** A row of [SELECT u.*, p.name as partner_name, p.domain as partner_domain
    FROM urls u LEFT JOIN partners p ON u.partner_id = p.id]: the columns of
    the partner are [NULL] when no partner row joins. *)
Record joined_row : Type := MkJoined {
  row_url : string;
  row_clicks : Z;
  row_expires_at : option Z;
  row_partner_name : option string;
  row_partner_domain : option string
}.

(** The four statements the handler sends to the pool, with their
    parameters. *)
Inductive statement : Type :=
| SelectUrlWithPartner (code : string)
| InsertBypassLog (code referrer ip_address user_agent : string)
| InsertClick (code ip_address country city region user_agent
               device browser os referrer : string)
| IncrementClicks (code : string).

(** *** The geolocation provider *)

(** The fields the code reads of the JSON object of ip-api.com; a field is
    [None] when it is absent or [null].  The provider sends them as
    strings, and as strings they are taken here: a field of another JSON
    type has no term. *)
Record geo_json : Type := MkGeoJson {
  data_status : option string;
  data_message : option string;
  data_country : option string;
  data_city : option string;
  data_regionName : option string
}.

(** The body of a response: not JSON at all, the JSON value [null], or an
    object.  (Any other JSON value has none of the fields and behaves as the
    object without fields.) *)
Inductive response_body : Type :=
| BodyNotJson
| BodyNull
| BodyObject (o : geo_json).

(** What happens to one outbound request: it fails in transport, or the
    response arrives after [latency_ms] milliseconds.  The time the body
    takes after that is left out here; it is in [body_transfer] below,
    where the lookup is written in time. *)
Inductive transfer : Type :=
| TransportError (message : string)
| Response (body : response_body).

Record provider_reply : Type := MkReply {
  latency_ms : Z;
  outcome : transfer
}.

(** *** Exceptions and console lines *)

Inductive exn : Type :=
| DatabaseError
| AbortError
| FetchError (message : string)
| SyntaxError
| TypeError.

(** [err.name === 'AbortError'] *)
Definition is_abort (e : exn) : bool :=
  match e with AbortError => true | _ => false end.

(** The lines the handler and [getLocationFromIP] write with [console.log]
    and [console.error], by the place that writes them. *)
Inductive console_line : Type :=
| LogVisitor (ip referrer : string)
| LogBypassLogged (code ip : string)
| ErrLoggingBypass (e : exn)
| LogFetchingLocation (cleanIP : string)
| LogLocationFound (city country : option string)
| LogApiReturned (message : string)
| ErrLocationTimeout
| ErrFetchingLocation (e : exn)
| LogClickRecorded (code city country : string)
| ErrRecordingClick (e : exn)
| ErrLocationFetchFailed (e : exn)
| ErrClickWithoutLocation (e : exn)
| ErrHandlingRedirect (e : exn).

(** *** The world *)

(** What the environment decides: the clock (milliseconds since the epoch),
    which statements the pool fails for a reason outside the tables
    (connection loss, a value wider than its column, ...), numbered in the
    order they are sent, and the provider's reply to each URL. *)
Record environment : Type := MkEnvironment {
  clock : Z;
  pool_fault : nat -> bool;
  geo_provider : string -> provider_reply
}.

(** What the code has done so far: the statements sent to the pool, each
    with whether it succeeded, the URLs fetched, and the console. *)
Record effects : Type := MkEffects {
  statements : list (statement * bool);
  fetched : list string;
  console : list console_line
}.

Record world : Type := MkWorld {
  env : environment;
  store : database;
  done : effects
}.

(** *** Computations: state and exceptions *)

Inductive completion (A : Type) : Type :=
| Returned (a : A)
| Threw (e : exn).
Arguments Returned {A} a.
Arguments Threw {A} e.

Definition M (A : Type) : Type := world -> completion A * world.

Definition ret {A : Type} (a : A) : M A := fun w => (Returned a, w).

Definition throw {A : Type} (e : exn) : M A := fun w => (Threw e, w).

Definition bind {A B : Type} (c : M A) (k : A -> M B) : M B :=
  fun w =>
    match c w with
    | (Returned a, w') => k a w'
    | (Threw e, w') => (Threw e, w')
    end.

(** [try { body } catch (err) { handler }] *)
Definition try_catch {A : Type} (body : M A) (handler : exn -> M A) : M A :=
  fun w =>
    match body w with
    | (Returned a, w') => (Returned a, w')
    | (Threw e, w') => handler e w'
    end.

Declare Scope js_scope.
Delimit Scope js_scope with js.
Notation "'do' x <- c ; k" := (bind c (fun x => k))
  (at level 10, x name, c at level 100, k at level 200) : js_scope.
Notation "c ;; k" := (bind c (fun _ => k))
  (at level 100, k at level 200, right associativity) : js_scope.
Open Scope js_scope.

(** The world after one more console line. *)
Definition logged (l : console_line) (w : world) : world :=
  MkWorld (env w) (store w)
    (MkEffects (statements (done w)) (fetched (done w)) (console (done w) ++ [l])).

(** [console.log] and [console.error] *)
Definition console_log (l : console_line) : M unit :=
  fun w => (Returned tt, logged l w).

(** [new Date()] *)
Definition new_Date : M Z := fun w => (Returned (clock (env w)), w).

(** *** [pool.query] *)

(** Largest value of an [INTEGER] column. *)
Definition int4_max : Z := 2147483647.

Definition join_partner (db : database) (u : url_row) : joined_row :=
  let p := partner_id u ≫= (fun id => partners db !! id) in
  MkJoined (url u) (clicks u) (expires_at u)
    (partner_name <$> p) (partner_domain <$> p).

(** The effect of a statement on the tables: the rows it returns and the
    new tables, or [None] when the tables refuse it.  [clicks.code] and
    [bypass_logs.code] reference [urls(code)], so an insert for a code
    without a [urls] row is refused; [clicks + 1] is refused when it leaves
    the range of [INTEGER]; an [UPDATE] that matches no row changes
    nothing. *)
Definition execute (now : Z) (st : statement) (db : database)
  : option (list joined_row * database) :=
  match st with
  | SelectUrlWithPartner code =>
      match urls db !! code with
      | Some u => Some ([join_partner db u], db)
      | None => Some ([], db)
      end
  | InsertBypassLog code referrer ip_address user_agent =>
      match urls db !! code with
      | Some _ =>
          Some ([], MkDatabase (urls db) (partners db) (clicks_table db)
                      (bypass_logs db ++ [MkBypass code referrer ip_address user_agent now]))
      | None => None
      end
  | InsertClick code ip_address country city region user_agent device browser os referrer =>
      match urls db !! code with
      | Some _ =>
          Some ([], MkDatabase (urls db) (partners db)
                      (clicks_table db ++
                         [MkClick code ip_address country city region user_agent
                            device browser os referrer now])
                      (bypass_logs db))
      | None => None
      end
  | IncrementClicks code =>
      match urls db !! code with
      | Some u =>
          if clicks u + 1 <=? int4_max
          then Some ([], MkDatabase
                           (<[code := MkUrl (url u) (created u) (clicks u + 1)
                                        (partner_id u) (expires_at u)]> (urls db))
                           (partners db) (clicks_table db) (bypass_logs db))
          else None
      | None => Some ([], db)
      end
  end.

(** The world after a statement has been sent with result [ok] and the
    tables have become [db]. *)
Definition sent (st : statement) (ok : bool) (db : database) (w : world) : world :=
  MkWorld (env w) db
    (MkEffects (statements (done w) ++ [(st, ok)]) (fetched (done w)) (console (done w))).

(** [await pool.query(st)]: the statement is sent; it throws when the
    environment fails it or the tables refuse it, and otherwise returns the
    rows.  Either way the attempt is on record in [statements]. *)
Definition pool_query (st : statement) : M (list joined_row) :=
  fun w =>
    let n := length (statements (done w)) in
    match (if pool_fault (env w) n then None else execute (clock (env w)) st (store w)) with
    | Some (rows, db) => (Returned rows, sent st true db w)
    | None => (Threw DatabaseError, sent st false (store w) w)
    end.

(** *** [fetch] with the abort timer *)

(** The world after one more outbound request. *)
Definition requested (target : string) (w : world) : world :=
  MkWorld (env w) (store w)
    (MkEffects (statements (done w)) (fetched (done w) ++ [target]) (console (done w))).

(** [fetch(url, { signal })] with [setTimeout(() => controller.abort(), ms)]
    armed before it and [clearTimeout] after it: the request is sent; when
    the response has not arrived after [ms] milliseconds the timer aborts
    the request and [fetch] rejects with an [AbortError].  The timer is
    cleared as soon as [fetch] resolves, so it bounds the wait for the
    response and not the reading of its body. *)
Definition fetch_abort_after (ms : Z) (target : string) : M response_body :=
  fun w =>
    let w' := requested target w in
    let reply := geo_provider (env w) target in
    if ms <=? latency_ms reply then (Threw AbortError, w')
    else match outcome reply with
         | TransportError m => (Threw (FetchError m), w')
         | Response body => (Returned body, w')
         end.

(** [await response.json()]; [None] is the value [null]. *)
Definition response_json (body : response_body) : M (option geo_json) :=
  match body with
  | BodyNotJson => throw SyntaxError
  | BodyNull => ret None
  | BodyObject o => ret (Some o)
  end.

(** ** [getLocationFromIP] *)

(** The object [{ country, city, region }]. *)
Record location : Type := MkLocation {
  country : string;
  city : string;
  region : string
}.

Definition local_location : location := MkLocation "Local" "Local" "Local".
Definition unknown_location : location := MkLocation "Unknown" "Unknown" "Unknown".

(** The condition under [// Skip local IPs]. *)
Definition skip_local (ip : string) : bool :=
  negb (Js.truthy (Some ip))
  || String.eqb ip "127.0.0.1" || String.eqb ip "::1" || String.eqb ip "Unknown"
  || Js.startsWith ip "192.168" || Js.startsWith ip "10."
  || Js.startsWith ip "172.16" || Js.startsWith ip "172.31"
  || Js.includes ip "::ffff:127.0.0.1" || Js.includes ip "::1".

(** The URL of the lookup. *)
Definition lookup_url (cleanIP : string) : string :=
  "http://ip-api.com/json/" +:+ cleanIP +:+
  "?fields=status,message,country,city,regionName,lat,lon,timezone".

(** [data.status === 'success'] *)
Definition status_is_success (o : geo_json) : bool :=
  match data_status o with
  | Some s => String.eqb s "success"
  | None => false
  end.

(** [async function getLocationFromIP(ip)].  The [try] block either returns
    a location ([Some]) or falls through ([None]) to the last [return]; the
    [catch] block only writes to the console and falls through as well.
    Reading [data.message] of [null] throws a [TypeError] inside the [try]. *)
Definition getLocationFromIP (ip : string) : M location :=
  do returned <-
    try_catch
      (if skip_local ip then ret (Some local_location)
       else
         let cleanIP := Js.replace_literal "::ffff:" ip in
         console_log (LogFetchingLocation cleanIP) ;;
         do response <- fetch_abort_after 5000 (lookup_url cleanIP) ;
         do data <- response_json response ;
         match data with
         | Some o =>
             if status_is_success o then
               console_log (LogLocationFound (data_city o) (data_country o)) ;;
               ret (Some (MkLocation (Js.or_else (data_country o) "Unknown")
                                     (Js.or_else (data_city o) "Unknown")
                                     (Js.or_else (data_regionName o) "Unknown")))
             else
               console_log (LogApiReturned (Js.or_else (data_message o) "Unknown error")) ;;
               ret None
         | None => throw TypeError
         end)
      (fun err =>
         (if is_abort err then console_log ErrLocationTimeout
          else console_log (ErrFetchingLocation err)) ;;
         ret None) ;
  match returned with
  | Some l => ret l
  | None => ret unknown_location
  end.

(** ** The handler of [GET /:code] *)

(** The bodies the handler sends.  The four pages are template literals;
    only the page of the allowed redirect interpolates anything, namely
    [JSON.stringify(targetUrl)]; the other three are constant texts. *)
Inductive page : Type :=
| NotFoundPage
| ExpiredPage
| BypassDetectedPage
| VerifyingPage (targetUrl : string)
| PlainText (text : string).

(** The target URL a body carries, if any. *)
Definition embedded_target (b : page) : option string :=
  match b with
  | VerifyingPage targetUrl => Some targetUrl
  | _ => None
  end.

Record response : Type := MkResponse {
  status : Z;
  body : page
}.

(** What the callbacks passed to [getLocationFromIP(ip).then(...).catch(...)]
    close over. *)
Record click_task : Type := MkClickTask {
  task_code : string;
  task_ip : string;
  task_userAgent : string;
  task_classification : classification;
  task_referrer : string
}.

Definition insert_click_of (t : click_task) (l : location) : statement :=
  InsertClick (task_code t) (task_ip t) (country l) (city l) (region l)
    (task_userAgent t)
    (device (task_classification t)) (browser (task_classification t))
    (os (task_classification t)) (task_referrer t).

(** [getLocationFromIP(ip).then(async (location) => {...}).catch(err => {...})]:
    the second callback runs when the promise or the first callback
    rejects. *)
Definition record_click (t : click_task) : M unit :=
  try_catch
    (do location <- getLocationFromIP (task_ip t) ;
     try_catch
       (pool_query (insert_click_of t location) ;;
        pool_query (IncrementClicks (task_code t)) ;;
        console_log (LogClickRecorded (task_code t) (city location) (country location)))
       (fun err => console_log (ErrRecordingClick err)))
    (fun err =>
       console_log (ErrLocationFetchFailed err) ;;
       try_catch
         (pool_query (insert_click_of t unknown_location) ;; ret tt)
         (fun e => console_log (ErrClickWithoutLocation e))).

(** [new Date(expiresAt) < new Date()] behind [expiresAt &&]. *)
Definition expired (expiresAt : option Z) (now : Z) : bool :=
  match expiresAt with
  | Some t => t <? now
  | None => false
  end.

(** The partner block of the handler: [Some] is the response it returns,
    [None] means the handler goes on. *)
Definition enforce_partner (code : string) (partnerDomain : option string)
    (referrer ip userAgent : string) : M (option response) :=
  if Js.truthy partnerDomain then
    if negb (ReferrerPolicy.isAllowed (default "" partnerDomain) referrer) then
      try_catch
        (pool_query (InsertBypassLog code referrer ip userAgent) ;;
         console_log (LogBypassLogged code ip))
        (fun err => console_log (ErrLoggingBypass err)) ;;
      ret (Some (MkResponse 403 BypassDetectedPage))
    else ret None
  else ret None.

(** [req.headers['user-agent'] || 'Unknown'] *)
Definition userAgent_of (req : request) : string :=
  Js.or_else (headers req !! "user-agent") "Unknown".

(** [(req.headers['referer'] || req.headers['referrer'] || 'Direct').toString()] *)
Definition referrer_of (req : request) : string :=
  Js.or_else (Js.or_opt (headers req !! "referer") (headers req !! "referrer")) "Direct".

(** [app.get('/:code', async (req, res) => {...})].  The result is the
    response sent and, for an allowed redirect, the click recording that
    was started; that recording completes after the response
    ([record_click]).  The source calls [getLocationFromIP(ip)] just before
    it sends the response, and the call runs up to its first wait at once;
    here the whole call stands with the recording, so the world at the
    response does not yet hold the console line and the request of the
    lookup. *)
Definition get_code (req : request) : M (response * option click_task) :=
  let code := params_code req in
  try_catch
    (do rows <- pool_query (SelectUrlWithPartner code) ;
     match rows with
     | [] => ret (MkResponse 404 NotFoundPage, None)
     | urlData :: _ =>
         let targetUrl := row_url urlData in
         let partnerDomain := row_partner_domain urlData in
         let expiresAt := row_expires_at urlData in
         do now <- new_Date ;
         if expired expiresAt now then ret (MkResponse 410 ExpiredPage, None)
         else
           let ip := getRealIP req in
           let userAgent := userAgent_of req in
           let referrer := referrer_of req in
           console_log (LogVisitor ip referrer) ;;
           do denied <- enforce_partner code partnerDomain referrer ip userAgent ;
           match denied with
           | Some res => ret (res, None)
           | None =>
               let parsed := parseUserAgent (Some userAgent) in
               ret (MkResponse 200 (VerifyingPage targetUrl),
                    Some (MkClickTask code ip userAgent parsed referrer))
           end
     end)
    (fun err =>
       console_log (ErrHandlingRedirect err) ;;
       ret (MkResponse 500 (PlainText "Internal server error"), None)).

(** The request from its arrival to the end of the click recording. *)
Definition serve (req : request) : M response :=
  do sent <- get_code req ;
  match snd sent with
  | Some task => record_click task ;; ret (fst sent)
  | None => ret (fst sent)
  end.

(** ** Words of the specification about the lookup *)

(** The location the resolver owes for a reply of the provider: the
    fallback on a timeout (no response within 5000 ms), on a transport
    error, on a body that is not a JSON object and on a status other than
    [success]; the provider's three fields otherwise, each replaced by
    [Unknown] when it has no value. *)
Definition location_of_reply (reply : provider_reply) : location :=
  if 5000 <=? latency_ms reply then unknown_location
  else match outcome reply with
       | Response (BodyObject o) =>
           if status_is_success o
           then MkLocation (Js.or_else (data_country o) "Unknown")
                           (Js.or_else (data_city o) "Unknown")
                           (Js.or_else (data_regionName o) "Unknown")
           else unknown_location
       | _ => unknown_location
       end.

(** The URL looked up for [ip], with the IPv6 wrapper of a mapped IPv4
    address removed. *)
Definition lookup_target (ip : string) : string :=
  lookup_url (Js.replace_literal "::ffff:" ip).

(** The location the resolver owes for [ip] in an environment. *)
Definition geo_result (e : environment) (ip : string) : location :=
  if skip_local ip then local_location
  else location_of_reply (geo_provider e (lookup_target ip)).

(** What a lookup leaves behind: one more URL fetched and some console
    lines; the tables and the pool are not touched. *)
Definition after_lookup (target : string) (lines : list console_line) (w : world) : world :=
  MkWorld (env w) (store w)
    (MkEffects (statements (done w)) (fetched (done w) ++ [target])
       (console (done w) ++ lines)).

(** ** Words of the specification about the pipeline *)

(** A request is a bypass when the link has a partner with a domain and the
    normalized referrer does not contain the normalized domain. *)
Definition bypassed (partnerDomain : option string) (referrer : string) : Prop :=
  exists d, present partnerDomain d
            /\ ~ occurs_in (ReferrerPolicy.normalized d) (ReferrerPolicy.normalized referrer).



(** The lookup failed: it timed out (no response within 5000 ms), failed in
    transport, or its body was not a JSON object with the status
    [success]. *)
Definition lookup_failed (reply : provider_reply) : Prop :=
  5000 <= latency_ms reply
  \/ (exists m, outcome reply = TransportError m)
  \/ outcome reply = Response BodyNotJson
  \/ outcome reply = Response BodyNull
  \/ (exists o, outcome reply = Response (BodyObject o)
                /\ data_status o <> Some "success").

(** ** Sample inputs *)

Definition quiet_environment (now : Z) : environment :=
  MkEnvironment now (fun _ => false) (fun _ => MkReply 120 (Response BodyNull)).

(** One partner, [example.com], and two links of it: [promo], which expired
    at instant 1000, and [deal], which does not expire; [open] has no
    partner. *)
Definition sample_database : database :=
  MkDatabase
    (<["promo" := MkUrl "https://shop.example/sale" 0 7 (Some 1) (Some 1000)]>
       (<["deal" := MkUrl "https://shop.example/deal" 0 3 (Some 1) None]>
          {["open" := MkUrl "https://shop.example/" 0 0 None None]}))
    {[1 := MkPartner "Example" "example.com"]}
    [] [].

Definition sample_world : world :=
  MkWorld (quiet_environment 2000) sample_database (MkEffects [] [] []).

(** A request for [code] without any header, from the socket address
    [203.0.113.9]. *)
Definition bare_request (code : string) : request :=
  MkRequest code ∅ (Some "203.0.113.9") None.

(** ** The lookup in time

    [getLocationFromIP] waits at two places: for [fetch], which resolves
    when the response (its status line and headers) has arrived, and for
    [response.json()], which resolves when the body has arrived whole and
    has been parsed.  The computations above leave time out, and with it a
    body that never arrives.  Here the function is written once more, with
    the time each wait takes; [latency_ms] of a reply is the time until the
    response arrives. *)

(** What becomes of the body once the response has arrived: it is complete
    [ms] milliseconds later, the connection fails [ms] milliseconds later,
    or the body never ends. *)
Inductive body_transfer : Type :=
| BodyComplete (ms : Z)
| BodyFails (ms : Z) (message : string)
| BodyNeverEnds.

(** What becomes of an asynchronous call: it settles [after_ms]
    milliseconds after it was made, or it stays pending for ever. *)
Inductive in_time (A : Type) : Type :=
| Settles (after_ms : Z) (c : completion A) (w : world)
| Pends (w : world).
Arguments Settles {A} after_ms c w.
Arguments Pends {A} w.

(** The world a call leaves, settled or not. *)
Definition world_left {A : Type} (o : in_time A) : world :=
  match o with
  | Settles _ _ w => w
  | Pends w => w
  end.

Definition T (A : Type) : Type := world -> in_time A.

(** A computation that takes no time. *)
Definition at_once {A : Type} (c : M A) : T A :=
  fun w => let (r, w') := c w in Settles 0 r w'.

Definition timed_bind {A B : Type} (c : T A) (k : A -> T B) : T B :=
  fun w =>
    match c w with
    | Settles t (Returned a) w' =>
        match k a w' with
        | Settles t' r w'' => Settles (t + t') r w''
        | Pends w'' => Pends w''
        end
    | Settles t (Threw e) w' => Settles t (Threw e) w'
    | Pends w' => Pends w'
    end.

Definition timed_try_catch {A : Type} (body : T A) (handler : exn -> T A) : T A :=
  fun w =>
    match body w with
    | Settles t (Returned a) w' => Settles t (Returned a) w'
    | Settles t (Threw e) w' =>
        match handler e w' with
        | Settles t' r w'' => Settles (t + t') r w''
        | Pends w'' => Pends w''
        end
    | Pends w' => Pends w'
    end.

Declare Scope timed_scope.
Delimit Scope timed_scope with timed.
Notation "'do' x <- c ; k" := (timed_bind c (fun x => k))
  (at level 10, x name, c at level 100, k at level 200) : timed_scope.
Notation "c ;; k" := (timed_bind c (fun _ => k))
  (at level 100, k at level 200, right associativity) : timed_scope.

Section TimedLookup.

Local Open Scope timed_scope.

(** What becomes of the body of the response to each URL. *)
Variable bodies : string -> body_transfer.

(** [setTimeout(() => controller.abort(), ms)], then [await fetch(target,
    { signal })], then [clearTimeout(timeout)]: the request is sent;
    [fetch] resolves when the response arrives, with the response whose
    body is still to come; when no response has arrived after [ms]
    milliseconds the timer fires and [fetch] rejects with an [AbortError].
    Once [fetch] has resolved the timer is cleared, so nothing fires
    later. *)
Definition timed_fetch (ms : Z) (target : string) : T response_body :=
  fun w =>
    let w' := requested target w in
    let reply := geo_provider (env w) target in
    if ms <=? latency_ms reply then Settles ms (Threw AbortError) w'
    else match outcome reply with
         | TransportError m => Settles (latency_ms reply) (Threw (FetchError m)) w'
         | Response body => Settles (latency_ms reply) (Returned body) w'
         end.

(** [await response.json()] on the response to [target]: it resolves or
    rejects when the body is complete, rejects when the connection fails,
    and stays pending while the body goes on; no timer is armed any
    more. *)
Definition timed_json (target : string) (body : response_body) : T (option geo_json) :=
  fun w =>
    match bodies target with
    | BodyComplete ms => let (r, w') := response_json body w in Settles ms r w'
    | BodyFails ms m => Settles ms (Threw (FetchError m)) w
    | BodyNeverEnds => Pends w
    end.

(** [async function getLocationFromIP(ip)], in time. *)
Definition timed_getLocationFromIP (ip : string) : T location :=
  do returned <-
    timed_try_catch
      (if skip_local ip then at_once (ret (Some local_location))
       else
         let cleanIP := Js.replace_literal "::ffff:" ip in
         at_once (console_log (LogFetchingLocation cleanIP)) ;;
         do response <- timed_fetch 5000 (lookup_url cleanIP) ;
         do data <- timed_json (lookup_url cleanIP) response ;
         match data with
         | Some o =>
             if status_is_success o then
               at_once (console_log (LogLocationFound (data_city o) (data_country o))) ;;
               at_once (ret (Some (MkLocation (Js.or_else (data_country o) "Unknown")
                                              (Js.or_else (data_city o) "Unknown")
                                              (Js.or_else (data_regionName o) "Unknown"))))
             else
               at_once (console_log
                          (LogApiReturned (Js.or_else (data_message o) "Unknown error"))) ;;
               at_once (ret None)
         | None => at_once (throw TypeError)
         end)
      (fun err =>
         at_once (if is_abort err then console_log ErrLocationTimeout
                  else console_log (ErrFetchingLocation err)) ;;
         at_once (ret None)) ;
  match returned with
  | Some l => at_once (ret l)
  | None => at_once (ret unknown_location)
  end.

End TimedLookup.

(** ** Sample inputs for the lookup in time *)

(** A world whose provider answers every URL after 20 ms with a successful
    reply for Reykjavik. *)
Definition prompt_world : world :=
  MkWorld
    (MkEnvironment 0 (fun _ => false)
       (fun _ => MkReply 20
                   (Response
                      (BodyObject
                         (MkGeoJson (Some "success") None
                            (Some "Iceland") (Some "Reykjavik") (Some "Capital Region"))))))
    sample_database (MkEffects [] [] []).

(** ** More sample inputs *)

(** The sample tables behind a pool that fails every statement. *)
Definition outage_world : world :=
  MkWorld (MkEnvironment 2000 (fun _ => true) (fun _ => MkReply 120 (Response BodyNull)))
    sample_database (MkEffects [] [] []).

(** A request for [code] that names [page] as its referrer. *)
Definition request_from (code page : string) : request :=
  MkRequest code {["referer" := page]} (Some "203.0.113.9") None.

(** The value a computation returned, if it did not throw. *)
Definition fst_returned {A : Type} (r : completion A * world) : option A :=
  match fst r with
  | Returned a => Some a
  | Threw _ => None
  end.

(** ** More words about strings *)

(** Every character of [s] is white space for [trim]. *)
Fixpoint blank (s : string) : bool :=
  match s with
  | EmptyString => true
  | String c s' => Js.isWhiteSpace c && blank s'
  end.

(** [s] neither begins nor ends with white space. *)
Definition trimmed (s : string) : Prop :=
  (forall c rest, s = String c rest -> Js.isWhiteSpace c = false)
  /\ (forall pre c, s = pre +:+ String c "" -> Js.isWhiteSpace c = false).

(** ** The admin routes

    [requireAuth], [generateCode] and the handlers of
    [POST /api/partners], [POST /api/shorten], [DELETE /api/urls/:code],
    [GET /api/urls] and [GET /api/analytics/:code].
    They work on the same tables as the redirect handler.  Their
    computations thread an [admin_world]: the tables, the environment (the
    clock and the faults of the pool, as before), the values drawn from
    [Math.random], what the database decides on its own (the values of the
    sequence behind [partners.id], the order of the rows of a listing, the
    rows of the analytics queries), and what has been done so far. *)

Module Admin.

(** A field of the JSON body that the code uses as a string: absent (or
    [null]), a string, or a value of another type, of which only the
    truthiness matters. *)
Inductive json_field : Type :=
| Missing
| Text (s : string)
| Other (truthy : bool).

(** What the admin handlers read of a request: the headers, the [password]
    of the query string, [req.params.code], [req.protocol],
    [req.get('host')] and the fields of the JSON body.  [customCode], [name]
    and [domain] are taken to be strings when present, [partnerId] a number
    and [expiresAt] an instant. *)
Record admin_request : Type := MkAdminRequest {
  admin_headers : gmap string string;
  query_password : option string;
  route_code : string;
  protocol : string;
  host : option string;
  body_url : json_field;
  body_customCode : option string;
  body_partnerId : option Z;
  body_expiresAt : option Z;
  body_name : option string;
  body_domain : option string
}.

(** The statements of the handlers.  [SelectAllUrls] is the listing of
    [GET /api/urls]; the last four are the queries of
    [GET /api/analytics/:code], in the order the handler sends them. *)
Inductive admin_statement : Type :=
| SelectCode (code : string)
| InsertUrl (code url : string) (partner_id expires_at : option Z)
| DeleteUrl (code : string)
| InsertPartner (name domain : string)
| SelectAllUrls
| SelectRecentClicks (code : string)
| SelectCountryStats (code : string)
| SelectDeviceStats (code : string)
| SelectBypassLogs (code : string).

(** The rows they return: [code] of [urls]; a whole row of [partners]; a
    row of [urls] with the partner that joins, if one does; and a row of an
    analytics query, which the handler passes on unread, as its JSON
    text. *)
Inductive admin_row : Type :=
| CodeRow (code : string)
| PartnerRow (id : Z) (name domain : string)
| UrlRow (code : string) (u : url_row) (partner : option partner_row)
| JsonRow (text : string).

(** The value [GET /api/urls] stores under a code. *)
Record url_entry : Type := MkEntry {
  entry_url : string;
  entry_created : Z;
  entry_clicks : Z;
  entry_partnerId : option Z;
  entry_partnerName : option string;
  entry_partnerDomain : option string;
  entry_expiresAt : option Z
}.

(** The JSON bodies the handlers send.  An object whose keys are data is a
    map; the order of the keys of a JSON object carries no meaning. *)
Inductive admin_json : Type :=
| JsonError (error : string)
| JsonPartner (id : Z) (name domain : string)
| JsonShortened (code shortUrl : string)
| JsonSuccess
| JsonUndefined
| JsonUrls (entries : gmap string url_entry)
| JsonAnalytics (recentClicks countryStats deviceStats bypassAttempts : list admin_row)
| JsonErrorDetails (error : string) (err : exn) (code : string).

Record admin_response : Type := MkAdminResponse {
  admin_status : Z;
  admin_body : admin_json
}.

Inductive admin_console_line : Type :=
| ErrCreatingPartner (e : exn)
| ErrCreatingShortUrl (e : exn)
| ErrDeletingUrl (e : exn)
| ErrFetchingUrls (e : exn)
| LogFetchingAnalytics (code : string)
| LogUrlNotFound (code : string)
| LogFoundClicks (n : nat) (code : string)
| ErrFetchingClicks (e : exn)
| ErrFetchingCountryStats (e : exn)
| ErrFetchingDeviceStats (e : exn)
| LogFoundBypasses (n : nat) (code : string)
| ErrFetchingBypassLogs (e : exn)
| LogReturningAnalytics (code : string) (clicks bypasses : nat)
| ErrFetchingAnalytics (e : exn)
| ErrDetails (e : exn)
| ErrStackTrace (e : exn).

(** For the statement sent [k]-th: [partners_id_seq k] is the value the
    sequence gives it, if it asks for one; [listing_order k] is the order
    in which the database returns the rows of [urls], by their codes, if it
    is the listing ([ORDER BY created DESC], rows created at the same
    instant as the database likes); [analytics_rows k] are the rows the
    database returns if it is one of the analytics queries. *)
Record admin_world : Type := MkAdminWorld {
  admin_env : environment;
  random_index : nat -> nat;
  tables : database;
  partners_id_seq : nat -> Z;
  listing_order : nat -> list string;
  analytics_rows : nat -> list string;
  admin_sent : list (admin_statement * bool);
  drawn : nat;
  admin_console : list admin_console_line
}.

Definition AdminM (A : Type) : Type := admin_world -> completion A * admin_world.

Definition admin_ret {A : Type} (a : A) : AdminM A := fun w => (Returned a, w).

Definition admin_throw {A : Type} (e : exn) : AdminM A := fun w => (Threw e, w).

Definition admin_bind {A B : Type} (c : AdminM A) (k : A -> AdminM B) : AdminM B :=
  fun w =>
    match c w with
    | (Returned a, w') => k a w'
    | (Threw e, w') => (Threw e, w')
    end.

Definition admin_try_catch {A : Type} (body : AdminM A) (handler : exn -> AdminM A) : AdminM A :=
  fun w =>
    match body w with
    | (Returned a, w') => (Returned a, w')
    | (Threw e, w') => handler e w'
    end.

Declare Scope admin_scope.
Delimit Scope admin_scope with admin.
Notation "'do' x <- c ; k" := (admin_bind c (fun x => k))
  (at level 10, x name, c at level 100, k at level 200) : admin_scope.
Notation "c ;; k" := (admin_bind c (fun _ => k))
  (at level 100, k at level 200, right associativity) : admin_scope.
Local Open Scope admin_scope.

(** [console.error] and [console.log] *)
Definition console_error (l : admin_console_line) : AdminM unit :=
  fun w =>
    (Returned tt,
     MkAdminWorld (admin_env w) (random_index w) (tables w) (partners_id_seq w)
       (listing_order w) (analytics_rows w) (admin_sent w) (drawn w)
       (admin_console w ++ [l])).

(** [Math.floor(Math.random() * chars.length)]: the next value drawn.  The
    environment gives the values as indexes; [Math.random] returns a number
    below 1, so an index is below the length of [chars]. *)
Definition random_chars_index : AdminM nat :=
  fun w =>
    (Returned (random_index w (drawn w)),
     MkAdminWorld (admin_env w) (random_index w) (tables w) (partners_id_seq w)
       (listing_order w) (analytics_rows w) (admin_sent w) (S (drawn w))
       (admin_console w)).

(** *** [pool.query] for the admin statements *)

(** The row of the listing for [code]: [SELECT u.*, p.name as partner_name,
    p.domain as partner_domain FROM urls u LEFT JOIN partners p ON
    u.partner_id = p.id]. *)
Definition listed_row (db : database) (code : string) : option admin_row :=
  u ← urls db !! code ;
  Some (UrlRow code u (partner_id u ≫= (fun id => partners db !! id))).

(** The effect of a statement on the tables; [id] is the value of the
    sequence of [partners.id] for it, [order] the order of a listing and
    [answer] the rows of an analytics query.  [urls.code] and [partners.id]
    are primary keys, so an insert under a key in use is refused; a delete
    takes the [clicks] and [bypass_logs] rows of the code with it ([ON
    DELETE CASCADE]); [urls.partner_id] references nothing, so the id of no
    partner is stored as well.  A value that does not fit its column is,
    as before, among the faults of the pool. *)
Definition admin_execute (now : Z) (id : Z) (order answer : list string)
    (st : admin_statement) (db : database)
  : option (list admin_row * database) :=
  match st with
  | SelectCode code =>
      match urls db !! code with
      | Some _ => Some ([CodeRow code], db)
      | None => Some ([], db)
      end
  | InsertUrl code url partner_id expires_at =>
      match urls db !! code with
      | Some _ => None
      | None =>
          Some ([],
                MkDatabase (<[code := MkUrl url now 0 partner_id expires_at]> (urls db))
                  (partners db) (clicks_table db) (bypass_logs db))
      end
  | DeleteUrl code =>
      match urls db !! code with
      | Some _ =>
          Some ([CodeRow code],
                MkDatabase (delete code (urls db)) (partners db)
                  (List.filter (fun r => negb (String.eqb (click_code r) code))
                     (clicks_table db))
                  (List.filter (fun r => negb (String.eqb (bypass_code r) code))
                     (bypass_logs db)))
      | None => Some ([], db)
      end
  | InsertPartner name domain =>
      match partners db !! id with
      | Some _ => None
      | None =>
          Some ([PartnerRow id name domain],
                MkDatabase (urls db) (<[id := MkPartner name domain]> (partners db))
                  (clicks_table db) (bypass_logs db))
      end
  | SelectAllUrls => Some (omap (listed_row db) order, db)
  | SelectRecentClicks _ | SelectCountryStats _ | SelectDeviceStats _
  | SelectBypassLogs _ => Some (JsonRow <$> answer, db)
  end.

(** [await pool.query(st)] *)
Definition admin_query (st : admin_statement) : AdminM (list admin_row) :=
  fun w =>
    let n := length (admin_sent w) in
    match (if pool_fault (admin_env w) n then None
           else admin_execute (clock (admin_env w)) (partners_id_seq w n)
                  (listing_order w n) (analytics_rows w n) st (tables w)) with
    | Some (rows, db) =>
        (Returned rows,
         MkAdminWorld (admin_env w) (random_index w) db (partners_id_seq w)
           (listing_order w) (analytics_rows w) (admin_sent w ++ [(st, true)]) (drawn w)
           (admin_console w))
    | None =>
        (Threw DatabaseError,
         MkAdminWorld (admin_env w) (random_index w) (tables w) (partners_id_seq w)
           (listing_order w) (analytics_rows w) (admin_sent w ++ [(st, false)]) (drawn w)
           (admin_console w))
    end.

(** *** [requireAuth] *)

(** [process.env.ADMIN_PASSWORD || 'changeme123'] *)
Definition ADMIN_PASSWORD (env_ADMIN_PASSWORD : option string) : string :=
  Js.or_else env_ADMIN_PASSWORD "changeme123".

(** [req.headers['x-admin-password'] || req.query.password] *)
Definition password_of (req : admin_request) : option string :=
  Js.or_opt (admin_headers req !! "x-admin-password") (query_password req).

(** [password !== ADMIN_PASSWORD] *)
Definition differs (password : option string) (expected : string) : bool :=
  match password with
  | Some p => negb (String.eqb p expected)
  | None => true
  end.

(** [function requireAuth(req, res, next)]; [respond] is [res], used once. *)
Definition requireAuth {A : Type} (env_ADMIN_PASSWORD : option string)
    (req : admin_request) (respond : admin_response -> AdminM A) (next : AdminM A) : AdminM A :=
  let password := password_of req in
  if differs password (ADMIN_PASSWORD env_ADMIN_PASSWORD)
  then respond (MkAdminResponse 401 (JsonError "Unauthorized: Invalid password"))
  else next.

(** *** [generateCode] *)

Definition chars : string :=
  "abcdefghijklmnopqrstuvwxyzABCDEFGHIJKLMNOPQRSTUVWXYZ0123456789".

(** [s.charAt(i)]: the empty string when [i] is out of range. *)
Fixpoint charAt (s : string) (i : nat) : string :=
  match s, i with
  | EmptyString, _ => EmptyString
  | String c _, O => String c EmptyString
  | String _ s', S i' => charAt s' i'
  end.

(** The [for] loop of [generateCode], [n] rounds to go. *)
Fixpoint generate_rounds (n : nat) (code : string) : AdminM string :=
  match n with
  | O => admin_ret code
  | S n' =>
      do k <- random_chars_index ;
      generate_rounds n' (code +:+ charAt chars k)
  end.

(** [function generateCode()] *)
Definition generateCode : AdminM string := generate_rounds 6 "".

(** *** [POST /api/partners] *)

Definition create_partner (req : admin_request) : AdminM admin_response :=
  let name := body_name req in
  let domain := body_domain req in
  if negb (Js.truthy name) || negb (Js.truthy domain)
  then admin_ret (MkAdminResponse 400 (JsonError "Name and domain are required"))
  else
    admin_try_catch
      (do inserted <- admin_query (InsertPartner (default "" name) (default "" domain)) ;
       match inserted with
       | PartnerRow id n d :: _ => admin_ret (MkAdminResponse 200 (JsonPartner id n d))
       | _ => admin_ret (MkAdminResponse 200 JsonUndefined)
       end)
      (fun err =>
         console_error (ErrCreatingPartner err) ;;
         admin_ret (MkAdminResponse 500 (JsonError "Database error"))).

(** *** [POST /api/shorten] *)

(** A line terminator, which [.] of a regular expression does not match; in
    the Latin-1 range these are LF and CR. *)
Definition isLineTerminator (c : ascii) : bool :=
  let n := N_of_ascii c in (n =? 10)%N || (n =? 13)%N.

(** [url.match(/^https?:\/\/.+/)] is not [null]: the protocol pattern of the
    referrer policy matches at the start and one more character that is not
    a line terminator follows.  (When the greedy [s?] is followed by [://]
    and then by nothing that [.] matches, the alternative without the [s]
    fails at the colon, so the first match of the prefix decides.) *)
Definition url_matches (url : string) : bool :=
  match Js.match_here (Js.atoms ReferrerPolicy.re_protocol) false url with
  | Some (String c _) => negb (isLineTerminator c)
  | _ => false
  end.

(** [!url || !url.match(...)]: a truthy value that is not a string has no
    [match] method, and the call throws a [TypeError]; this test stands
    before the [try] of the handler. *)
Definition url_rejected (url : json_field) : AdminM bool :=
  match url with
  | Missing => admin_ret true
  | Text s => admin_ret (negb (Js.truthy (Some s)) || negb (url_matches s))
  | Other truthy => if truthy then admin_throw TypeError else admin_ret true
  end.

(** The [while (!customCode)] loop with the code at hand: [Some] is the
    code the loop leaves with, [None] means that [fuel] rounds did not
    end it. *)
Fixpoint ensure_unique (fuel : nat) (code : string) : AdminM (option string) :=
  match fuel with
  | O => admin_ret None
  | S fuel' =>
      do check <- admin_query (SelectCode code) ;
      if (length check =? 0)%nat then admin_ret (Some code)
      else
        do code' <- generateCode ;
        ensure_unique fuel' code'
  end.

(** [`${req.protocol}://${req.get('host')}/${code}`]; a missing host prints
    as [undefined]. *)
Definition shortUrl (req : admin_request) (code : string) : string :=
  protocol req +:+ "://" +:+ default "undefined" (host req) +:+ "/" +:+ code.

(** [partnerId || null]: the number 0 is falsy. *)
Definition partnerId_or_null (partnerId : option Z) : option Z :=
  match partnerId with
  | Some 0 => None
  | other => other
  end.

(** The handler of [POST /api/shorten]; [None] means that the loop did not
    end within [fuel] rounds. *)
Definition shorten (fuel : nat) (req : admin_request) : AdminM (option admin_response) :=
  do rejected <- url_rejected (body_url req) ;
  if rejected then admin_ret (Some (MkAdminResponse 400 (JsonError "Invalid URL")))
  else
    let url := match body_url req with Text s => s | _ => "" end in
    let customCode := body_customCode req in
    admin_try_catch
      (do code <- (if Js.truthy customCode then admin_ret (default "" customCode)
                   else generateCode) ;
       do existing <- admin_query (SelectCode code) ;
       if (0 <? length existing)%nat
       then admin_ret (Some (MkAdminResponse 409 (JsonError "Code already exists")))
       else
         do unique <- (if Js.truthy customCode then admin_ret (Some code)
                       else ensure_unique fuel code) ;
         match unique with
         | None => admin_ret None
         | Some code =>
             admin_query (InsertUrl code url (partnerId_or_null (body_partnerId req))
                           (body_expiresAt req)) ;;
             admin_ret (Some (MkAdminResponse 200 (JsonShortened code (shortUrl req code))))
         end)
      (fun err =>
         console_error (ErrCreatingShortUrl err) ;;
         admin_ret (Some (MkAdminResponse 500 (JsonError "Database error")))).

(** *** [DELETE /api/urls/:code] *)

Definition delete_url (req : admin_request) : AdminM admin_response :=
  let code := route_code req in
  admin_try_catch
    (do result <- admin_query (DeleteUrl code) ;
     if (length result =? 0)%nat
     then admin_ret (MkAdminResponse 404 (JsonError "URL not found"))
     else admin_ret (MkAdminResponse 200 JsonSuccess))
    (fun err =>
       console_error (ErrDeletingUrl err) ;;
       admin_ret (MkAdminResponse 500 (JsonError "Database error"))).

(** *** [GET /api/urls] *)

Definition entry_of (u : url_row) (partner : option partner_row) : url_entry :=
  MkEntry (url u) (created u) (clicks u) (partner_id u)
    (partner_name <$> partner) (partner_domain <$> partner) (expires_at u).

(** [urls[key] = value] on an ordinary object, [value] being an object:
    the key [__proto__] names the accessor of [Object.prototype], so the
    assignment replaces the prototype and creates no property; what is
    inherited is not part of the JSON text. *)
Definition set_property (o : gmap string url_entry) (key : string) (value : url_entry)
  : gmap string url_entry :=
  if String.eqb key "__proto__" then o else <[key := value]> o.

(** The body of [result.rows.forEach(row => {...})]. *)
Definition add_listed (o : gmap string url_entry) (row : admin_row)
  : gmap string url_entry :=
  match row with
  | UrlRow code u partner => set_property o code (entry_of u partner)
  | _ => o
  end.

Definition list_urls : AdminM admin_response :=
  admin_try_catch
    (do rows <- admin_query SelectAllUrls ;
     let urls := fold_left add_listed rows ∅ in
     admin_ret (MkAdminResponse 200 (JsonUrls urls)))
    (fun err =>
       console_error (ErrFetchingUrls err) ;;
       admin_ret (MkAdminResponse 500 (JsonError "Database error"))).

(** *** [GET /api/analytics/:code] *)

(** [let rows = { rows: [] }; try { rows = await pool.query(st); log } catch
    (err) { console.error(...) }]: the rows, or none when the query
    fails. *)
Definition rows_or_none (st : admin_statement)
    (log : list admin_row -> AdminM unit) (on_error : exn -> admin_console_line)
  : AdminM (list admin_row) :=
  admin_try_catch
    (do rows <- admin_query st ;
     log rows ;;
     admin_ret rows)
    (fun err =>
       console_error (on_error err) ;;
       admin_ret []).

Definition analytics (req : admin_request) : AdminM admin_response :=
  let code := route_code req in
  admin_try_catch
    (console_error (LogFetchingAnalytics code) ;;
     do urlCheck <- admin_query (SelectCode code) ;
     if (length urlCheck =? 0)%nat then
       console_error (LogUrlNotFound code) ;;
       admin_ret (MkAdminResponse 404 (JsonError "URL not found"))
     else
       do clicks <- rows_or_none (SelectRecentClicks code)
                      (fun rows => console_error (LogFoundClicks (length rows) code))
                      ErrFetchingClicks ;
       do countryStats <- rows_or_none (SelectCountryStats code)
                            (fun _ => admin_ret tt) ErrFetchingCountryStats ;
       do deviceStats <- rows_or_none (SelectDeviceStats code)
                           (fun _ => admin_ret tt) ErrFetchingDeviceStats ;
       do bypasses <- rows_or_none (SelectBypassLogs code)
                        (fun rows => console_error (LogFoundBypasses (length rows) code))
                        ErrFetchingBypassLogs ;
       console_error (LogReturningAnalytics code (length clicks) (length bypasses)) ;;
       admin_ret (MkAdminResponse 200
                    (JsonAnalytics clicks countryStats deviceStats bypasses)))
    (fun err =>
       console_error (ErrFetchingAnalytics err) ;;
       console_error (ErrDetails err) ;;
       console_error (ErrStackTrace err) ;;
       admin_ret (MkAdminResponse 500 (JsonErrorDetails "Database error" err code))).

(** *** The routes: [requireAuth] before each handler *)

Definition route_partners (env_ADMIN_PASSWORD : option string) (req : admin_request)
  : AdminM admin_response :=
  requireAuth env_ADMIN_PASSWORD req admin_ret (create_partner req).

Definition route_shorten (env_ADMIN_PASSWORD : option string) (fuel : nat)
    (req : admin_request) : AdminM (option admin_response) :=
  requireAuth env_ADMIN_PASSWORD req (fun r => admin_ret (Some r)) (shorten fuel req).

Definition route_delete (env_ADMIN_PASSWORD : option string) (req : admin_request)
  : AdminM admin_response :=
  requireAuth env_ADMIN_PASSWORD req admin_ret (delete_url req).

Definition route_urls (env_ADMIN_PASSWORD : option string) (req : admin_request)
  : AdminM admin_response :=
  requireAuth env_ADMIN_PASSWORD req admin_ret list_urls.

Definition route_analytics (env_ADMIN_PASSWORD : option string) (req : admin_request)
  : AdminM admin_response :=
  requireAuth env_ADMIN_PASSWORD req admin_ret (analytics req).

End Admin.

(** ** Words about the admin routes *)

(** The admin world after a statement has been sent with result [ok] and
    the tables have become [db]. *)
Definition admin_after (st : Admin.admin_statement) (ok : bool) (db : database)
    (w : Admin.admin_world) : Admin.admin_world :=
  Admin.MkAdminWorld (Admin.admin_env w) (Admin.random_index w) db
    (Admin.partners_id_seq w) (Admin.listing_order w)
    (Admin.analytics_rows w) (Admin.admin_sent w ++ [(st, ok)]) (Admin.drawn w)
    (Admin.admin_console w).

(** The admin world after a failed statement. *)
Definition admin_failed (st : Admin.admin_statement) (w : Admin.admin_world)
  : Admin.admin_world :=
  admin_after st false (Admin.tables w) w.

(** The admin world after [n] more values have been drawn. *)
Definition admin_drew (n : nat) (w : Admin.admin_world) : Admin.admin_world :=
  Admin.MkAdminWorld (Admin.admin_env w) (Admin.random_index w) (Admin.tables w)
    (Admin.partners_id_seq w) (Admin.listing_order w)
    (Admin.analytics_rows w) (Admin.admin_sent w) (n + Admin.drawn w)
    (Admin.admin_console w).

(** The admin world after one more console line. *)
Definition admin_logged (l : Admin.admin_console_line) (w : Admin.admin_world)
  : Admin.admin_world :=
  Admin.MkAdminWorld (Admin.admin_env w) (Admin.random_index w) (Admin.tables w)
    (Admin.partners_id_seq w) (Admin.listing_order w)
    (Admin.analytics_rows w) (Admin.admin_sent w) (Admin.drawn w)
    (Admin.admin_console w ++ [l]).

(** A letter of the English alphabet or a digit. *)
Definition alphanumeric (c : ascii) : bool :=
  let n := N_of_ascii c in
  ((48 <=? n)%N && (n <=? 57)%N)
  || ((65 <=? n)%N && (n <=? 90)%N)
  || ((97 <=? n)%N && (n <=? 122)%N).

Fixpoint all_alphanumeric (s : string) : bool :=
  match s with
  | EmptyString => true
  | String c s' => alphanumeric c && all_alphanumeric s'
  end.

(** The code [POST /api/shorten] works with is [code]: the custom code of
    the request, or the one [generateCode] gives in this world. *)
Definition code_at_hand (r : Admin.admin_request) (v : Admin.admin_world)
    (code : string) : Prop :=
  if Js.truthy (Admin.body_customCode r)
  then code = default "" (Admin.body_customCode r)
  else fst (Admin.generateCode v) = Returned code.

(** The row [POST /api/shorten] writes for a request. *)
Definition new_url_row (url : string) (req : Admin.admin_request) (now : Z) : url_row :=
  MkUrl url now 0 (Admin.partnerId_or_null (Admin.body_partnerId req))
    (Admin.body_expiresAt req).

(** The entry of the listing for [code], from the tables. *)
Definition listed_entry (db : database) (code : string) : option Admin.url_entry :=
  (fun u => Admin.entry_of u (partner_id u ≫= (fun id => partners db !! id)))
    <$> urls db !! code.

(** ** Sample inputs for the admin routes *)

Definition sample_admin_world : Admin.admin_world :=
  Admin.MkAdminWorld (quiet_environment 2000) (fun k => (7 * k + 3) mod 62)%nat
    sample_database (fun k => 2 + Z.of_nat k) (fun _ => ["promo"; "open"; "deal"])
    (fun _ => []) [] 0 [].

(** A request to shorten [url] under [customCode], with the password in the
    header. *)
Definition shorten_request (password url : string) (customCode : option string)
  : Admin.admin_request :=
  Admin.MkAdminRequest {["x-admin-password" := password]} None "" "https"
    (Some "sho.rt") (Admin.Text url) customCode None None None None.

(** * Properties *)

Section StringFacts.

Lemma append_nil_l (s : string) : "" +:+ s = s.
Proof. reflexivity. Qed.

Lemma append_cons (c : ascii) (s t : string) :
  String c s +:+ t = String c (s +:+ t).
Proof. reflexivity. Qed.

Lemma append_nil_r (s : string) : s +:+ "" = s.
Proof.
  induction s as [|c s IH]; [reflexivity |].
  now rewrite append_cons, IH.
Qed.

Lemma append_assoc (a b c : string) : (a +:+ b) +:+ c = a +:+ b +:+ c.
Proof.
  induction a as [|x a IH]; [reflexivity |].
  now rewrite !append_cons, IH.
Qed.

Lemma startsWith_begins (s p : string) :
  Js.startsWith s p = true <-> begins_with s p.
Proof.
  revert s; induction p as [|b p IH]; intros s; cbn.
  - split; [intros _; now exists s | reflexivity].
  - destruct s as [|a s].
    + split; [discriminate | intros [rest H]; discriminate].
    + rewrite andb_true_iff, IH, Ascii.eqb_eq. split.
      * intros [-> [rest ->]]. now exists rest.
      * intros [rest H]. rewrite append_cons in H. injection H as -> ->.
        split; [reflexivity | now exists rest].
Qed.

Lemma includes_occurs (s p : string) :
  Js.includes s p = true <-> occurs_in p s.
Proof.
  induction s as [|a s IH]; cbn [Js.includes]; rewrite orb_true_iff.
  - rewrite startsWith_begins. split.
    + intros [[rest H] | H]; [| discriminate]. now exists "", rest.
    + intros [pre [post H]]. left. destruct pre; [now exists post | discriminate].
  - rewrite startsWith_begins, IH. split.
    + intros [[rest H] | [pre [post H]]].
      * now exists "", rest.
      * exists (String a pre), post. now rewrite append_cons, H.
    + intros [pre [post H]]. destruct pre as [|x pre].
      * left. now exists post.
      * right. rewrite append_cons in H. injection H as -> ->. now exists pre, post.
Qed.

Lemma occurs_in_refl (s : string) : occurs_in s s.
Proof. exists "", "". now rewrite append_nil_l, append_nil_r. Qed.

Lemma begins_with_occurs (s p q : string) :
  begins_with s (p +:+ q) -> occurs_in p s.
Proof.
  intros [rest ->]. exists "", (q +:+ rest). now rewrite append_nil_l, append_assoc.
Qed.

End StringFacts.

Section MoreStringFacts.

Lemma includes_reflect (s p : string) : reflect (occurs_in p s) (Js.includes s p).
Proof. apply iff_reflect. symmetry. apply includes_occurs. Qed.

Lemma includes_false (s p : string) :
  Js.includes s p = false <-> ~ occurs_in p s.
Proof.
  rewrite <- includes_occurs. destruct (Js.includes s p); split; congruence.
Qed.

Lemma toLowerCase_append (a b : string) :
  Js.toLowerCase (a +:+ b) = Js.toLowerCase a +:+ Js.toLowerCase b.
Proof.
  induction a as [|c a IH]; [reflexivity |].
  rewrite append_cons. cbn [Js.toLowerCase]. now rewrite IH, append_cons.
Qed.

(** An occurrence survives lower-casing, lower-cased. *)
Lemma occurs_in_toLowerCase (p s : string) :
  occurs_in p s -> occurs_in (Js.toLowerCase p) (Js.toLowerCase s).
Proof.
  intros [pre [post ->]]. exists (Js.toLowerCase pre), (Js.toLowerCase post).
  now rewrite !toLowerCase_append.
Qed.

Lemma occurs_in_trans (p q s : string) :
  occurs_in p q -> occurs_in q s -> occurs_in p s.
Proof.
  intros [a [b ->]] [c [d ->]]. exists (c +:+ a), (b +:+ d).
  now rewrite !append_assoc.
Qed.

Lemma truthy_Some (v : option string) :
  Js.truthy v = true <-> exists s, v = Some s /\ s <> "".
Proof.
  destruct v as [[|c s]|]; cbn; split; try discriminate.
  - intros [s [[= <-] H]]. contradiction.
  - intros _. now exists (String c s).
  - reflexivity.
  - intros [s [H _]]. discriminate.
Qed.

Lemma or_else_truthy (v : option string) (s dflt : string) :
  v = Some s -> s <> "" -> Js.or_else v dflt = s.
Proof. intros -> H. destruct s; [contradiction | reflexivity]. Qed.

End MoreStringFacts.

Section ReferrerPolicyFacts.
Import ReferrerPolicy.

Lemma strip_prefix_Some (p s rest : string) :
  strip_prefix p s = Some rest <-> s = p +:+ rest.
Proof.
  revert s; induction p as [|b p IH]; intros s; cbn.
  - rewrite append_nil_l. split; congruence.
  - destruct s as [|a s]; [split; discriminate |].
    rewrite append_cons. destruct (Ascii.eqb_spec a b) as [->|Hne].
    + rewrite IH. split; congruence.
    + split; [discriminate | congruence].
Qed.

Lemma strip_trailing_slash_slash (s : string) :
  strip_trailing_slash (s +:+ "/") = s.
Proof.
  induction s as [|c s IH]; [reflexivity |].
  rewrite append_cons. cbn [strip_trailing_slash]. rewrite IH.
  destruct s; reflexivity.
Qed.

Lemma strip_trailing_slash_other (s : string) :
  (forall t, s <> t +:+ "/") -> strip_trailing_slash s = s.
Proof.
  induction s as [|c s IH]; intros H; [reflexivity |].
  cbn [strip_trailing_slash]. destruct s as [|c' s].
  - destruct (Ascii.eqb_spec c "/") as [->|Hne]; [| reflexivity].
    exfalso. now apply (H "").
  - rewrite IH; [reflexivity |]. intros t Ht. apply (H (String c t)).
    now rewrite append_cons, Ht.
Qed.

(** The matcher on a literal pattern is prefix stripping. *)
Lemma match_here_literal (p : string) (q : list Js.atom) (e : bool) (s : string) :
  Js.match_here (Js.literal p ++ q) e s =
  match strip_prefix p s with
  | Some rest => Js.match_here q e rest
  | None => None
  end.
Proof.
  revert s; induction p as [|b p IH]; intros s; [reflexivity |].
  cbn [Js.literal strip_prefix]. rewrite <- app_comm_cons. cbn [Js.match_here].
  destruct s as [|a s]; [reflexivity |].
  destruct (Ascii.eqb a b); [apply IH | reflexivity].
Qed.

Lemma match_here_literal_only (p s : string) :
  Js.match_here (Js.literal p) false s = strip_prefix p s.
Proof.
  rewrite <- (app_nil_r (Js.literal p)), match_here_literal.
  destruct (strip_prefix p s); reflexivity.
Qed.

Lemma strip_prefix_app (p q s : string) :
  strip_prefix (p +:+ q) s =
  match strip_prefix p s with
  | Some rest => strip_prefix q rest
  | None => None
  end.
Proof.
  revert s; induction p as [|b p IH]; intros s; [reflexivity |].
  rewrite append_cons. cbn [strip_prefix]. destruct s as [|a s]; [reflexivity |].
  destruct (Ascii.eqb a b); [apply IH | reflexivity].
Qed.

Lemma replace_protocol (s : string) :
  Js.replace_empty re_protocol s = strip_protocol s.
Proof.
  unfold Js.replace_empty, re_protocol, strip_protocol; cbn [Js.anchored_start Js.atoms Js.anchored_end].
  rewrite match_here_literal.
  change "http://" with ("http" +:+ "://").
  change "https://" with ("http" +:+ "s://").
  rewrite !strip_prefix_app.
  destruct (strip_prefix "http" s) as [r|]; [| reflexivity].
  cbn [app Js.match_here].
  destruct r as [|a r].
  - reflexivity.
  - rewrite !match_here_literal_only.
    destruct (Ascii.eqb_spec a "s") as [->|Hne].
    + change (strip_prefix "s://" (String "s" r)) with (strip_prefix "://" r).
      change (strip_prefix "://" (String "s" r)) with (@None string).
      destruct (strip_prefix "://" r); reflexivity.
    + assert (strip_prefix "s://" (String a r) = None) as ->.
      { cbn. destruct (Ascii.eqb_spec a "s"); [contradiction | reflexivity]. }
      destruct (strip_prefix "://" (String a r)); reflexivity.
Qed.

Lemma replace_www (s : string) :
  Js.replace_empty re_www s = strip_www s.
Proof.
  unfold Js.replace_empty, re_www, strip_www; cbn [Js.anchored_start Js.atoms Js.anchored_end].
  now rewrite match_here_literal_only.
Qed.

Lemma replace_trailing_slash (s : string) :
  Js.replace_empty re_trailing_slash s = strip_trailing_slash s.
Proof.
  unfold Js.replace_empty, re_trailing_slash; cbn [Js.anchored_start Js.atoms Js.anchored_end].
  induction s as [|c s IH]; [reflexivity |].
  cbn [Js.remove_leftmost Js.match_here strip_trailing_slash].
  destruct s as [|c' s].
  - cbn. destruct (Ascii.eqb c "/"); reflexivity.
  - destruct (Ascii.eqb c "/"); cbn [option_map];
      destruct (Js.remove_leftmost [Js.Lit "/"%char] true (String c' s)) as [t|];
      cbn [option_map]; now rewrite <- IH.
Qed.

Lemma normalize_normalized (s : string) : normalize s = normalized s.
Proof.
  unfold normalize, normalized.
  now rewrite replace_protocol, replace_www, replace_trailing_slash.
Qed.

End ReferrerPolicyFacts.

Section ReferrerPolicyClaims.
Import ReferrerPolicy.

Lemma isAllowed_unfold (d r : string) :
  isAllowed d r =
  String.eqb (normalize r) (normalize d)
  || Js.startsWith (normalize r) (normalize d +:+ "/")
  || Js.includes (normalize r) (normalize d).
Proof. unfold isAllowed. destruct r; reflexivity. Qed.

(** C1.  For every partner domain [d] and referrer [r] the policy allows
    exactly when, with both strings normalized (a leading [http://] or
    [https://] stripped, then a leading [www.], then a single trailing
    slash, then lower-cased), the referrer equals the domain, or begins with
    the domain followed by a slash, or contains the domain as a substring.
    With the domain [example.com] and the referrer
    [https://www.example.com/page] it allows. *)
Theorem isAllowed_three_clauses :
  (forall d r : string,
      isAllowed d r = true <->
      normalized r = normalized d
      \/ begins_with (normalized r) (normalized d +:+ "/")
      \/ occurs_in (normalized d) (normalized r))
  /\ (forall s : string, normalize s = normalized s)
  /\ isAllowed "example.com" "https://www.example.com/page" = true.
Proof.
  split; [| split; [exact normalize_normalized | reflexivity]].
  intros d r. rewrite isAllowed_unfold, !normalize_normalized.
  rewrite !orb_true_iff, String.eqb_eq, startsWith_begins, includes_occurs.
  tauto.
Qed.

(** The policy computes the substring test. *)
Lemma isAllowed_includes (d r : string) :
  isAllowed d r = Js.includes (normalize r) (normalize d).
Proof.
  rewrite isAllowed_unfold.
  destruct (String.eqb_spec (normalize r) (normalize d)) as [E|_].
  - cbn [orb]. symmetry. rewrite E. apply includes_occurs, occurs_in_refl.
  - destruct (Js.startsWith (normalize r) (normalize d +:+ "/")) eqn:E2; [| reflexivity].
    cbn [orb]. symmetry. apply includes_occurs.
    apply startsWith_begins in E2. now apply begins_with_occurs in E2.
Qed.

Lemma isAllowed_false (d r : string) :
  isAllowed d r = false <-> ~ occurs_in (normalized d) (normalized r).
Proof.
  now rewrite isAllowed_includes, includes_false, !normalize_normalized.
Qed.

(** C9.  The three clauses of the match rule decide the same as the
    substring test alone: the policy allows if and only if the normalized
    referrer contains the normalized domain; the equality clause and the
    prefix clause each imply the substring clause. *)
Theorem isAllowed_is_includes (d r : string) :
  isAllowed d r = Js.includes (normalize r) (normalize d)
  /\ (isAllowed d r = true <-> occurs_in (normalized d) (normalized r))
  /\ (String.eqb (normalize r) (normalize d) = true ->
      Js.includes (normalize r) (normalize d) = true)
  /\ (Js.startsWith (normalize r) (normalize d +:+ "/") = true ->
      Js.includes (normalize r) (normalize d) = true).
Proof.
  split; [apply isAllowed_includes |]. split; [| split].
  - now rewrite isAllowed_includes, includes_occurs, !normalize_normalized.
  - rewrite String.eqb_eq, includes_occurs. intros ->. apply occurs_in_refl.
  - rewrite startsWith_begins, includes_occurs. apply begins_with_occurs.
Qed.

End ReferrerPolicyClaims.

Section UserAgentClaims.

(** Case analysis on every [includes] test of a goal, each turned into the
    occurrence it decides. *)
Ltac by_includes :=
  repeat match goal with
         | |- context [Js.includes ?s ?p] =>
             destruct (includes_reflect s p); cbn [andb orb negb]
         end.

(** C7.  The browser is decided in a fixed order on the lower-cased user
    agent: Chrome when it contains [chrome] and not [edg]; else Safari when
    it contains [safari] and not [chrome]; else Firefox when it contains
    [firefox]; else Edge when it contains [edg]; else Opera when it contains
    [opera] or [opr]; else Unknown.  A user agent with both Chrome and
    Safari tokens and no [edg] is Chrome. *)
Theorem browser_priority (userAgent : option string) :
  let ua := Js.toLowerCase (Js.or_else userAgent "") in
  let has p := occurs_in p ua in
  let chrome := has "chrome" /\ ~ has "edg" in
  let safari := has "safari" /\ ~ has "chrome" in
  let opera := has "opera" \/ has "opr" in
  let result := browser (parseUserAgent userAgent) in
  (chrome -> result = "Chrome")
  /\ (~ chrome -> safari -> result = "Safari")
  /\ (~ chrome -> ~ safari -> has "firefox" -> result = "Firefox")
  /\ (~ chrome -> ~ safari -> ~ has "firefox" -> has "edg" -> result = "Edge")
  /\ (~ chrome -> ~ safari -> ~ has "firefox" -> ~ has "edg" -> opera ->
      result = "Opera")
  /\ (~ chrome -> ~ safari -> ~ has "firefox" -> ~ has "edg" -> ~ opera ->
      result = "Unknown")
  /\ (has "chrome" -> has "safari" -> ~ has "edg" ->
      result = "Chrome" /\ result <> "Safari")
  /\ browser (parseUserAgent
       (Some ("Mozilla/5.0 (Windows NT 10.0; Win64; x64) AppleWebKit/537.36 " +:+
              "(KHTML, like Gecko) Chrome/91.0.4472.124 Safari/537.36")))
     = "Chrome".
Proof.
  cbv zeta. unfold parseUserAgent. cbn [browser].
  repeat split; try reflexivity; by_includes; intros; try reflexivity;
    try discriminate; tauto.
Qed.

(** C10.  A user agent that contains [mac] in any case and does not contain
    [windows] has the operating system macOS.  So iOS is the answer only for
    a user agent with [iphone] or [ipad] and none of [windows], [mac],
    [linux], [android]; a user agent with [like Mac OS X] in it, as those of
    the iPhone and the iPad have, is macOS and not iOS. *)
Theorem os_mac_shadows_ios (userAgent : option string) :
  let ua := Js.toLowerCase (Js.or_else userAgent "") in
  let has p := occurs_in p ua in
  let result := os (parseUserAgent userAgent) in
  (has "mac" -> ~ has "windows" -> result = "macOS")
  /\ (result = "iOS" ->
      (has "iphone" \/ has "ipad")
      /\ ~ has "windows" /\ ~ has "mac" /\ ~ has "linux" /\ ~ has "android")
  /\ (occurs_in "like Mac OS X" (Js.or_else userAgent "") -> ~ has "windows" ->
      result = "macOS" /\ result <> "iOS")
  /\ os (parseUserAgent
       (Some ("Mozilla/5.0 (iPhone; CPU iPhone OS 16_0 like Mac OS X) " +:+
              "AppleWebKit/605.1.15 (KHTML, like Gecko) Version/16.0 " +:+
              "Mobile/15E148 Safari/604.1")))
     = "macOS"
  /\ os (parseUserAgent
       (Some ("Mozilla/5.0 (iPad; CPU OS 16_0 like Mac OS X) " +:+
              "AppleWebKit/605.1.15 (KHTML, like Gecko) Version/16.0 " +:+
              "Mobile/15E148 Safari/604.1")))
     = "macOS".
Proof.
  cbv zeta.
  assert (Hmac : occurs_in "mac" (Js.toLowerCase (Js.or_else userAgent "")) ->
                 ~ occurs_in "windows" (Js.toLowerCase (Js.or_else userAgent "")) ->
                 os (parseUserAgent userAgent) = "macOS").
  { unfold parseUserAgent. cbn [os]. by_includes; intros; try reflexivity; tauto. }
  split; [exact Hmac |].
  split.
  { unfold parseUserAgent. cbn [os].
    by_includes; intros; try discriminate; tauto. }
  split; [| split; reflexivity].
  intros Hlike Hwin.
  assert (occurs_in "mac" (Js.toLowerCase (Js.or_else userAgent ""))) as Hm.
  { apply occurs_in_trans with (q := Js.toLowerCase "like Mac OS X").
    - exists "like ", " os x". reflexivity.
    - now apply occurs_in_toLowerCase. }
  rewrite (Hmac Hm Hwin). split; [reflexivity | discriminate].
Qed.

End UserAgentClaims.

Section RealIPClaims.

Lemma truthy_present (v : option string) (s : string) :
  present v s -> Js.truthy v = true /\ default "" v = s.
Proof. intros [-> H]. destruct s; [contradiction | split; reflexivity]. Qed.

Lemma truthy_absent (v : option string) : absent v -> Js.truthy v = false.
Proof. intros [-> | ->]; reflexivity. Qed.

Lemma split_nonempty (sep : ascii) (s : string) : Js.split sep s <> [].
Proof.
  destruct s as [|c s]; cbn; [discriminate |].
  destruct (Ascii.eqb c sep); [discriminate |].
  destruct (Js.split sep s); discriminate.
Qed.

Lemma no_comma_cons (c : ascii) (e : string) :
  c <> ","%char -> ~ occurs_in "," e -> ~ occurs_in "," (String c e).
Proof.
  intros Hc He [pre [post H]]. destruct pre as [|x pre].
  - rewrite append_nil_l, append_cons in H. injection H as H _. contradiction.
  - rewrite append_cons in H. injection H as _ H. apply He. now exists pre, post.
Qed.

(** The head of [f.split(',')] is the first comma-separated entry of [f]. *)
Lemma split_first_entry (f : string) :
  first_entry_of f (nth 0 (Js.split ","%char f) "").
Proof.
  induction f as [|c f [Hno Hshape]]; cbn [Js.split].
  - split; [| now left]. intros [pre [post H]]. destruct pre; discriminate.
  - destruct (Ascii.eqb_spec c ","%char) as [->|Hc]; cbn [nth].
    + split.
      * intros [pre [post H]]. destruct pre; discriminate.
      * right. now exists f.
    + pose proof (split_nonempty ","%char f) as Hne.
      destruct (Js.split ","%char f) as [|piece pieces]; [contradiction |].
      cbn [nth] in *. split.
      * now apply no_comma_cons.
      * destruct Hshape as [-> | [rest ->]]; [now left |].
        right. exists rest. now rewrite append_cons.
  Qed.

Lemma first_entry_unique (f e1 e2 : string) :
  first_entry_of f e1 -> first_entry_of f e2 -> e1 = e2.
Proof.
  revert f e2; induction e1 as [|c e1 IH]; intros f e2 [H1 S1] [H2 S2].
  - destruct e2 as [|c2 e2]; [reflexivity |]. exfalso.
    destruct S1 as [-> | [r1 ->]]; destruct S2 as [S2 | [r2 S2]];
      try discriminate; rewrite append_nil_l, !append_cons in S2;
      injection S2 as <- _; apply H2; exists "", e2; reflexivity.
  - destruct e2 as [|c2 e2].
    + exfalso.
      destruct S2 as [-> | [r2 ->]]; destruct S1 as [S1 | [r1 S1]];
        try discriminate; rewrite append_nil_l, !append_cons in S1;
        injection S1 as <- _; apply H1; exists "", e1; reflexivity.
    + assert (c = c2 /\ first_entry_of
                (match f with String _ f' => f' | EmptyString => EmptyString end) e1
              /\ first_entry_of
                (match f with String _ f' => f' | EmptyString => EmptyString end) e2)
        as [-> [F1 F2]].
      { assert (N1 : ~ occurs_in "," e1).
        { intros [pre [post ->]]. apply H1. exists (String c pre), post.
          now rewrite append_cons. }
        assert (N2 : ~ occurs_in "," e2).
        { intros [pre [post ->]]. apply H2. exists (String c2 pre), post.
          now rewrite append_cons. }
        destruct S1 as [-> | [r1 ->]]; destruct S2 as [S2 | [r2 S2]];
          rewrite ?append_cons in S2; injection S2 as -> S2;
          (split; [reflexivity |]); (split; (split; [assumption |])).
        - now left.
        - left. exact S2.
        - now left.
        - right. exists r2. exact S2.
        - right. now exists r1.
        - left. exact S2.
        - right. now exists r1.
        - right. exists r2. exact S2. }
      f_equal. exact (IH _ _ F1 F2).
Qed.

(** C8.  The client IP in strict priority order: the first comma-separated
    entry of [x-forwarded-for], trimmed, when that header is present; else
    [x-real-ip] when present; else [cf-connecting-ip] when present; else the
    address of the socket ([req.ip], then [req.connection.remoteAddress]);
    and the literal [Unknown] when none of these has a value. *)
Theorem getRealIP_priority (req : request) :
  let h name := headers req !! name in
  (forall f, present (h "x-forwarded-for") f ->
     exists e, first_entry_of f e
               /\ (forall e', first_entry_of f e' -> e' = e)
               /\ getRealIP req = Js.trim e)
  /\ (absent (h "x-forwarded-for") ->
      forall r, present (h "x-real-ip") r -> getRealIP req = r)
  /\ (absent (h "x-forwarded-for") -> absent (h "x-real-ip") ->
      forall c, present (h "cf-connecting-ip") c -> getRealIP req = c)
  /\ (absent (h "x-forwarded-for") -> absent (h "x-real-ip") ->
      absent (h "cf-connecting-ip") ->
      (forall a, present (ip req) a -> getRealIP req = a)
      /\ (absent (ip req) ->
          forall a, present (remoteAddress req) a -> getRealIP req = a)
      /\ (absent (ip req) -> absent (remoteAddress req) ->
          getRealIP req = "Unknown")).
Proof.
  cbv zeta. unfold getRealIP. repeat split.
  - intros f Hf. destruct (truthy_present _ _ Hf) as [-> ->].
    exists (nth 0 (Js.split ","%char f) ""). split; [apply split_first_entry |].
    split; [intros e' He'; exact (first_entry_unique f _ _ He' (split_first_entry f)) |].
    pose proof (split_nonempty ","%char f) as Hne.
    destruct (Js.split ","%char f); [contradiction | reflexivity].
  - intros Hx r Hr. rewrite (truthy_absent _ Hx).
    now destruct (truthy_present _ _ Hr) as [-> ->].
  - intros Hx Hr c Hc. rewrite (truthy_absent _ Hx), (truthy_absent _ Hr).
    now destruct (truthy_present _ _ Hc) as [-> ->].
  - intros a Ha. rewrite (truthy_absent _ H), (truthy_absent _ H0), (truthy_absent _ H1).
    unfold Js.or_opt. destruct (truthy_present _ _ Ha) as [-> _].
    destruct Ha as [-> Hne]. now apply or_else_truthy.
  - intros Hi a Ha. rewrite (truthy_absent _ H), (truthy_absent _ H0), (truthy_absent _ H1).
    unfold Js.or_opt. rewrite (truthy_absent _ Hi).
    destruct Ha as [-> Hne]. now apply or_else_truthy.
  - intros Hi Ha. rewrite (truthy_absent _ H), (truthy_absent _ H0), (truthy_absent _ H1).
    unfold Js.or_opt. rewrite (truthy_absent _ Hi).
    destruct Ha as [-> | ->]; reflexivity.
Qed.

(** Two proxies in [x-forwarded-for]: the client is the first entry. *)
Example getRealIP_forwarded :
  getRealIP (MkRequest "deal"
               {["x-forwarded-for" := " 198.51.100.7 , 10.0.0.2"]}
               (Some "10.0.0.2") None)
  = "198.51.100.7".
Proof. reflexivity. Qed.

End RealIPClaims.

Section GeoClaims.

Lemma status_is_success_iff (o : geo_json) :
  status_is_success o = true <-> data_status o = Some "success".
Proof.
  unfold status_is_success. destruct (data_status o) as [s|].
  - rewrite String.eqb_eq. split; congruence.
  - split; discriminate.
Qed.

Lemma status_is_success_false (o : geo_json) :
  status_is_success o = false <-> data_status o <> Some "success".
Proof.
  rewrite <- status_is_success_iff. destruct (status_is_success o); split; congruence.
Qed.

Lemma or_else_truthy_present (v : option string) (s dflt : string) :
  present v s -> Js.or_else v dflt = s.
Proof. intros [H1 H2]. now apply or_else_truthy. Qed.

Lemma or_else_absent (v : option string) (dflt : string) :
  absent v -> Js.or_else v dflt = dflt.
Proof. intros [-> | ->]; reflexivity. Qed.

Lemma app_one_more {A : Type} (l : list A) (x y : A) : (l ++ [x]) ++ [y] = l ++ [x; y].
Proof. now rewrite <- app_assoc. Qed.

(** A skipped address is answered on the spot: nothing is fetched and
    nothing is written. *)
Lemma getLocationFromIP_skipped (ip : string) (w : world) :
  skip_local ip = true -> getLocationFromIP ip w = (Returned local_location, w).
Proof.
  intros H. unfold getLocationFromIP, bind, try_catch. now rewrite H.
Qed.

(** Any other address is looked up once, and the call returns the location
    owed for the provider's reply. *)
Lemma getLocationFromIP_looked_up (ip : string) (w : world) :
  skip_local ip = false ->
  exists lines,
    getLocationFromIP ip w =
    (Returned (location_of_reply (geo_provider (env w) (lookup_target ip))),
     after_lookup (lookup_target ip) lines w).
Proof.
  intros Hskip. unfold getLocationFromIP, bind, try_catch. rewrite Hskip.
  unfold fetch_abort_after, location_of_reply, after_lookup, console_log, logged, requested.
  cbn [statements fetched console done env store].
  fold (lookup_target ip).
  set (reply := geo_provider (env w) (lookup_target ip)).
  destruct (5000 <=? latency_ms reply).
  - cbn. rewrite app_one_more. eexists. reflexivity.
  - destruct (outcome reply) as [m|[| |o]]; cbn; rewrite ?app_one_more;
      try (eexists; reflexivity).
    destruct (status_is_success o); cbn; rewrite app_one_more; eexists; reflexivity.
Qed.

Lemma lookup_failed_unknown (reply : provider_reply) :
  lookup_failed reply -> location_of_reply reply = unknown_location.
Proof.
  unfold lookup_failed, location_of_reply.
  destruct (Z.leb_spec 5000 (latency_ms reply)) as [|Hlt]; [reflexivity |].
  intros [H | [[m ->] | [-> | [-> | [o [-> Ho]]]]]]; try reflexivity; [lia |].
  apply status_is_success_false in Ho. now rewrite Ho.
Qed.

(** In every case the call returns the location owed, and leaves the
    environment, the tables and the record of statements as they were. *)
Lemma getLocationFromIP_returns (ip : string) (w : world) :
  exists w',
    getLocationFromIP ip w = (Returned (geo_result (env w) ip), w')
    /\ env w' = env w /\ store w' = store w
    /\ statements (done w') = statements (done w)
    /\ fetched (done w') =
       fetched (done w) ++ (if skip_local ip then [] else [lookup_target ip]).
Proof.
  unfold geo_result. destruct (skip_local ip) eqn:Hskip.
  - exists w. rewrite (getLocationFromIP_skipped _ _ Hskip).
    now rewrite app_nil_r.
  - destruct (getLocationFromIP_looked_up ip w Hskip) as [lines ->].
    eexists. split; [reflexivity |]. now cbn.
Qed.

(** C3 (the addresses between 172.17.0.0 and 172.30.255.255).  The address
    [172.20.0.1] lies in the private range 172.16.0.0 - 172.31.255.255 and is
    not skipped: the resolver fetches the provider's URL for it and returns
    the location owed for the reply, which is the Unknown triple and not the
    Local one when the lookup fails, as it does when the provider reports
    [fail] for a private address. *)
Theorem private_172_20_is_looked_up (w : world) :
  skip_local "172.20.0.1" = false
  /\ exists l w',
       getLocationFromIP "172.20.0.1" w = (Returned l, w')
       /\ fetched (done w') = fetched (done w) ++ [lookup_url "172.20.0.1"]
       /\ l = location_of_reply (geo_provider (env w) (lookup_url "172.20.0.1"))
       /\ (lookup_failed (geo_provider (env w) (lookup_url "172.20.0.1")) ->
           l = unknown_location /\ l <> local_location).
Proof.
  split; [reflexivity |].
  destruct (getLocationFromIP_returns "172.20.0.1" w) as [w' [Hrun [_ [_ [_ Hf]]]]].
  exists (geo_result (env w) "172.20.0.1"), w'. split; [exact Hrun |].
  split; [exact Hf |].
  change (geo_result (env w) "172.20.0.1")
    with (location_of_reply (geo_provider (env w) (lookup_url "172.20.0.1"))).
  split; [reflexivity |].
  intros Hfail. rewrite (lookup_failed_unknown _ Hfail).
  split; [reflexivity | discriminate].
Qed.

(** X1.  The addresses the condition does cover: the loopback [127.0.0.1], the
    IPv6 loopback forms, and every address written with the prefix [10.],
    [192.168], [172.16] or [172.31] are answered Local with no request. *)
Theorem skipped_addresses_are_local (ip : string) (w : world) :
  (ip = "" \/ ip = "127.0.0.1" \/ ip = "::1" \/ ip = "Unknown"
   \/ begins_with ip "192.168" \/ begins_with ip "10."
   \/ begins_with ip "172.16" \/ begins_with ip "172.31"
   \/ occurs_in "::ffff:127.0.0.1" ip \/ occurs_in "::1" ip) ->
  getLocationFromIP ip w = (Returned local_location, w).
Proof.
  intros H. apply getLocationFromIP_skipped. unfold skip_local.
  rewrite !orb_true_iff, !String.eqb_eq, !startsWith_begins, !includes_occurs.
  destruct ip; cbn [Js.truthy negb]; intuition (try discriminate; auto).
Qed.

Lemma skipped_addresses_are_local_witness :
  getLocationFromIP "192.168.1.5"
    (MkWorld (MkEnvironment 0 (fun _ => false)
                (fun _ => MkReply 0 (Response BodyNull)))
       (MkDatabase ∅ ∅ [] []) (MkEffects [] [] []))
  = (Returned local_location,
     MkWorld (MkEnvironment 0 (fun _ => false)
                (fun _ => MkReply 0 (Response BodyNull)))
       (MkDatabase ∅ ∅ [] []) (MkEffects [] [] [])).
Proof.
  apply (skipped_addresses_are_local "192.168.1.5").
  right; right; right; right; left. exists ".1.5". reflexivity.
Defined.

(** A public address with a reply that lacks the city. *)
Example resolve_public_address :
  fst (getLocationFromIP "::ffff:198.51.100.7"
         (MkWorld
            (MkEnvironment 0 (fun _ => false)
               (fun _ => MkReply 80
                           (Response
                              (BodyObject
                                 (MkGeoJson (Some "success") None
                                    (Some "Iceland") None (Some "Capital Region"))))))
            sample_database (MkEffects [] [] [])))
  = Returned (MkLocation "Iceland" "Unknown" "Capital Region")
  /\ lookup_target "::ffff:198.51.100.7" = lookup_url "198.51.100.7".
Proof. split; reflexivity. Qed.

End GeoClaims.

Section PoolFacts.

Lemma pool_query_faulted (st : statement) (w : world) :
  pool_fault (env w) (length (statements (done w))) = true ->
  pool_query st w = (Threw DatabaseError, sent st false (store w) w).
Proof. intros H. unfold pool_query. now rewrite H. Qed.

Lemma pool_query_executed (st : statement) (w : world) rows db :
  pool_fault (env w) (length (statements (done w))) = false ->
  execute (clock (env w)) st (store w) = Some (rows, db) ->
  pool_query st w = (Returned rows, sent st true db w).
Proof. intros H E. unfold pool_query. now rewrite H, E. Qed.

Lemma pool_query_refused (st : statement) (w : world) :
  execute (clock (env w)) st (store w) = None ->
  pool_query st w = (Threw DatabaseError, sent st false (store w) w).
Proof.
  intros E. unfold pool_query. rewrite E.
  now destruct (pool_fault (env w) (length (statements (done w)))).
Qed.

Lemma referrer_of_direct (req : request) :
  absent (headers req !! "referer") -> absent (headers req !! "referrer") ->
  referrer_of req = "Direct".
Proof.
  intros H1 H2. unfold referrer_of, Js.or_opt. rewrite (truthy_absent _ H1).
  now apply or_else_absent.
Qed.

Lemma length_snoc {A : Type} (l : list A) (x : A) : length (l ++ [x]) = S (length l).
Proof. rewrite length_app. cbn. lia. Qed.

(** *** The partner block *)

Lemma enforce_partner_no_partner code pd referrer ip userAgent (w : world) :
  Js.truthy pd = false ->
  enforce_partner code pd referrer ip userAgent w = (Returned None, w).
Proof. intros H. unfold enforce_partner. now rewrite H. Qed.

Lemma enforce_partner_allowed code pd referrer ip userAgent (w : world) :
  ReferrerPolicy.isAllowed (default "" pd) referrer = true ->
  enforce_partner code pd referrer ip userAgent w = (Returned None, w).
Proof.
  intros H. unfold enforce_partner. rewrite H. now destruct (Js.truthy pd).
Qed.

(** A denied request: the insert is attempted once, its failure is caught
    and written to the console, and the answer is 403 either way. *)
Lemma enforce_partner_denied code pd referrer ip userAgent (w : world) :
  Js.truthy pd = true ->
  ReferrerPolicy.isAllowed (default "" pd) referrer = false ->
  enforce_partner code pd referrer ip userAgent w =
  (Returned (Some (MkResponse 403 BypassDetectedPage)),
   let st := InsertBypassLog code referrer ip userAgent in
   match (if pool_fault (env w) (length (statements (done w))) then None
          else execute (clock (env w)) st (store w)) with
   | Some (_, db) => logged (LogBypassLogged code ip) (sent st true db w)
   | None => logged (ErrLoggingBypass DatabaseError) (sent st false (store w) w)
   end).
Proof.
  intros Ht Ha. unfold enforce_partner. rewrite Ht, Ha. cbn [negb].
  unfold bind, try_catch, pool_query, console_log, ret. cbv zeta.
  destruct (if pool_fault (env w) (length (statements (done w))) then None
            else execute (clock (env w))
                   (InsertBypassLog code referrer ip userAgent) (store w))
    as [[rows db]|]; reflexivity.
Qed.

Lemma enforce_partner_never_throws code pd referrer ip userAgent (w : world) :
  exists r w', enforce_partner code pd referrer ip userAgent w = (Returned r, w').
Proof.
  destruct (Js.truthy pd) eqn:Ht;
    [destruct (ReferrerPolicy.isAllowed (default "" pd) referrer) eqn:Ha |].
  - rewrite enforce_partner_allowed by assumption. eauto.
  - rewrite enforce_partner_denied by assumption. eauto.
  - rewrite enforce_partner_no_partner by assumption. eauto.
Qed.

(** *** The click recording *)


Lemma not_bypassed_passes code pd referrer ip userAgent (w : world) :
  ~ bypassed pd referrer ->
  enforce_partner code pd referrer ip userAgent w = (Returned None, w).
Proof.
  intros Hnot. destruct (Js.truthy pd) eqn:Ht.
  - apply enforce_partner_allowed.
    destruct (ReferrerPolicy.isAllowed (default "" pd) referrer) eqn:Ha; [reflexivity |].
    exfalso. apply Hnot. apply truthy_Some in Ht. destruct Ht as [d [-> Hd]].
    exists d. split; [now split |]. now apply isAllowed_false.
  - now apply enforce_partner_no_partner.
Qed.

End PoolFacts.

(** ** A link that resolves

    The claims about the handler share two assumptions: the pool does not
    fail the lookup, and the code of the request has a row in [urls]. *)

Section ResolvedLink.

Variables (req : request) (w : world) (u : url_row).

Hypothesis lookup_succeeds :
  pool_fault (env w) (length (statements (done w))) = false.

Hypothesis link_found : urls (store w) !! params_code req = Some u.

Lemma select_found :
  pool_query (SelectUrlWithPartner (params_code req)) w =
  (Returned [join_partner (store w) u],
   sent (SelectUrlWithPartner (params_code req)) true (store w) w).
Proof.
  apply pool_query_executed; [exact lookup_succeeds |]. cbn. now rewrite link_found.
Qed.

(** The handler on a link that has expired. *)
Lemma get_code_expired (t : Z) :
  expires_at u = Some t ->
  t < clock (env w) ->
  get_code req w =
  (Returned (MkResponse 410 ExpiredPage, None),
   sent (SelectUrlWithPartner (params_code req)) true (store w) w).
Proof.
  intros Hexp Hlt.
  unfold get_code, try_catch, bind. rewrite select_found.
  unfold new_Date. cbn [join_partner row_expires_at sent env clock].
  rewrite Hexp. cbn [expired].
  destruct (Z.ltb_spec t (clock (env w))); [reflexivity | lia].
Qed.

(** C4.  A link that resolves and whose [expiresAt] is set and strictly
    before the current instant is answered 410 whatever the request and the
    partner are; the lookup is the only statement sent, the tables are as
    they were (no click row, no bypass row, no increment), nothing is
    fetched and no click recording is started. *)
Theorem expired_link_410 (t : Z) :
  expires_at u = Some t ->
  t < clock (env w) ->
  exists w',
    get_code req w = (Returned (MkResponse 410 ExpiredPage, None), w')
    /\ serve req w = (Returned (MkResponse 410 ExpiredPage), w')
    /\ store w' = store w
    /\ statements (done w') =
       statements (done w) ++ [(SelectUrlWithPartner (params_code req), true)]
    /\ fetched (done w') = fetched (done w)
    /\ console (done w') = console (done w).
Proof.
  intros Hexp Hlt.
  pose proof (get_code_expired t Hexp Hlt) as Hget.
  eexists. split; [exact Hget |].
  split; [unfold serve, bind; now rewrite Hget |].
  repeat split.
Qed.

(** The rest of the section is about a link that has not expired. *)
Hypothesis not_expired : expired (expires_at u) (clock (env w)) = false.

Lemma get_code_live :
  get_code req w =
  let code := params_code req in
  let ip := getRealIP req in
  let w1 := logged (LogVisitor ip (referrer_of req))
              (sent (SelectUrlWithPartner code) true (store w) w) in
  match enforce_partner code (row_partner_domain (join_partner (store w) u))
          (referrer_of req) ip (userAgent_of req) w1 with
  | (Returned (Some res), w2) => (Returned (res, None), w2)
  | (Returned None, w2) =>
      (Returned (MkResponse 200 (VerifyingPage (url u)),
                 Some (MkClickTask code ip (userAgent_of req)
                         (parseUserAgent (Some (userAgent_of req))) (referrer_of req))),
       w2)
  | (Threw e, w2) =>
      (Returned (MkResponse 500 (PlainText "Internal server error"), None),
       logged (ErrHandlingRedirect e) w2)
  end.
Proof.
  cbv zeta.
  unfold get_code, try_catch, bind at 1. rewrite select_found.
  unfold new_Date, bind at 1. cbn [join_partner row_expires_at sent env clock].
  rewrite not_expired.
  unfold bind at 1, console_log at 1.
  unfold bind at 1.
  change (row_partner_domain (MkJoined ?a ?b ?c ?d ?e)) with e.
  change (row_url (MkJoined ?a ?b ?c ?d ?e)) with a.
  destruct (enforce_partner_never_throws (params_code req)
              (partner_domain <$>
                 (partner_id u ≫= (fun id => partners (store w) !! id)))
              (referrer_of req) (getRealIP req) (userAgent_of req)
              (logged (LogVisitor (getRealIP req) (referrer_of req))
                 (sent (SelectUrlWithPartner (params_code req)) true (store w) w)))
    as [r [w2 Hr]].
  unfold sent, join_partner in *. cbn [row_partner_domain] in *.
  rewrite Hr. destruct r; reflexivity.
Qed.

(** C2, with the link not expired.  A request for a link that resolves, has
    not expired and has a partner, that carries no referrer header (so that
    the referrer is the literal Direct), the normalized partner domain not
    being a substring of [direct]: the answer is 403 with the warning page,
    which carries no target URL; after the lookup exactly one statement is
    sent, the insert of the bypass row with the referrer Direct; when that
    insert fails the failure goes to the console and the answer is the same;
    no click row is written, no counter changes, nothing is fetched and no
    click recording is started. *)
Theorem direct_visit_denied (d : string) :
  row_partner_domain (join_partner (store w) u) = Some d ->
  absent (headers req !! "referer") ->
  absent (headers req !! "referrer") ->
  ~ occurs_in (ReferrerPolicy.normalized d) "direct" ->
  let code := params_code req in
  let ip := getRealIP req in
  let insert := InsertBypassLog code "Direct" ip (userAgent_of req) in
  let ok := negb (pool_fault (env w) (S (length (statements (done w))))) in
  exists w',
    get_code req w = (Returned (MkResponse 403 BypassDetectedPage, None), w')
    /\ serve req w = (Returned (MkResponse 403 BypassDetectedPage), w')
    /\ embedded_target BypassDetectedPage = None
    /\ statements (done w') =
       statements (done w) ++ [(SelectUrlWithPartner code, true); (insert, ok)]
    /\ bypass_logs (store w') =
       bypass_logs (store w) ++
       (if ok then [MkBypass code "Direct" ip (userAgent_of req) (clock (env w))] else [])
    /\ console (done w') =
       console (done w) ++
       [LogVisitor ip "Direct";
        if ok then LogBypassLogged code ip else ErrLoggingBypass DatabaseError]
    /\ clicks_table (store w') = clicks_table (store w)
    /\ urls (store w') = urls (store w)
    /\ fetched (done w') = fetched (done w).
Proof.
  intros Hpartner Href1 Href2 Hnot. cbv zeta.
  assert (Ht : Js.truthy (Some d) = true).
  { destruct d; [| reflexivity]. exfalso. apply Hnot. now exists "", "direct". }
  assert (Ha : ReferrerPolicy.isAllowed d "Direct" = false).
  { apply isAllowed_false. exact Hnot. }
  assert (Hget : exists w',
             get_code req w = (Returned (MkResponse 403 BypassDetectedPage, None), w')
             /\ w' =
                let st := InsertBypassLog (params_code req) "Direct" (getRealIP req)
                            (userAgent_of req) in
                let w1 := logged (LogVisitor (getRealIP req) "Direct")
                            (sent (SelectUrlWithPartner (params_code req)) true (store w) w) in
                if pool_fault (env w) (S (length (statements (done w))))
                then logged (ErrLoggingBypass DatabaseError) (sent st false (store w) w1)
                else logged (LogBypassLogged (params_code req) (getRealIP req))
                       (sent st true
                          (MkDatabase (urls (store w)) (partners (store w))
                             (clicks_table (store w))
                             (bypass_logs (store w) ++
                                [MkBypass (params_code req) "Direct" (getRealIP req)
                                   (userAgent_of req) (clock (env w))]))
                          w1)).
  { rewrite get_code_live. cbv zeta.
    rewrite Hpartner, (referrer_of_direct req Href1 Href2).
    rewrite (enforce_partner_denied _ (Some d) _ _ _ _ Ht Ha). cbv zeta.
    cbn [logged sent env store done statements execute].
    rewrite length_snoc, link_found.
    eexists. split; [reflexivity |].
    destruct (pool_fault (env w) (S (length (statements (done w))))); reflexivity. }
  destruct Hget as [w' [Hget ->]]. eexists. split; [exact Hget |].
  split; [unfold serve, bind; rewrite Hget; reflexivity |].
  cbv zeta.
  destruct (pool_fault (env w) (S (length (statements (done w)))));
    cbn; rewrite <- ?app_assoc; repeat split; now rewrite ?app_nil_r.
Qed.


End ResolvedLink.

Section HandlerExamples.

Lemma expired_link_410_witness :
  exists w',
    get_code (bare_request "promo") sample_world
    = (Returned (MkResponse 410 ExpiredPage, None), w')
    /\ serve (bare_request "promo") sample_world = (Returned (MkResponse 410 ExpiredPage), w')
    /\ store w' = store sample_world
    /\ statements (done w') =
       statements (done sample_world) ++ [(SelectUrlWithPartner "promo", true)]
    /\ fetched (done w') = fetched (done sample_world)
    /\ console (done w') = console (done sample_world).
Proof.
  apply (expired_link_410 (bare_request "promo") sample_world
           (MkUrl "https://shop.example/sale" 0 7 (Some 1) (Some 1000)))
    with (t := 1000).
  - reflexivity.
  - reflexivity.
  - reflexivity.
  - cbn. lia.
Defined.

Lemma direct_visit_denied_witness :
  exists w',
    get_code (bare_request "deal") sample_world
    = (Returned (MkResponse 403 BypassDetectedPage, None), w')
    /\ statements (done w') =
       [(SelectUrlWithPartner "deal", true);
        (InsertBypassLog "deal" "Direct" "203.0.113.9" "Unknown", true)]
    /\ bypass_logs (store w') = [MkBypass "deal" "Direct" "203.0.113.9" "Unknown" 2000]
    /\ clicks_table (store w') = []
    /\ urls (store w') = urls (store sample_world).
Proof.
  destruct (direct_visit_denied (bare_request "deal") sample_world
              (MkUrl "https://shop.example/deal" 0 3 (Some 1) None)
              ltac:(reflexivity) ltac:(reflexivity) ltac:(reflexivity) "example.com")
    as [w' (Hget & _ & _ & Hst & Hby & _ & Hcl & Hurls & _)].
  - reflexivity.
  - left. reflexivity.
  - left. reflexivity.
  - apply includes_false. reflexivity.
  - exists w'. repeat split; assumption.
Defined.

(** C2 as it is stated does not hold for a link that has expired: the link
    [promo] resolves and has the partner [example.com], the request carries
    no referrer header and [example.com] is not a substring of [direct], yet
    the answer is 410 and no bypass row is attempted. *)
Lemma direct_visit_to_expired_link_410 :
  pool_fault (env sample_world) (length (statements (done sample_world))) = false
  /\ urls (store sample_world) !! "promo"
     = Some (MkUrl "https://shop.example/sale" 0 7 (Some 1) (Some 1000))
  /\ row_partner_domain
       (join_partner (store sample_world)
          (MkUrl "https://shop.example/sale" 0 7 (Some 1) (Some 1000)))
     = Some "example.com"
  /\ absent (headers (bare_request "promo") !! "referer")
  /\ absent (headers (bare_request "promo") !! "referrer")
  /\ ~ occurs_in (ReferrerPolicy.normalized "example.com") "direct"
  /\ get_code (bare_request "promo") sample_world
     = (Returned (MkResponse 410 ExpiredPage, None),
        sent (SelectUrlWithPartner "promo") true (store sample_world) sample_world)
  /\ status (MkResponse 410 ExpiredPage) <> 403
  /\ bypass_logs (store (sent (SelectUrlWithPartner "promo") true
                           (store sample_world) sample_world)) = [].
Proof.
  repeat split; try reflexivity; try (left; reflexivity); try discriminate.
  apply includes_false. reflexivity.
Qed.


(** The whole of an allowed visit in the sample world: the redirect page is
    sent, the lookup of the public address gets no usable reply, and the
    click is recorded with the Unknown triple and counted. *)
Example serve_open_link :
  exists w',
    serve (bare_request "open") sample_world
    = (Returned (MkResponse 200 (VerifyingPage "https://shop.example/")), w')
    /\ clicks_table (store w') =
       [MkClick "open" "203.0.113.9" "Unknown" "Unknown" "Unknown" "Unknown"
          "Desktop" "Unknown" "Unknown" "Direct" 2000]
    /\ clicks <$> (urls (store w') !! "open") = Some 1
    /\ map snd (statements (done w')) = [true; true; true]
    /\ length (fetched (done w')) = 1%nat.
Proof. eexists. repeat split; reflexivity. Qed.

(** A partner link reached from the partner's site is allowed. *)
Example serve_deal_from_partner :
  exists w',
    serve (MkRequest "deal" {["referer" := "https://www.example.com/offers/"]}
             (Some "192.168.1.5") None)
      sample_world
    = (Returned (MkResponse 200 (VerifyingPage "https://shop.example/deal")), w')
    /\ clicks_table (store w') =
       [MkClick "deal" "192.168.1.5" "Local" "Local" "Local" "Unknown"
          "Desktop" "Unknown" "Unknown" "https://www.example.com/offers/" 2000]
    /\ clicks <$> (urls (store w') !! "deal") = Some 4
    /\ bypass_logs (store w') = []
    /\ fetched (done w') = [].
Proof. eexists. repeat split; reflexivity. Qed.

End HandlerExamples.

(** * Further properties of the redirect pipeline *)

Section HandlerOutcomes.

Variables (req : request) (w : world).

(** The handler when the pool fails the lookup. *)
Lemma get_code_faulted :
  pool_fault (env w) (length (statements (done w))) = true ->
  get_code req w =
  (Returned (MkResponse 500 (PlainText "Internal server error"), None),
   logged (ErrHandlingRedirect DatabaseError)
     (sent (SelectUrlWithPartner (params_code req)) false (store w) w)).
Proof.
  intros Hf. unfold get_code, try_catch, bind at 1.
  now rewrite (pool_query_faulted _ _ Hf).
Qed.

(** The handler on a code without a row. *)
Lemma get_code_not_found :
  pool_fault (env w) (length (statements (done w))) = false ->
  urls (store w) !! params_code req = None ->
  get_code req w =
  (Returned (MkResponse 404 NotFoundPage, None),
   sent (SelectUrlWithPartner (params_code req)) true (store w) w).
Proof.
  intros Hf Hnone. unfold get_code, try_catch, bind at 1.
  rewrite (pool_query_executed _ _ [] (store w) Hf); [reflexivity |].
  cbn. now rewrite Hnone.
Qed.

(** X2.  A code without a row in [urls] is answered 404 with the not-found
    page; the lookup is the only statement sent, the tables and the console
    are as they were, nothing is fetched and no click recording is
    started. *)
Theorem unknown_code_404 :
  pool_fault (env w) (length (statements (done w))) = false ->
  urls (store w) !! params_code req = None ->
  exists w',
    get_code req w = (Returned (MkResponse 404 NotFoundPage, None), w')
    /\ serve req w = (Returned (MkResponse 404 NotFoundPage), w')
    /\ store w' = store w
    /\ statements (done w') =
       statements (done w) ++ [(SelectUrlWithPartner (params_code req), true)]
    /\ fetched (done w') = fetched (done w)
    /\ console (done w') = console (done w).
Proof.
  intros Hf Hnone. pose proof (get_code_not_found Hf Hnone) as Hget.
  eexists. split; [exact Hget |].
  split; [unfold serve, bind; now rewrite Hget |].
  repeat split.
Qed.

(** X3.  When the pool fails the lookup the answer is 500 with the plain
    text [Internal server error], whatever the tables hold: no target URL
    is in the body, the failure goes to the console, no other statement is
    sent, the tables are as they were and no click recording is started. *)
Theorem lookup_failure_500 :
  pool_fault (env w) (length (statements (done w))) = true ->
  exists w',
    get_code req w =
    (Returned (MkResponse 500 (PlainText "Internal server error"), None), w')
    /\ serve req w =
       (Returned (MkResponse 500 (PlainText "Internal server error")), w')
    /\ store w' = store w
    /\ statements (done w') =
       statements (done w) ++ [(SelectUrlWithPartner (params_code req), false)]
    /\ fetched (done w') = fetched (done w)
    /\ console (done w') = console (done w) ++ [ErrHandlingRedirect DatabaseError].
Proof.
  intros Hf. pose proof (get_code_faulted Hf) as Hget.
  eexists. split; [exact Hget |].
  split; [unfold serve, bind; now rewrite Hget |].
  repeat split.
Qed.

End HandlerOutcomes.

Section HandlerOutcomeExamples.

Lemma unknown_code_404_witness :
  exists w',
    get_code (bare_request "nosuch") sample_world
    = (Returned (MkResponse 404 NotFoundPage, None), w')
    /\ serve (bare_request "nosuch") sample_world
       = (Returned (MkResponse 404 NotFoundPage), w')
    /\ store w' = store sample_world
    /\ statements (done w') =
       statements (done sample_world) ++ [(SelectUrlWithPartner "nosuch", true)]
    /\ fetched (done w') = fetched (done sample_world)
    /\ console (done w') = console (done sample_world).
Proof.
  apply (unknown_code_404 (bare_request "nosuch") sample_world).
  - reflexivity.
  - reflexivity.
Defined.

Lemma lookup_failure_500_witness :
  exists w',
    get_code (bare_request "deal") outage_world
    = (Returned (MkResponse 500 (PlainText "Internal server error"), None), w')
    /\ serve (bare_request "deal") outage_world
       = (Returned (MkResponse 500 (PlainText "Internal server error")), w')
    /\ store w' = store outage_world
    /\ statements (done w') =
       statements (done outage_world) ++ [(SelectUrlWithPartner "deal", false)]
    /\ fetched (done w') = fetched (done outage_world)
    /\ console (done w') =
       console (done outage_world) ++ [ErrHandlingRedirect DatabaseError].
Proof.
  apply (lookup_failure_500 (bare_request "deal") outage_world).
  reflexivity.
Defined.

End HandlerOutcomeExamples.

Section NotExpiredLink.

Variables (req : request) (w : world) (u : url_row).

Hypothesis lookup_succeeds :
  pool_fault (env w) (length (statements (done w))) = false.

Hypothesis link_found : urls (store w) !! params_code req = Some u.

Hypothesis not_expired : expired (expires_at u) (clock (env w)) = false.

(** The test of the partner block decides [bypassed]. *)
Lemma bypassed_decided (pd : option string) (r : string) :
  bypassed pd r <->
  Js.truthy pd = true /\ ReferrerPolicy.isAllowed (default "" pd) r = false.
Proof.
  split.
  - intros [d [[-> Hd] Hno]]. split.
    + destruct d; [contradiction | reflexivity].
    + now apply isAllowed_false.
  - intros [Ht Ha]. apply truthy_Some in Ht. destruct Ht as [d [-> Hd]].
    exists d. split; [now split |]. now apply isAllowed_false.
Qed.

(** X4.  On a link that resolves and has not expired the answer is 403
    exactly when the request is a bypass (the link has a partner with a
    domain, and the normalized referrer does not contain the normalized
    domain), and 200 otherwise.  A bypass sends, after the lookup, exactly
    one insert of a bypass row carrying the referrer, the client address and
    the user agent of the request, changes no other table and starts no
    click recording; an allowed request writes nothing before the response
    and starts the click recording. *)
Theorem live_link_403_iff_bypassed :
  let code := params_code req in
  let pd := row_partner_domain (join_partner (store w) u) in
  let insert := InsertBypassLog code (referrer_of req) (getRealIP req) (userAgent_of req) in
  let ok := negb (pool_fault (env w) (S (length (statements (done w))))) in
  exists res task w',
    get_code req w = (Returned (res, task), w')
    /\ (status res = 403 <-> bypassed pd (referrer_of req))
    /\ (status res = 200 <-> ~ bypassed pd (referrer_of req))
    /\ (bypassed pd (referrer_of req) ->
        res = MkResponse 403 BypassDetectedPage
        /\ task = None
        /\ statements (done w') =
           statements (done w) ++ [(SelectUrlWithPartner code, true); (insert, ok)]
        /\ bypass_logs (store w') =
           bypass_logs (store w) ++
           (if ok then [MkBypass code (referrer_of req) (getRealIP req)
                          (userAgent_of req) (clock (env w))]
            else [])
        /\ clicks_table (store w') = clicks_table (store w)
        /\ urls (store w') = urls (store w))
    /\ (~ bypassed pd (referrer_of req) ->
        res = MkResponse 200 (VerifyingPage (url u))
        /\ task = Some (MkClickTask code (getRealIP req) (userAgent_of req)
                          (parseUserAgent (Some (userAgent_of req))) (referrer_of req))
        /\ statements (done w') =
           statements (done w) ++ [(SelectUrlWithPartner code, true)]
        /\ store w' = store w).
Proof.
  cbv zeta. rewrite (get_code_live req w u lookup_succeeds link_found not_expired).
  cbv zeta.
  set (pd := row_partner_domain (join_partner (store w) u)).
  destruct (Js.truthy pd) eqn:Ht;
    [destruct (ReferrerPolicy.isAllowed (default "" pd) (referrer_of req)) eqn:Ha |].
  - (* a partner, and the referrer passes *)
    assert (Hnb : ~ bypassed pd (referrer_of req)).
    { rewrite bypassed_decided. intros [_ H]. congruence. }
    rewrite (not_bypassed_passes _ _ _ _ _ _ Hnb).
    do 3 eexists. split; [reflexivity |]. cbn [status].
    repeat split; intros; try contradiction; try discriminate; auto.
  - (* a partner, and the referrer does not pass *)
    assert (Hb : bypassed pd (referrer_of req)).
    { rewrite bypassed_decided. now split. }
    rewrite (enforce_partner_denied _ pd _ _ _ _ Ht Ha). cbv zeta.
    cbn [logged sent env store done statements execute].
    rewrite length_snoc, link_found.
    do 3 eexists. split; [reflexivity |]. cbn [status].
    destruct (pool_fault (env w) (S (length (statements (done w)))));
      cbn; rewrite <- ?app_assoc;
      repeat split; intros; try contradiction; try discriminate; auto;
      now rewrite ?app_nil_r.
  - (* no partner domain *)
    assert (Hnb : ~ bypassed pd (referrer_of req)).
    { rewrite bypassed_decided. intros [H _]. congruence. }
    rewrite (not_bypassed_passes _ _ _ _ _ _ Hnb).
    do 3 eexists. split; [reflexivity |]. cbn [status].
    repeat split; intros; try contradiction; try discriminate; auto.
Qed.

End NotExpiredLink.

Section HandlerSafety.

(** Closes the conjuncts of the safety statement once the handler has been
    run on one of its paths. *)
Ltac safe_cases :=
  repeat split; eauto; try discriminate;
  try (intros [x Hx]; discriminate);
  try (intros; discriminate);
  try (intros target [= <-]; split; [reflexivity | eauto]);
  try (match goal with H : Some _ = Some _ |- _ => injection H as <- end; eauto);
  try (right; split; [reflexivity |]; eexists; split; reflexivity).

(** The outcome of the handler on every path. *)
Lemma get_code_outcome (req : request) (w : world) :
  exists res task w',
    get_code req w = (Returned (res, task), w')
    /\ (status res = 200 \/ status res = 403 \/ status res = 404
        \/ status res = 410 \/ status res = 500)
    /\ (is_Some task <-> status res = 200)
    /\ (forall target, embedded_target (body res) = Some target ->
        status res = 200
        /\ exists u, urls (store w) !! params_code req = Some u /\ target = url u)
    /\ urls (store w') = urls (store w)
    /\ partners (store w') = partners (store w)
    /\ clicks_table (store w') = clicks_table (store w)
    /\ (bypass_logs (store w') = bypass_logs (store w)
        \/ status res = 403
           /\ exists row, bypass_logs (store w') = bypass_logs (store w) ++ [row]
                          /\ bypass_code row = params_code req)
    /\ fetched (done w') = fetched (done w)
    /\ env w' = env w
    /\ (forall t, task = Some t ->
        task_code t = params_code req /\ task_ip t = getRealIP req).
Proof.
  destruct (pool_fault (env w) (length (statements (done w)))) eqn:Hf.
  { rewrite (get_code_faulted req w Hf). do 3 eexists. split; [reflexivity |].
    cbn. safe_cases. }
  destruct (urls (store w) !! params_code req) as [u|] eqn:Hu.
  2:{ rewrite (get_code_not_found req w Hf Hu). do 3 eexists. split; [reflexivity |].
      cbn. safe_cases. }
  destruct (expired (expires_at u) (clock (env w))) eqn:Hexp.
  { assert (exists t, expires_at u = Some t /\ t < clock (env w)) as [t [Ht Hlt]].
    { unfold expired in Hexp. destruct (expires_at u) as [t|]; [| discriminate].
      exists t. split; [reflexivity |]. now apply Z.ltb_lt. }
    rewrite (get_code_expired req w u Hf Hu t Ht Hlt).
    do 3 eexists. split; [reflexivity |].
    cbn. safe_cases. }
  rewrite (get_code_live req w u Hf Hu Hexp). cbv zeta.
  set (pd := row_partner_domain (join_partner (store w) u)).
  destruct (Js.truthy pd) eqn:Ht;
    [destruct (ReferrerPolicy.isAllowed (default "" pd) (referrer_of req)) eqn:Ha |].
  - rewrite (enforce_partner_allowed _ pd _ _ _ _ Ha).
    do 3 eexists. split; [reflexivity |].
    cbn. safe_cases.
  - rewrite (enforce_partner_denied _ pd _ _ _ _ Ht Ha). cbv zeta.
    cbn [logged sent env store done statements execute].
    rewrite length_snoc, Hu.
    do 3 eexists. split; [reflexivity |].
    destruct (pool_fault (env w) (S (length (statements (done w)))));
      cbn; safe_cases.
  - rewrite (enforce_partner_no_partner _ pd _ _ _ _ Ht).
    do 3 eexists. split; [reflexivity |].
    cbn. safe_cases.
Qed.

(** X5.  Whatever the request and the world, the handler completes with a
    response and never throws.  The status is one of 200, 403, 404, 410 and
    500; a click recording is started exactly with a 200; a body carries a
    target URL only with a 200, and it is the URL of the row of the
    requested code.  Before the response the handler changes neither
    [urls], nor [partners], nor [clicks]; [bypass_logs] is unchanged or, with
    a 403, longer by one row for the requested code. *)
Theorem get_code_safe (req : request) (w : world) :
  exists res task w',
    get_code req w = (Returned (res, task), w')
    /\ (status res = 200 \/ status res = 403 \/ status res = 404
        \/ status res = 410 \/ status res = 500)
    /\ (is_Some task <-> status res = 200)
    /\ (forall target, embedded_target (body res) = Some target ->
        status res = 200
        /\ exists u, urls (store w) !! params_code req = Some u /\ target = url u)
    /\ urls (store w') = urls (store w)
    /\ partners (store w') = partners (store w)
    /\ clicks_table (store w') = clicks_table (store w)
    /\ (bypass_logs (store w') = bypass_logs (store w)
        \/ status res = 403
           /\ exists row, bypass_logs (store w') = bypass_logs (store w) ++ [row]
                          /\ bypass_code row = params_code req)
    /\ env w' = env w.
Proof.
  destruct (get_code_outcome req w)
    as (res & task & w' & H1 & H2 & H3 & H4 & H5 & H6 & H7 & H8 & _ & H10 & _).
  exists res, task, w'. repeat (split; [assumption |]). assumption.
Qed.

End HandlerSafety.

Section RecordingInvariants.



End RecordingInvariants.

Section NotExpiredLinkExamples.

Lemma live_link_403_iff_bypassed_witness :
  exists res task w',
    get_code (request_from "deal" "https://news.example.org/story") sample_world
    = (Returned (res, task), w')
    /\ (status res = 403 <->
        bypassed (Some "example.com") "https://news.example.org/story")
    /\ (status res = 200 <->
        ~ bypassed (Some "example.com") "https://news.example.org/story").
Proof.
  destruct (live_link_403_iff_bypassed
              (request_from "deal" "https://news.example.org/story") sample_world
              (MkUrl "https://shop.example/deal" 0 3 (Some 1) None)
              ltac:(reflexivity) ltac:(reflexivity) ltac:(reflexivity))
    as (res & task & w' & Hget & H403 & H200 & _).
  exists res, task, w'. repeat split; first [assumption | apply H403 | apply H200].
Defined.

(** The same link reached from a page of another site, and from a page that
    only mentions the partner's domain in its query string. *)
Example deal_from_elsewhere :
  fst <$> fst_returned (get_code (request_from "deal" "https://news.example.org/story")
                          sample_world)
  = Some (MkResponse 403 BypassDetectedPage)
  /\ fst <$> fst_returned
               (get_code (request_from "deal" "https://news.example.org/?u=example.com")
                  sample_world)
     = Some (MkResponse 200 (VerifyingPage "https://shop.example/deal")).
Proof. split; reflexivity. Qed.

End NotExpiredLinkExamples.

(** * Further properties of the referrer policy and of the classifier *)

Section OpenGate.
Import ReferrerPolicy.

Lemma toLowerCase_empty (s : string) : Js.toLowerCase s = "" -> s = "".
Proof. destruct s; [reflexivity | discriminate]. Qed.

Lemma strip_trailing_slash_empty (s : string) :
  strip_trailing_slash s = "" -> s = "" \/ s = "/".
Proof.
  destruct s as [|c [|c' s]]; cbn [strip_trailing_slash].
  - now left.
  - destruct (Ascii.eqb_spec c "/") as [->|]; [now right | discriminate].
  - discriminate.
Qed.

Lemma strip_www_shape (s : string) :
  s = strip_www s \/ s = "www." +:+ strip_www s.
Proof.
  unfold strip_www. destruct (strip_prefix "www." s) as [rest|] eqn:E; [| now left].
  right. now apply strip_prefix_Some.
Qed.

Lemma strip_protocol_shape (s : string) :
  s = strip_protocol s
  \/ s = "http://" +:+ strip_protocol s
  \/ s = "https://" +:+ strip_protocol s.
Proof.
  unfold strip_protocol.
  destruct (strip_prefix "http://" s) as [rest|] eqn:E1.
  - right. left. now apply strip_prefix_Some.
  - destruct (strip_prefix "https://" s) as [rest|] eqn:E2; [| now left].
    right. right. now apply strip_prefix_Some.
Qed.

(** X8.  The partner domains that normalize to the empty string are exactly
    an optional [http://] or [https://], then an optional [www.], then an
    optional slash; a partner with such a domain lets every referrer pass,
    so no request to its links is a bypass. *)
Theorem empty_normal_domain_opens_gate (d : string) :
  (normalize d = "" <->
   exists p w t,
     d = p +:+ w +:+ t
     /\ (p = "" \/ p = "http://" \/ p = "https://")
     /\ (w = "" \/ w = "www.")
     /\ (t = "" \/ t = "/"))
  /\ (normalize d = "" ->
      forall r, isAllowed d r = true /\ ~ bypassed (Some d) r).
Proof.
  split.
  - rewrite normalize_normalized. unfold normalized. split.
    + intros H. apply toLowerCase_empty in H. apply strip_trailing_slash_empty in H.
      destruct (strip_protocol_shape d) as [Hp | [Hp | Hp]];
        destruct (strip_www_shape (strip_protocol d)) as [Hw | Hw];
        [ exists "", "" | exists "", "www." | exists "http://", ""
        | exists "http://", "www." | exists "https://", "" | exists "https://", "www." ];
        exists (strip_www (strip_protocol d));
        (split; [| split; [| split]]); auto;
        rewrite ?append_nil_l; congruence.
    + intros (p & w & t & -> & Hp & Hw & Ht).
      destruct Hp as [-> | [-> | ->]]; destruct Hw as [-> | ->];
        destruct Ht as [-> | ->]; reflexivity.
  - intros Hempty r.
    assert (Ha : isAllowed d r = true).
    { rewrite isAllowed_includes, Hempty. apply includes_occurs.
      exists "", (normalize r). reflexivity. }
    split; [exact Ha |].
    intros [d' [[[= <-] _] Hno]]. apply isAllowed_false in Hno. congruence.
Qed.

End OpenGate.

Section ClassifierMore.

Ltac split_includes :=
  repeat match goal with
         | |- context [Js.includes ?s ?p] =>
             destruct (includes_reflect s p); cbn [andb orb negb] in *
         | H : context [Js.includes ?s ?p] |- _ =>
             destruct (includes_reflect s p); cbn [andb orb negb] in *
         end.

(** X9.  The device is Mobile exactly when the lower-cased user agent
    contains [mobile], Tablet exactly when it contains [tablet] and not
    [mobile], and Desktop otherwise; a missing user agent is a Desktop with
    unknown browser and system.  The user agent of an iPad, which carries
    the token [Mobile/15E148] and no [tablet], is therefore a Mobile. *)
Theorem device_rule (userAgent : option string) :
  let ua := Js.toLowerCase (Js.or_else userAgent "") in
  let has p := occurs_in p ua in
  let result := device (parseUserAgent userAgent) in
  (result = "Mobile" <-> has "mobile")
  /\ (result = "Tablet" <-> has "tablet" /\ ~ has "mobile")
  /\ (result = "Desktop" <-> ~ has "mobile" /\ ~ has "tablet")
  /\ (absent userAgent ->
      parseUserAgent userAgent = MkClassification "Desktop" "Unknown" "Unknown")
  /\ device (parseUserAgent
       (Some ("Mozilla/5.0 (iPad; CPU OS 16_0 like Mac OS X) " +:+
              "AppleWebKit/605.1.15 (KHTML, like Gecko) Version/16.0 " +:+
              "Mobile/15E148 Safari/604.1")))
     = "Mobile".
Proof.
  cbv zeta. split; [| split; [| split; [| split; [| reflexivity]]]].
  - unfold parseUserAgent. cbn [device]. split_includes; split; intros;
      try reflexivity; try discriminate; tauto.
  - unfold parseUserAgent. cbn [device]. split_includes; split; intros;
      try reflexivity; try discriminate; tauto.
  - unfold parseUserAgent. cbn [device]. split_includes; split; intros;
      try reflexivity; try discriminate; tauto.
  - intros [-> | ->]; reflexivity.
Qed.

(** X10.  Labels that an earlier branch shadows.  The system is Android only
    for a user agent without [linux], so the usual Android user agent, which
    begins [(Linux; Android ...], is a Linux; the browser is Opera only for
    a user agent without [chrome], [safari], [firefox] and [edg], so a
    Chromium-based Opera, which carries [Chrome/...] and [OPR/...], is a
    Chrome; and the browser is Edge only together with [edg]. *)
Theorem shadowed_labels (userAgent : option string) :
  let ua := Js.toLowerCase (Js.or_else userAgent "") in
  let has p := occurs_in p ua in
  let result := parseUserAgent userAgent in
  (os result = "Android" ->
   has "android" /\ ~ has "linux" /\ ~ has "mac" /\ ~ has "windows")
  /\ (has "linux" -> ~ has "windows" -> ~ has "mac" -> os result = "Linux")
  /\ (browser result = "Opera" ->
      (has "opera" \/ has "opr")
      /\ ~ has "chrome" /\ ~ has "safari" /\ ~ has "firefox" /\ ~ has "edg")
  /\ (has "chrome" -> has "opr" -> ~ has "edg" -> browser result = "Chrome")
  /\ (browser result = "Edge" -> has "edg" /\ ~ has "firefox")
  /\ os (parseUserAgent
       (Some ("Mozilla/5.0 (Linux; Android 13; Pixel 7) AppleWebKit/537.36 " +:+
              "(KHTML, like Gecko) Chrome/116.0.0.0 Mobile Safari/537.36")))
     = "Linux".
Proof.
  cbv zeta. unfold parseUserAgent. cbn [os browser].
  repeat split; try reflexivity; split_includes; intros;
    try reflexivity; try discriminate; tauto.
Qed.

End ClassifierMore.

(** * Further properties of [getRealIP] *)

Section TrimFacts.

Lemma trimStart_blank (s : string) : blank s = true -> Js.trimStart s = "".
Proof.
  induction s as [|c s IH]; [reflexivity |]. cbn.
  destruct (Js.isWhiteSpace c); [exact IH | discriminate].
Qed.

Lemma trim_blank (s : string) : blank s = true -> Js.trim s = "".
Proof. intros H. unfold Js.trim. now rewrite trimStart_blank. Qed.

Lemma trimStart_suffix (s : string) : exists pre, s = pre +:+ Js.trimStart s.
Proof.
  induction s as [|c s [pre IH]]; [now exists "" |]. cbn.
  destruct (Js.isWhiteSpace c).
  - exists (String c pre). now rewrite append_cons, <- IH.
  - now exists "".
Qed.

Lemma trimEnd_prefix (s : string) : exists post, s = Js.trimEnd s +:+ post.
Proof.
  induction s as [|c s [post IH]]; [now exists "" |]. cbn.
  destruct (Js.trimEnd s) as [|c' t] eqn:E.
  - destruct (Js.isWhiteSpace c).
    + exists (String c s). reflexivity.
    + exists s. rewrite append_cons, append_nil_l. reflexivity.
  - exists post. now rewrite append_cons, <- IH.
Qed.

Lemma trim_occurs (s : string) : occurs_in (Js.trim s) s.
Proof.
  unfold Js.trim. destruct (trimStart_suffix s) as [pre Hpre].
  destruct (trimEnd_prefix (Js.trimStart s)) as [post Hpost].
  exists pre, post. now rewrite <- Hpost.
Qed.

Lemma trimStart_head (s : string) (c : ascii) (rest : string) :
  Js.trimStart s = String c rest -> Js.isWhiteSpace c = false.
Proof.
  induction s as [|a s IH]; cbn; [discriminate |].
  destruct (Js.isWhiteSpace a) eqn:E; [exact IH |].
  intros [= <- _]. exact E.
Qed.

Lemma trimEnd_head (s : string) (c : ascii) (rest : string) :
  Js.trimEnd s = String c rest -> exists rest', s = String c rest'.
Proof.
  destruct s as [|a s]; cbn; [discriminate |].
  destruct (Js.trimEnd s).
  - destruct (Js.isWhiteSpace a); [discriminate |]. intros [= <- _]. eauto.
  - intros [= <- _]. eauto.
Qed.

Lemma append_last_cons (pre : string) (c a : ascii) (t : string) :
  String a t = pre +:+ String c "" ->
  (t = "" /\ a = c /\ pre = "") \/ exists pre', pre = String a pre' /\ t = pre' +:+ String c "".
Proof.
  destruct pre as [|x pre].
  - rewrite append_nil_l. intros [= -> ->]. now left.
  - rewrite append_cons. intros [= -> ->]. right. now exists pre.
Qed.

Lemma trimEnd_last (s pre : string) (c : ascii) :
  Js.trimEnd s = pre +:+ String c "" -> Js.isWhiteSpace c = false.
Proof.
  revert pre; induction s as [|a s IH]; intros pre; cbn.
  - destruct pre; discriminate.
  - destruct (Js.trimEnd s) as [|a' t] eqn:E.
    + destruct (Js.isWhiteSpace a) eqn:Ea.
      * destruct pre; discriminate.
      * intros H. apply append_last_cons in H.
        destruct H as [(_ & -> & _) | [pre' [_ H]]]; [exact Ea |].
        destruct pre'; discriminate.
    + intros H. apply append_last_cons in H.
      destruct H as [(H & _ & _) | [pre' [_ H]]]; [discriminate |].
      now apply (IH pre').
Qed.

Lemma trim_trimmed (s : string) : trimmed (Js.trim s).
Proof.
  unfold Js.trim. split.
  - intros c rest H. destruct (trimEnd_head _ _ _ H) as [rest' H'].
    now apply (trimStart_head s c rest').
  - intros pre c H. exact (trimEnd_last (Js.trimStart s) pre c H).
Qed.

End TrimFacts.

Section ForwardedFor.

Variable req : request.
Variable f : string.

Hypothesis forwarded : present (headers req !! "x-forwarded-for") f.

(** With the header present the result is the trimmed head of the split. *)
Lemma getRealIP_forwarded_head :
  getRealIP req = Js.trim (nth 0 (Js.split ","%char f) "").
Proof.
  unfold getRealIP. destruct (truthy_present _ _ forwarded) as [-> ->].
  pose proof (split_nonempty ","%char f) as Hne.
  destruct (Js.split ","%char f); [contradiction | reflexivity].
Qed.

(** X11.  When [x-forwarded-for] is present the client address is a
    substring of the header that holds no comma and neither begins nor ends
    with white space; [x-real-ip], [cf-connecting-ip] and the socket are
    not consulted. *)
Theorem forwarded_address_is_clean :
  occurs_in (getRealIP req) f
  /\ ~ occurs_in "," (getRealIP req)
  /\ trimmed (getRealIP req)
  /\ (forall other : request,
        headers other !! "x-forwarded-for" = headers req !! "x-forwarded-for" ->
        getRealIP other = getRealIP req).
Proof.
  rewrite getRealIP_forwarded_head.
  destruct (split_first_entry f) as [Hno Hshape].
  set (e := nth 0 (Js.split ","%char f) "") in *.
  assert (He : occurs_in e f).
  { destruct Hshape as [Hf | [rest Hf]].
    - exists "", "". rewrite append_nil_l, append_nil_r. exact Hf.
    - exists "", ("," +:+ rest). rewrite append_nil_l. exact Hf. }
  split; [exact (occurs_in_trans _ _ _ (trim_occurs e) He) |].
  split; [intros H; apply Hno; exact (occurs_in_trans _ _ _ H (trim_occurs e)) |].
  split; [apply trim_trimmed |].
  intros other Hsame. unfold getRealIP. rewrite Hsame.
  destruct (truthy_present _ _ forwarded) as [-> ->].
  pose proof (split_nonempty ","%char f) as Hne. subst e.
  destruct (Js.split ","%char f); [contradiction | reflexivity].
Qed.

(** X12.  When the first comma-separated entry of [x-forwarded-for] is
    blank (the header begins with a comma, say) the client address is the
    empty string: the later entries, [x-real-ip], [cf-connecting-ip] and
    the socket address are not used in its place.  The empty address is
    then located as Local without a lookup. *)
Theorem blank_forwarded_entry_gives_empty_address (e : string) :
  first_entry_of f e ->
  blank e = true ->
  getRealIP req = ""
  /\ skip_local (getRealIP req) = true
  /\ forall w, getLocationFromIP (getRealIP req) w = (Returned local_location, w).
Proof.
  intros Hfirst Hblank.
  assert (Hip : getRealIP req = "").
  { rewrite getRealIP_forwarded_head.
    rewrite (first_entry_unique f _ _ (split_first_entry f) Hfirst).
    now apply trim_blank. }
  rewrite Hip. split; [reflexivity |]. split; [reflexivity |].
  intros w. now apply getLocationFromIP_skipped.
Qed.

End ForwardedFor.

Section ForwardedForExamples.

Lemma forwarded_address_is_clean_witness :
  occurs_in (getRealIP (MkRequest "deal"
                          {["x-forwarded-for" := " 198.51.100.7 , 10.0.0.2"]}
                          (Some "10.0.0.2") None))
    " 198.51.100.7 , 10.0.0.2"
  /\ ~ occurs_in ","
         (getRealIP (MkRequest "deal"
                       {["x-forwarded-for" := " 198.51.100.7 , 10.0.0.2"]}
                       (Some "10.0.0.2") None))
  /\ trimmed (getRealIP (MkRequest "deal"
                           {["x-forwarded-for" := " 198.51.100.7 , 10.0.0.2"]}
                           (Some "10.0.0.2") None)).
Proof.
  destruct (forwarded_address_is_clean
              (MkRequest "deal" {["x-forwarded-for" := " 198.51.100.7 , 10.0.0.2"]}
                 (Some "10.0.0.2") None)
              " 198.51.100.7 , 10.0.0.2")
    as (H1 & H2 & H3 & _).
  - split; [reflexivity | discriminate].
  - split; [exact H1 | split; [exact H2 | exact H3]].
Defined.

Lemma blank_forwarded_entry_gives_empty_address_witness :
  getRealIP (MkRequest "deal"
               (<["x-real-ip" := "198.51.100.7"]> {["x-forwarded-for" := ", 198.51.100.7"]})
               (Some "10.0.0.2") None)
  = "".
Proof.
  destruct (blank_forwarded_entry_gives_empty_address
              (MkRequest "deal"
                 (<["x-real-ip" := "198.51.100.7"]>
                    {["x-forwarded-for" := ", 198.51.100.7"]})
                 (Some "10.0.0.2") None)
              ", 198.51.100.7"
              ltac:(split; [reflexivity | discriminate])
              "")
    as (H & _).
  - split.
    + intros [pre [post H]]. destruct pre; discriminate.
    + right. exists " 198.51.100.7". reflexivity.
  - reflexivity.
  - exact H.
Defined.

End ForwardedForExamples.

(** * Further properties of [getLocationFromIP] *)

Section MappedAddresses.

Lemma strip_prefix_append (p s : string) :
  ReferrerPolicy.strip_prefix p (p +:+ s) = Some s.
Proof. now apply strip_prefix_Some. Qed.

(** Removing a literal that the string begins with leaves the rest. *)
Lemma replace_literal_prefix (p s : string) :
  Js.replace_literal p (p +:+ s) = s.
Proof.
  unfold Js.replace_literal, Js.replace_empty. cbn [Js.anchored_start Js.atoms Js.anchored_end].
  destruct (p +:+ s) as [|c t] eqn:E; cbn [Js.remove_leftmost];
    rewrite match_here_literal_only, <- E, strip_prefix_append; reflexivity.
Qed.

(** X13.  An IPv4-mapped address [::ffff:a.b.c.d] is skipped only when it
    contains [::1] or [::ffff:127.0.0.1].  Any other one, the mapped form of
    a private address such as [::ffff:192.168.1.5] included, is looked up,
    and the URL fetched is the one for the part after the wrapper. *)
Theorem mapped_address_is_looked_up (s : string) (w : world) :
  ~ occurs_in "::1" ("::ffff:" +:+ s) ->
  ~ occurs_in "::ffff:127.0.0.1" ("::ffff:" +:+ s) ->
  skip_local ("::ffff:" +:+ s) = false
  /\ lookup_target ("::ffff:" +:+ s) = lookup_url s
  /\ exists l w',
       getLocationFromIP ("::ffff:" +:+ s) w = (Returned l, w')
       /\ fetched (done w') = fetched (done w) ++ [lookup_url s]
       /\ l = location_of_reply (geo_provider (env w) (lookup_url s)).
Proof.
  intros H1 H2.
  assert (Hskip : skip_local ("::ffff:" +:+ s) = false).
  { unfold skip_local.
    apply includes_false in H1. apply includes_false in H2. rewrite H1, H2.
    change ("::ffff:" +:+ s) with (String ":" (":ffff:" +:+ s)).
    reflexivity. }
  assert (Htarget : lookup_target ("::ffff:" +:+ s) = lookup_url s).
  { unfold lookup_target. now rewrite replace_literal_prefix. }
  split; [exact Hskip |]. split; [exact Htarget |].
  destruct (getLocationFromIP_looked_up _ w Hskip) as [lines Hrun].
  rewrite Htarget in Hrun. do 2 eexists. split; [exact Hrun |].
  split; reflexivity.
Qed.

Lemma mapped_address_is_looked_up_witness :
  skip_local ("::ffff:" +:+ "192.168.1.5") = false
  /\ lookup_target ("::ffff:" +:+ "192.168.1.5") = lookup_url "192.168.1.5".
Proof.
  destruct (mapped_address_is_looked_up "192.168.1.5" sample_world) as (H1 & H2 & _).
  - apply includes_false. reflexivity.
  - apply includes_false. reflexivity.
  - split; assumption.
Defined.

End MappedAddresses.

Section DefaultValues.

Lemma or_else_nonempty (v : option string) (dflt : string) :
  dflt <> "" -> Js.or_else v dflt <> "".
Proof. intros H. destruct v as [[|c s]|]; cbn; [exact H | discriminate | exact H]. Qed.

End DefaultValues.

(** * The lookup in time *)

Section TimedLookupFacts.

Variable bodies : string -> body_transfer.

Lemma settles_eq {A : Type} (t t' : Z) (c : completion A) (w : world) :
  t = t' -> Settles t c w = Settles t' c w.
Proof. now intros ->. Qed.

(** The run of the lookup in time, case by case: when it settles, with
    what, and what it leaves; and that the computation without time gives
    the same value and the same world wherever the body is not awaited or
    arrives whole. *)
Lemma timed_lookup_run (ip : string) (w : world) :
  let target := lookup_target ip in
  let reply := geo_provider (env w) target in
  exists w',
    timed_getLocationFromIP bodies ip w =
    (if skip_local ip then Settles 0 (Returned local_location) w'
     else if 5000 <=? latency_ms reply
          then Settles 5000 (Returned unknown_location) w'
          else match outcome reply with
               | TransportError _ =>
                   Settles (latency_ms reply) (Returned unknown_location) w'
               | Response _ =>
                   match bodies target with
                   | BodyComplete d =>
                       Settles (latency_ms reply + d)
                         (Returned (location_of_reply reply)) w'
                   | BodyFails d _ =>
                       Settles (latency_ms reply + d) (Returned unknown_location) w'
                   | BodyNeverEnds => Pends w'
                   end
               end)
    /\ env w' = env w
    /\ store w' = store w
    /\ statements (done w') = statements (done w)
    /\ fetched (done w') = fetched (done w) ++ (if skip_local ip then [] else [target])
    /\ (skip_local ip = true \/ 5000 <= latency_ms reply
        \/ (exists m, outcome reply = TransportError m)
        \/ (exists d, bodies target = BodyComplete d) ->
        getLocationFromIP ip w = (Returned (geo_result (env w) ip), w')).
Proof.
  cbv zeta. unfold geo_result, timed_getLocationFromIP, getLocationFromIP.
  unfold timed_bind at 1, timed_try_catch, bind at 1, try_catch.
  destruct (skip_local ip) eqn:Hskip.
  { exists w. cbn. rewrite app_nil_r. repeat split. }
  unfold timed_bind at 1, at_once at 1, console_log at 1.
  unfold timed_bind at 1, timed_fetch.
  fold (lookup_target ip). unfold location_of_reply.
  cbn [logged requested env store done statements fetched console].
  assert (Huntimed :
    forall k : response_body -> M (option location),
      bind (console_log (LogFetchingLocation (Js.replace_literal "::ffff:" ip)))
        (fun _ => bind (fetch_abort_after 5000 (lookup_target ip)) k) w
      = let w1 := requested (lookup_target ip)
                    (logged (LogFetchingLocation (Js.replace_literal "::ffff:" ip)) w) in
        if 5000 <=? latency_ms (geo_provider (env w) (lookup_target ip))
        then (Threw AbortError, w1)
        else match outcome (geo_provider (env w) (lookup_target ip)) with
             | TransportError m => (Threw (FetchError m), w1)
             | Response body => k body w1
             end).
  { intros k. unfold bind, console_log, fetch_abort_after. cbn [logged env].
    destruct (5000 <=? latency_ms (geo_provider (env w) (lookup_target ip)));
      [reflexivity |].
    now destruct (outcome (geo_provider (env w) (lookup_target ip))). }
  rewrite Huntimed. cbv zeta. clear Huntimed.
  destruct (Z.leb_spec 5000 (latency_ms (geo_provider (env w) (lookup_target ip))))
    as [Hlate|Hintime].
  { eexists. split; [cbn; apply settles_eq; lia |]. cbn. repeat split. }
  destruct (outcome (geo_provider (env w) (lookup_target ip))) as [m|body] eqn:Hout.
  { eexists. split; [cbn; apply settles_eq; lia |]. cbn. repeat split. }
  unfold timed_bind at 1, timed_json, bind at 1.
  destruct (bodies (lookup_target ip)) as [d|d m|] eqn:Hbody.
  - destruct body as [| |o]; cbn [response_json throw ret].
    + eexists. split; [cbn; apply settles_eq; lia |]. cbn. repeat split.
    + eexists. split; [cbn; apply settles_eq; lia |]. cbn. repeat split.
    + destruct (status_is_success o).
      * eexists. split; [cbn; apply settles_eq; lia |]. cbn. repeat split.
      * eexists. split; [cbn; apply settles_eq; lia |]. cbn. repeat split.
  - eexists. split; [cbn; apply settles_eq; lia |]. cbn.
    repeat split.
    intros [H | [H | [[m' H] | [d' H]]]]; [discriminate | lia | discriminate | discriminate].
  - eexists. split; [reflexivity |]. cbn. repeat split.
    intros [H | [H | [[m' H] | [d' H]]]]; [discriminate | lia | discriminate | discriminate].
Qed.

(** The world the run lemma speaks of is the world the call leaves. *)
Lemma world_left_cases {A : Type} (b1 b2 : bool) (tr : transfer) (bt : body_transfer)
    (t1 t2 t3 : Z) (t4 t5 : Z -> Z) (c1 c2 c3 c4 c5 : completion A) (w' : world) :
  world_left
    (if b1 then Settles t1 c1 w'
     else if b2 then Settles t2 c2 w'
          else match tr with
               | TransportError _ => Settles t3 c3 w'
               | Response _ =>
                   match bt with
                   | BodyComplete d => Settles (t4 d) c4 w'
                   | BodyFails d _ => Settles (t5 d) c5 w'
                   | BodyNeverEnds => Pends w'
                   end
               end) = w'.
Proof. destruct b1, b2, tr, bt; reflexivity. Qed.

(** C6 (the bound of five seconds).  The timer that aborts the lookup is
    cleared as soon as the response has arrived, before its body is
    awaited, so nothing bounds the wait for the body.  For the public
    address [8.8.8.8] and a provider whose response arrives after 20 ms and
    reports success: when the body takes [d] more milliseconds the call
    settles after [20 + d] milliseconds, whatever [d] is, with the
    provider's location; with a body that takes 5602 ms that is 5622 ms
    after the call, and the result is not the Unknown triple; and when the
    body never ends the call never settles, so that no location is
    returned at all.  One request is sent in each case. *)
Theorem slow_body_outlives_the_timeout (d : Z) :
  let reykjavik := MkLocation "Iceland" "Reykjavik" "Capital Region" in
  (exists w',
     timed_getLocationFromIP (fun _ => BodyComplete d) "8.8.8.8" prompt_world
     = Settles (20 + d) (Returned reykjavik) w'
     /\ fetched (done w') = [lookup_url "8.8.8.8"])
  /\ (exists w',
        timed_getLocationFromIP (fun _ => BodyComplete 5602) "8.8.8.8" prompt_world
        = Settles 5622 (Returned reykjavik) w')
  /\ 5000 < 5622
  /\ reykjavik <> unknown_location
  /\ (exists w',
        timed_getLocationFromIP (fun _ => BodyNeverEnds) "8.8.8.8" prompt_world
        = Pends w'
        /\ fetched (done w') = [lookup_url "8.8.8.8"]).
Proof.
  cbv zeta. split; [| split; [| split; [| split]]].
  - eexists. split.
    + unfold timed_getLocationFromIP, timed_bind, timed_try_catch, timed_fetch,
        timed_json, at_once.
      cbn. apply settles_eq. lia.
    + reflexivity.
  - eexists. reflexivity.
  - lia.
  - discriminate.
  - eexists. split; reflexivity.
Qed.

(** X28.  Whenever the lookup settles it returns a location and does not
    throw.  The location is the Local triple for a skipped address.  For
    any other address it is the Unknown triple when no response arrived
    within 5000 ms, on a transport error, when the connection fails while
    the body arrives, on a body that does not parse or is [null], and on a
    status other than [success]; on success it is the provider's country,
    city and region, each replaced by [Unknown] when the provider gave no
    value for it. *)
Theorem settled_lookup_returns_a_location (ip : string) (w : world)
    (t : Z) (c : completion location) (w' : world) :
  timed_getLocationFromIP bodies ip w = Settles t c w' ->
  let target := lookup_target ip in
  let reply := geo_provider (env w) target in
  exists l,
    c = Returned l
    /\ (skip_local ip = true -> l = local_location)
    /\ (skip_local ip = false ->
        (5000 <= latency_ms reply -> l = unknown_location)
        /\ (latency_ms reply < 5000 ->
            (forall m, outcome reply = TransportError m -> l = unknown_location)
            /\ (forall ms m, bodies target = BodyFails ms m -> l = unknown_location)
            /\ (outcome reply = Response BodyNotJson -> l = unknown_location)
            /\ (outcome reply = Response BodyNull -> l = unknown_location)
            /\ (forall o ms,
                  outcome reply = Response (BodyObject o) ->
                  bodies target = BodyComplete ms ->
                  (data_status o <> Some "success" -> l = unknown_location)
                  /\ (data_status o = Some "success" ->
                      (forall s, present (data_country o) s -> country l = s)
                      /\ (absent (data_country o) -> country l = "Unknown")
                      /\ (forall s, present (data_city o) s -> city l = s)
                      /\ (absent (data_city o) -> city l = "Unknown")
                      /\ (forall s, present (data_regionName o) s -> region l = s)
                      /\ (absent (data_regionName o) -> region l = "Unknown"))))).
Proof.
  intros Hrun. cbv zeta.
  destruct (timed_lookup_run ip w) as (w1 & Hcases & _). cbv zeta in Hcases.
  rewrite Hrun in Hcases. unfold location_of_reply in Hcases.
  set (reply := geo_provider (env w) (lookup_target ip)) in *.
  destruct (skip_local ip).
  { injection Hcases as -> -> ->. exists local_location.
    split; [reflexivity |]. split; [reflexivity | discriminate]. }
  destruct (Z.leb_spec 5000 (latency_ms reply)) as [Hlate|Hintime].
  { injection Hcases as -> -> ->. exists unknown_location.
    split; [reflexivity |]. split; [discriminate |]. intros _.
    split; [reflexivity |]. intros; lia. }
  destruct (outcome reply) as [m|body] eqn:Hout.
  { injection Hcases as -> -> ->. exists unknown_location.
    split; [reflexivity |]. split; [discriminate |]. intros _.
    split; [intros; lia |]. intros _.
    repeat split; intros; try discriminate; reflexivity. }
  destruct (bodies (lookup_target ip)) as [d|d m|] eqn:Hbody; [| | discriminate].
  - injection Hcases as -> -> ->. eexists. split; [reflexivity |].
    split; [discriminate |]. intros _. split; [intros; lia |]. intros _.
    destruct body as [| |o];
      repeat split; intros; try discriminate; try reflexivity.
    all: match goal with
         | H : Response _ = Response _ |- _ => injection H as <-
         end.
    all: try (match goal with
              | H : data_status _ <> _ |- _ =>
                  apply status_is_success_false in H; now rewrite H
              end).
    all: match goal with
         | H : data_status _ = _ |- _ =>
             apply status_is_success_iff in H; rewrite H; cbn [country city region]
         end.
    all: first [ now apply or_else_truthy_present | now apply or_else_absent ].
  - injection Hcases as -> -> ->. exists unknown_location.
    split; [reflexivity |]. split; [discriminate |]. intros _.
    split; [intros; lia |]. intros _.
    repeat split; intros; try discriminate; reflexivity.
Qed.

(** X29.  When the lookup settles.  A skipped address is answered at once.
    For any other address: when no response has arrived after 5000 ms the
    timer aborts the request and the call settles then, with the Unknown
    triple; a transport error settles it when it occurs; once a response
    has arrived in time the call settles when the body is complete or the
    connection fails, however long that takes, and stays pending exactly
    when the body never ends.  Wherever the call settles without a failure
    of the connection during the body, the computation without time gives
    the same value and leaves the same world. *)
Theorem lookup_settles_unless_body_never_ends (ip : string) (w : world) :
  let target := lookup_target ip in
  let reply := geo_provider (env w) target in
  let run := timed_getLocationFromIP bodies ip w in
  (skip_local ip = true -> run = Settles 0 (Returned local_location) w)
  /\ (skip_local ip = false -> 5000 <= latency_ms reply ->
      exists w', run = Settles 5000 (Returned unknown_location) w')
  /\ (skip_local ip = false -> latency_ms reply < 5000 ->
      (forall m, outcome reply = TransportError m ->
         exists w', run = Settles (latency_ms reply) (Returned unknown_location) w')
      /\ (forall body, outcome reply = Response body ->
            (forall ms, bodies target = BodyComplete ms ->
               exists w', run = Settles (latency_ms reply + ms)
                                  (Returned (location_of_reply reply)) w')
            /\ (forall ms m, bodies target = BodyFails ms m ->
                  exists w', run = Settles (latency_ms reply + ms)
                                     (Returned unknown_location) w')
            /\ (bodies target = BodyNeverEnds -> exists w', run = Pends w')))
  /\ ((exists w', run = Pends w') ->
      skip_local ip = false /\ latency_ms reply < 5000
      /\ (exists body, outcome reply = Response body)
      /\ bodies target = BodyNeverEnds)
  /\ (forall t c w',
        run = Settles t c w' ->
        (forall ms m, bodies target <> BodyFails ms m) ->
        getLocationFromIP ip w = (c, w') /\ c = Returned (geo_result (env w) ip)).
Proof.
  cbv zeta.
  destruct (timed_lookup_run ip w) as (w1 & Hcases & _ & _ & _ & _ & Hagree).
  cbv zeta in Hcases, Hagree. rewrite Hcases. clear Hcases.
  set (reply := geo_provider (env w) (lookup_target ip)) in *.
  destruct (skip_local ip) eqn:Hskip.
  { pose proof (Hagree (or_introl eq_refl)) as Hun.
    rewrite (getLocationFromIP_skipped _ _ Hskip) in Hun.
    injection Hun as Hl Hw. subst w1.
    split; [reflexivity |]. split; [discriminate |]. split; [discriminate |].
    split; [intros [w' H]; discriminate |].
    intros t c w' [= <- <- <-] _. rewrite (getLocationFromIP_skipped _ _ Hskip).
    split; [reflexivity | now rewrite Hl]. }
  destruct (Z.leb_spec 5000 (latency_ms reply)) as [Hlate|Hintime].
  { pose proof (Hagree (or_intror (or_introl Hlate))) as Hun.
    split; [discriminate |]. split; [eauto |]. split; [intros; lia |].
    split; [intros [w' H]; discriminate |].
    intros t c w' [= <- <- <-] _.
    assert (Hg : geo_result (env w) ip = unknown_location).
    { unfold geo_result, location_of_reply. rewrite Hskip. fold reply.
      destruct (Z.leb_spec 5000 (latency_ms reply)); [reflexivity | lia]. }
    rewrite Hg in Hun. split; [exact Hun | now rewrite Hg]. }
  destruct (outcome reply) as [m|body] eqn:Hout.
  { pose proof (Hagree (or_intror (or_intror (or_introl (ex_intro _ m eq_refl))))) as Hun.
    split; [discriminate |]. split; [intros; lia |].
    split; [intros _ _; split; [eauto | intros; discriminate] |].
    split; [intros [w' H]; discriminate |].
    intros t c w' [= <- <- <-] _.
    assert (Hg : geo_result (env w) ip = unknown_location).
    { unfold geo_result, location_of_reply. rewrite Hskip. fold reply. rewrite Hout.
      destruct (Z.leb_spec 5000 (latency_ms reply)); [lia | reflexivity]. }
    rewrite Hg in Hun. split; [exact Hun | now rewrite Hg]. }
  destruct (bodies (lookup_target ip)) as [d|d m|] eqn:Hbody.
  - pose proof (Hagree (or_intror (or_intror (or_intror (ex_intro _ d eq_refl))))) as Hun.
    split; [discriminate |]. split; [intros; lia |].
    split.
    { intros _ _. split; [intros; discriminate |]. intros body' _.
      split; [intros ms [= <-]; eauto |]. split; intros; discriminate. }
    split; [intros [w' H]; discriminate |].
    intros t c w' [= <- <- <-] _.
    assert (Hg : geo_result (env w) ip = location_of_reply reply).
    { unfold geo_result. now rewrite Hskip. }
    rewrite Hg in Hun. split; [exact Hun | now rewrite Hg].
  - split; [discriminate |]. split; [intros; lia |].
    split.
    { intros _ _. split; [intros; discriminate |]. intros body' _.
      split; [intros; discriminate |].
      split; [intros ms m' [= <- <-]; eauto | intros; discriminate]. }
    split; [intros [w' H]; discriminate |].
    intros t c w' _ Hno. now destruct (Hno d m).
  - split; [discriminate |]. split; [intros; lia |].
    split.
    { intros _ _. split; [intros; discriminate |]. intros body' _.
      split; [intros; discriminate |]. split; [intros; discriminate | eauto]. }
    split; [intros _; repeat split; eauto |].
    intros t c w' H; discriminate.
Qed.

(** X14.  The lookup touches nothing but the provider and the console:
    whether it settles or stays pending, the call sends no statement to the
    pool and leaves the tables and the environment as they were; it sends
    no request for a skipped address and exactly one otherwise, to the URL
    of the address without its IPv6 wrapper, with no second attempt. *)
Theorem lookup_touches_only_the_provider (ip : string) (w : world) :
  let w' := world_left (timed_getLocationFromIP bodies ip w) in
  env w' = env w
  /\ store w' = store w
  /\ statements (done w') = statements (done w)
  /\ fetched (done w') =
     fetched (done w) ++ (if skip_local ip then [] else [lookup_target ip]).
Proof.
  cbv zeta.
  destruct (timed_lookup_run ip w) as (w1 & Hcases & He & Hs & Hst & Hf & _).
  cbv zeta in Hcases. rewrite Hcases, world_left_cases.
  repeat split; assumption.
Qed.

End TimedLookupFacts.

Section TimedLookupExamples.

Lemma settled_lookup_returns_a_location_witness :
  exists l,
    Returned (MkLocation "Iceland" "Reykjavik" "Capital Region") = Returned l
    /\ (skip_local "8.8.8.8" = false ->
        latency_ms (geo_provider (env prompt_world) (lookup_target "8.8.8.8")) < 5000 ->
        country l = "Iceland").
Proof.
  destruct (settled_lookup_returns_a_location (fun _ => BodyComplete 40) "8.8.8.8"
              prompt_world 60 (Returned (MkLocation "Iceland" "Reykjavik" "Capital Region"))
              (world_left (timed_getLocationFromIP (fun _ => BodyComplete 40) "8.8.8.8"
                             prompt_world))
              ltac:(reflexivity))
    as (l & Hl & _ & Hlooked).
  exists l. split; [exact Hl |].
  intros Hskip Hlat. destruct (Hlooked Hskip) as [_ Hin].
  destruct (Hin Hlat) as (_ & _ & _ & _ & Hobj).
  destruct (Hobj _ 40 eq_refl eq_refl) as [_ Hok].
  destruct (Hok eq_refl) as (Hc & _). apply Hc. split; [reflexivity | discriminate].
Defined.

End TimedLookupExamples.

(** * Properties of the admin routes *)

Section AdminRuns.

Lemma admin_query_faulted (st : Admin.admin_statement) (w : Admin.admin_world) :
  pool_fault (Admin.admin_env w) (length (Admin.admin_sent w)) = true ->
  Admin.admin_query st w = (Threw DatabaseError, admin_failed st w).
Proof. intros H. unfold Admin.admin_query. now rewrite H. Qed.

Lemma admin_query_executed (st : Admin.admin_statement) (w : Admin.admin_world)
    rows db :
  pool_fault (Admin.admin_env w) (length (Admin.admin_sent w)) = false ->
  Admin.admin_execute (clock (Admin.admin_env w))
    (Admin.partners_id_seq w (length (Admin.admin_sent w)))
    (Admin.listing_order w (length (Admin.admin_sent w)))
    (Admin.analytics_rows w (length (Admin.admin_sent w))) st (Admin.tables w)
  = Some (rows, db) ->
  Admin.admin_query st w = (Returned rows, admin_after st true db w).
Proof. intros H E. unfold Admin.admin_query. now rewrite H, E. Qed.

Lemma admin_query_refused (st : Admin.admin_statement) (w : Admin.admin_world) :
  Admin.admin_execute (clock (Admin.admin_env w))
    (Admin.partners_id_seq w (length (Admin.admin_sent w)))
    (Admin.listing_order w (length (Admin.admin_sent w)))
    (Admin.analytics_rows w (length (Admin.admin_sent w))) st (Admin.tables w)
  = None ->
  Admin.admin_query st w = (Threw DatabaseError, admin_failed st w).
Proof.
  intros E. unfold Admin.admin_query. rewrite E.
  now destruct (pool_fault (Admin.admin_env w) (length (Admin.admin_sent w))).
Qed.

End AdminRuns.

Section AdminGate.

Lemma ADMIN_PASSWORD_nonempty (envpw : option string) : Admin.ADMIN_PASSWORD envpw <> "".
Proof. unfold Admin.ADMIN_PASSWORD. apply or_else_nonempty. discriminate. Qed.

Lemma differs_true (password : option string) (expected : string) :
  Admin.differs password expected = true <-> password <> Some expected.
Proof.
  unfold Admin.differs. destruct password as [p|].
  - destruct (String.eqb_spec p expected) as [->|Hne]; cbn; split; congruence.
  - split; [discriminate | reflexivity].
Qed.

Lemma differs_false (password : option string) (expected : string) :
  Admin.differs password expected = false <-> password = Some expected.
Proof.
  unfold Admin.differs. destruct password as [p|].
  - destruct (String.eqb_spec p expected) as [->|Hne]; cbn; split; congruence.
  - split; discriminate.
Qed.

(** X15.  Every admin route compares the password of the request (the
    header [x-admin-password], or the query parameter when the header is
    missing or empty) with the configured one.  When they differ the answer
    is 401 and nothing happens: no statement is sent, no value is drawn and
    the tables are as they were.  A header with another password is not
    made good by the right password in the query; a request with neither is
    refused; and when [ADMIN_PASSWORD] is not set, or set to the empty
    string, the configured password is [changeme123]. *)
Theorem admin_routes_need_the_password (envpw : option string) (req : Admin.admin_request) :
  let expected := Admin.ADMIN_PASSWORD envpw in
  let unauthorized :=
    Admin.MkAdminResponse 401 (Admin.JsonError "Unauthorized: Invalid password") in
  (Admin.password_of req <> Some expected ->
   forall (w : Admin.admin_world) (fuel : nat),
     Admin.route_partners envpw req w = (Returned unauthorized, w)
     /\ Admin.route_shorten envpw fuel req w = (Returned (Some unauthorized), w)
     /\ Admin.route_delete envpw req w = (Returned unauthorized, w)
     /\ Admin.route_urls envpw req w = (Returned unauthorized, w)
     /\ Admin.route_analytics envpw req w = (Returned unauthorized, w))
  /\ (Admin.password_of req = Some expected ->
      forall (w : Admin.admin_world) (fuel : nat),
        Admin.route_partners envpw req w = Admin.create_partner req w
        /\ Admin.route_shorten envpw fuel req w = Admin.shorten fuel req w
        /\ Admin.route_delete envpw req w = Admin.delete_url req w
        /\ Admin.route_urls envpw req w = Admin.list_urls w
        /\ Admin.route_analytics envpw req w = Admin.analytics req w)
  /\ (forall h, present (Admin.admin_headers req !! "x-admin-password") h ->
        h <> expected -> Admin.password_of req <> Some expected)
  /\ (absent (Admin.admin_headers req !! "x-admin-password") ->
      Admin.password_of req = Admin.query_password req)
  /\ (absent (Admin.admin_headers req !! "x-admin-password") ->
      absent (Admin.query_password req) ->
      Admin.password_of req <> Some expected)
  /\ (absent envpw -> expected = "changeme123").
Proof.
  cbv zeta. repeat split.
  - unfold Admin.route_partners, Admin.requireAuth.
    apply differs_true in H. now rewrite H.
  - unfold Admin.route_shorten, Admin.requireAuth.
    apply differs_true in H. now rewrite H.
  - unfold Admin.route_delete, Admin.requireAuth.
    apply differs_true in H. now rewrite H.
  - unfold Admin.route_urls, Admin.requireAuth.
    apply differs_true in H. now rewrite H.
  - unfold Admin.route_analytics, Admin.requireAuth.
    apply differs_true in H. now rewrite H.
  - unfold Admin.route_partners, Admin.requireAuth.
    apply differs_false in H. now rewrite H.
  - unfold Admin.route_shorten, Admin.requireAuth.
    apply differs_false in H. now rewrite H.
  - unfold Admin.route_delete, Admin.requireAuth.
    apply differs_false in H. now rewrite H.
  - unfold Admin.route_urls, Admin.requireAuth.
    apply differs_false in H. now rewrite H.
  - unfold Admin.route_analytics, Admin.requireAuth.
    apply differs_false in H. now rewrite H.
  - intros h Hh Hne. unfold Admin.password_of, Js.or_opt.
    destruct (truthy_present _ _ Hh) as [-> _]. destruct Hh as [-> _]. congruence.
  - intros Hh. unfold Admin.password_of, Js.or_opt. now rewrite (truthy_absent _ Hh).
  - intros Hh Hq. unfold Admin.password_of, Js.or_opt. rewrite (truthy_absent _ Hh).
    pose proof (ADMIN_PASSWORD_nonempty envpw) as Hne.
    destruct Hq as [-> | ->]; congruence.
  - intros Hunset. unfold Admin.ADMIN_PASSWORD. now apply or_else_absent.
Qed.

End AdminGate.

Section GeneratedCodes.

Lemma charAt_chars (k : nat) :
  (k < 62)%nat ->
  exists c, Admin.charAt Admin.chars k = String c "" /\ alphanumeric c = true.
Proof.
  intros H.
  do 62 (destruct k as [|k]; [eexists; split; reflexivity |]).
  lia.
Qed.

Lemma length_append (a b : string) :
  String.length (a +:+ b) = (String.length a + String.length b)%nat.
Proof.
  induction a as [|c a IH]; [reflexivity |].
  rewrite append_cons. cbn. now rewrite IH.
Qed.

Lemma all_alphanumeric_append (a b : string) :
  all_alphanumeric (a +:+ b) = all_alphanumeric a && all_alphanumeric b.
Proof.
  induction a as [|c a IH]; [reflexivity |].
  rewrite append_cons. cbn. now rewrite IH, andb_assoc.
Qed.

(** The loop draws one value for each round and does nothing else. *)
Lemma generate_rounds_run (n : nat) (code : string) (w : Admin.admin_world) :
  exists code',
    Admin.generate_rounds n code w = (Returned code', admin_drew n w)
    /\ ((forall k, (Admin.random_index w k < 62)%nat) ->
        String.length code' = (String.length code + n)%nat
        /\ all_alphanumeric code' = all_alphanumeric code).
Proof.
  revert code w; induction n as [|n IH]; intros code w.
  - exists code. split; [destruct w; reflexivity |].
    intros _. split; [lia | reflexivity].
  - cbn [Admin.generate_rounds]. unfold Admin.admin_bind, Admin.random_chars_index.
    set (w1 := Admin.MkAdminWorld _ _ _ _ _ _ _ _ _).
    destruct (IH (code +:+ Admin.charAt Admin.chars (Admin.random_index w (Admin.drawn w))) w1)
      as [code' [Hrun Hshape]].
    exists code'. split.
    + rewrite Hrun. unfold admin_drew, w1. cbn. do 2 f_equal. lia.
    + intros Hrange. destruct (Hshape Hrange) as [Hlen Hal].
      destruct (charAt_chars _ (Hrange (Admin.drawn w))) as [c [Hc Hca]].
      rewrite Hc in Hlen, Hal. rewrite length_append in Hlen.
      rewrite all_alphanumeric_append in Hal. cbn in Hlen, Hal. rewrite Hca in Hal.
      split; [lia |]. rewrite Hal. now rewrite !andb_true_r.
Qed.

Lemma generateCode_run (w : Admin.admin_world) :
  exists code,
    Admin.generateCode w = (Returned code, admin_drew 6 w)
    /\ ((forall k, (Admin.random_index w k < 62)%nat) ->
        String.length code = 6%nat /\ all_alphanumeric code = true).
Proof.
  destruct (generate_rounds_run 6 "" w) as [code [Hrun Hshape]].
  exists code. split; [exact Hrun |]. intros Hrange.
  destruct (Hshape Hrange) as [Hlen Hal]. split; assumption.
Qed.

(** X16.  With the values of [Math.random] in their range, a generated code
    has exactly six characters, each a letter or a digit; generating it
    draws six values and touches nothing else. *)
Theorem generateCode_six_alphanumeric (w : Admin.admin_world) :
  (forall k, (Admin.random_index w k < 62)%nat) ->
  exists code w',
    Admin.generateCode w = (Returned code, w')
    /\ String.length code = 6%nat
    /\ all_alphanumeric code = true
    /\ Js.truthy (Some code) = true
    /\ Admin.drawn w' = (6 + Admin.drawn w)%nat
    /\ Admin.tables w' = Admin.tables w
    /\ Admin.admin_sent w' = Admin.admin_sent w.
Proof.
  intros Hrange. destruct (generateCode_run w) as [code [Hrun Hshape]].
  destruct (Hshape Hrange) as [Hlen Hal].
  exists code, (admin_drew 6 w). split; [exact Hrun |].
  repeat split; try assumption.
  destruct code; [discriminate | reflexivity].
Qed.

Lemma generateCode_six_alphanumeric_witness :
  exists code w',
    Admin.generateCode sample_admin_world = (Returned code, w')
    /\ String.length code = 6%nat
    /\ all_alphanumeric code = true.
Proof.
  destruct (generateCode_six_alphanumeric sample_admin_world)
    as (code & w' & Hrun & Hlen & Hal & _).
  - intros k. unfold sample_admin_world. cbn [Admin.random_index].
    apply Nat.mod_upper_bound. discriminate.
  - exists code, w'. repeat split; assumption.
Defined.

Example generateCode_sample :
  fst (Admin.generateCode sample_admin_world) = Returned "dkryFM".
Proof. reflexivity. Qed.

End GeneratedCodes.

Section ShortenValidation.
Import ReferrerPolicy.

(** The protocol pattern at the start of a string. *)
Lemma match_protocol (s : string) :
  Js.match_here (Js.atoms re_protocol) false s =
  match strip_prefix "http://" s with
  | Some rest => Some rest
  | None => strip_prefix "https://" s
  end.
Proof.
  unfold re_protocol; cbn [Js.atoms].
  rewrite match_here_literal.
  change "http://" with ("http" +:+ "://").
  change "https://" with ("http" +:+ "s://").
  rewrite !strip_prefix_app.
  destruct (strip_prefix "http" s) as [r|]; [| reflexivity].
  cbn [app Js.match_here].
  destruct r as [|a r]; [reflexivity |].
  rewrite !match_here_literal_only.
  destruct (Ascii.eqb_spec a "s") as [->|Hne].
  - change (strip_prefix "s://" (String "s" r)) with (strip_prefix "://" r).
    change (strip_prefix "://" (String "s" r)) with (@None string).
    destruct (strip_prefix "://" r); reflexivity.
  - assert (strip_prefix "s://" (String a r) = None) as ->.
    { cbn. destruct (Ascii.eqb_spec a "s"); [contradiction | reflexivity]. }
    destruct (strip_prefix "://" (String a r)); reflexivity.
Qed.

Lemma url_matches_shape (url : string) :
  Admin.url_matches url = true <->
  exists c rest,
    (url = "http://" +:+ String c rest \/ url = "https://" +:+ String c rest)
    /\ Admin.isLineTerminator c = false.
Proof.
  unfold Admin.url_matches. rewrite match_protocol. split.
  - destruct (strip_prefix "http://" url) as [r|] eqn:E1.
    + apply strip_prefix_Some in E1. destruct r as [|c rest]; [discriminate |].
      intros H. exists c, rest. split; [now left |].
      now destruct (Admin.isLineTerminator c).
    + destruct (strip_prefix "https://" url) as [r|] eqn:E2; [| discriminate].
      apply strip_prefix_Some in E2. destruct r as [|c rest]; [discriminate |].
      intros H. exists c, rest. split; [now right |].
      now destruct (Admin.isLineTerminator c).
  - intros (c & rest & [-> | ->] & Hc).
    + rewrite strip_prefix_append. now rewrite Hc.
    + change (strip_prefix "http://" ("https://" +:+ String c rest)) with (@None string).
      rewrite strip_prefix_append. now rewrite Hc.
Qed.

Lemma url_rejected_valid (url : string) (w : Admin.admin_world) :
  Admin.url_matches url = true ->
  Admin.url_rejected (Admin.Text url) w = (Returned false, w).
Proof.
  intros Hm. cbn [Admin.url_rejected]. rewrite Hm.
  assert (Js.truthy (Some url) = true) as ->; [| reflexivity].
  apply url_matches_shape in Hm. destruct Hm as (c & rest & [-> | ->] & _); reflexivity.
Qed.

End ShortenValidation.

Section ShortenOutcomes.

Variables (fuel : nat) (req : Admin.admin_request) (w : Admin.admin_world) (url : string).

Hypothesis url_given : Admin.body_url req = Admin.Text url.

Hypothesis url_valid : Admin.url_matches url = true.

(** The answer of the handler to a request with a valid URL, for the code
    [code] it works with ([customCode], or the generated one): after the
    first check of the code ([f0], [taken]), the check of the loop for a
    generated code ([f1]) and the insert ([f1] or [f2]). *)
Lemma shorten_valid_run :
  let custom := Js.truthy (Admin.body_customCode req) in
  let n := length (Admin.admin_sent w) in
  let fault k := pool_fault (Admin.admin_env w) (k + n) in
  exists code,
    (if custom then code = default "" (Admin.body_customCode req)
     else fst (Admin.generateCode w) = Returned code)
    /\ exists res w',
         Admin.shorten (S fuel) req w = (Returned (Some res), w')
         /\ Admin.admin_env w' = Admin.admin_env w
         /\ Admin.random_index w' = Admin.random_index w
         /\ Admin.partners_id_seq w' = Admin.partners_id_seq w
         /\ Admin.drawn w' = ((if custom then 0 else 6) + Admin.drawn w)%nat
         /\ partners (Admin.tables w') = partners (Admin.tables w)
         /\ clicks_table (Admin.tables w') = clicks_table (Admin.tables w)
         /\ bypass_logs (Admin.tables w') = bypass_logs (Admin.tables w)
         /\ (length (Admin.admin_sent w') <= 3 + length (Admin.admin_sent w))%nat
         /\ if fault 0%nat then
              res = Admin.MkAdminResponse 500 (Admin.JsonError "Database error")
              /\ urls (Admin.tables w') = urls (Admin.tables w)
            else if bool_decide (is_Some (urls (Admin.tables w) !! code)) then
              res = Admin.MkAdminResponse 409 (Admin.JsonError "Code already exists")
              /\ urls (Admin.tables w') = urls (Admin.tables w)
            else if negb (fault 1%nat) && (custom || negb (fault 2%nat)) then
              res = Admin.MkAdminResponse 200
                      (Admin.JsonShortened code (Admin.shortUrl req code))
              /\ urls (Admin.tables w') =
                 <[code := new_url_row url req (clock (Admin.admin_env w))]>
                   (urls (Admin.tables w))
            else
              res = Admin.MkAdminResponse 500 (Admin.JsonError "Database error")
              /\ urls (Admin.tables w') = urls (Admin.tables w).
Proof.
  cbv zeta. unfold Admin.shorten, Admin.admin_bind at 1.
  rewrite url_given, (url_rejected_valid url w url_valid).
  unfold Admin.admin_try_catch, Admin.admin_bind at 1.
  destruct (Js.truthy (Admin.body_customCode req)) eqn:Hcustom.
  - exists (default "" (Admin.body_customCode req)). split; [reflexivity |].
    unfold Admin.admin_ret at 1.
    unfold Admin.admin_bind, Admin.admin_query, Admin.console_error, Admin.admin_ret.
    cbn [Admin.admin_execute].
    change (0 + length (Admin.admin_sent w))%nat with (length (Admin.admin_sent w)).
    destruct (pool_fault (Admin.admin_env w) (length (Admin.admin_sent w))) eqn:F0.
    { do 2 eexists. split; [reflexivity |]. cbn. repeat split; rewrite ?length_app; cbn; lia. }
    destruct (urls (Admin.tables w) !! default "" (Admin.body_customCode req)) eqn:Hrow.
    { do 2 eexists. split; [reflexivity |]. cbn. repeat split; rewrite ?length_app; cbn; lia. }
    cbn [bool_decide decide_rel]. cbn [length Nat.ltb Nat.leb].
    cbn [Admin.admin_env Admin.admin_sent Admin.tables Admin.partners_id_seq].
    rewrite length_snoc, Hrow.
    change (1 + length (Admin.admin_sent w))%nat with (S (length (Admin.admin_sent w))).
    destruct (pool_fault (Admin.admin_env w) (S (length (Admin.admin_sent w)))) eqn:F1.
    { do 2 eexists. split; [reflexivity |]. cbn. repeat split; rewrite ?length_app; cbn; lia. }
    do 2 eexists. split; [reflexivity |]. cbn. repeat split; rewrite ?length_app; cbn; lia.
  - destruct (generateCode_run w) as [code [Hgen _]].
    exists code. split; [now rewrite Hgen |].
    rewrite Hgen.
    unfold Admin.admin_bind at 1, Admin.admin_query at 1.
    cbn [admin_drew Admin.admin_env Admin.admin_sent Admin.tables Admin.partners_id_seq
         Admin.admin_execute].
    change (0 + length (Admin.admin_sent w))%nat with (length (Admin.admin_sent w)).
    destruct (pool_fault (Admin.admin_env w) (length (Admin.admin_sent w))) eqn:F0.
    { unfold Admin.admin_bind, Admin.console_error, Admin.admin_ret.
      do 2 eexists. split; [reflexivity |]. cbn. repeat split; rewrite ?length_app; cbn; lia. }
    destruct (urls (Admin.tables w) !! code) eqn:Hrow.
    { unfold Admin.admin_ret. do 2 eexists. split; [reflexivity |]. cbn. repeat split; rewrite ?length_app; cbn; lia. }
    cbn [length Nat.ltb Nat.leb Admin.ensure_unique].
    unfold Admin.admin_bind at 1 2, Admin.admin_query at 1.
    cbn [Admin.admin_env Admin.admin_sent Admin.tables Admin.partners_id_seq
         Admin.admin_execute].
    rewrite length_snoc, Hrow.
    change (1 + length (Admin.admin_sent w))%nat with (S (length (Admin.admin_sent w))).
    change (2 + length (Admin.admin_sent w))%nat with (S (S (length (Admin.admin_sent w)))).
    destruct (pool_fault (Admin.admin_env w) (S (length (Admin.admin_sent w)))) eqn:F1.
    { unfold Admin.admin_bind, Admin.console_error, Admin.admin_ret.
      do 2 eexists. split; [reflexivity |]. cbn. repeat split; rewrite ?length_app; cbn; lia. }
    cbn [length Nat.eqb].
    unfold Admin.admin_ret at 1.
    unfold Admin.admin_bind, Admin.admin_query, Admin.console_error, Admin.admin_ret.
    cbn [Admin.admin_env Admin.admin_sent Admin.tables Admin.partners_id_seq
         Admin.admin_execute].
    rewrite !length_snoc, Hrow.
    destruct (pool_fault (Admin.admin_env w) (S (S (length (Admin.admin_sent w))))) eqn:F2.
    { do 2 eexists. split; [reflexivity |]. cbn. repeat split; rewrite ?length_app; cbn; lia. }
    do 2 eexists. split; [reflexivity |]. cbn. repeat split; rewrite ?length_app; cbn; lia.
Qed.

End ShortenOutcomes.


(** * Properties of [POST /api/shorten] *)

Section ShortenAnswers.

(** With a valid URL the handler answers 200, 409 or 500, if it answers. *)
Lemma shorten_valid_statuses (fuel : nat) (req : Admin.admin_request)
    (w : Admin.admin_world) (url : string) :
  Admin.body_url req = Admin.Text url ->
  Admin.url_matches url = true ->
  match fst (Admin.shorten fuel req w) with
  | Returned (Some res) =>
      Admin.admin_status res = 200 \/ Admin.admin_status res = 409
      \/ Admin.admin_status res = 500
  | Returned None => True
  | Threw _ => False
  end.
Proof.
  intros Hurl Hm. unfold Admin.shorten, Admin.admin_bind at 1.
  rewrite Hurl, (url_rejected_valid url w Hm).
  unfold Admin.admin_try_catch, Admin.admin_bind at 1.
  destruct (Js.truthy (Admin.body_customCode req)).
  - unfold Admin.admin_ret at 1. unfold Admin.admin_bind at 1.
    destruct (Admin.admin_query _ w) as [[existing|e] w2]; [| cbn; auto].
    destruct (0 <? length existing)%nat; [cbn; auto |].
    unfold Admin.admin_bind at 1, Admin.admin_ret at 1. unfold Admin.admin_bind at 1.
    destruct (Admin.admin_query _ w2) as [[x|e] w4]; cbn; auto.
  - destruct (Admin.generateCode w) as [[code|e] w1]; [| cbn; auto].
    unfold Admin.admin_bind at 1.
    destruct (Admin.admin_query _ w1) as [[existing|e] w2]; [| cbn; auto].
    destruct (0 <? length existing)%nat; [cbn; auto |].
    unfold Admin.admin_bind at 1.
    destruct (Admin.ensure_unique fuel code w2) as [[[c|]|e] w3]; [| cbn; auto ..].
    unfold Admin.admin_bind at 1.
    destruct (Admin.admin_query _ w3) as [[x|e] w4]; cbn; auto.
Qed.

(** X17.  [POST /api/shorten] accepts a URL exactly when it is a string
    that begins with [http://] or [https://] followed by at least one
    character that is not a line terminator.  A request whose [url] is
    missing, empty, a falsy value of another type or a string of another
    shape is answered 400 and nothing happens: no statement is sent, no
    code is generated.  A well-formed URL is never answered 400.  A truthy
    [url] that is not a string makes the handler throw a [TypeError] before
    it answers. *)
Theorem shorten_checks_the_url (fuel : nat) (req : Admin.admin_request)
    (w : Admin.admin_world) :
  let invalid := Admin.MkAdminResponse 400 (Admin.JsonError "Invalid URL") in
  let well_formed url :=
    exists c rest,
      (url = "http://" +:+ String c rest \/ url = "https://" +:+ String c rest)
      /\ Admin.isLineTerminator c = false in
  (Admin.body_url req = Admin.Missing \/ Admin.body_url req = Admin.Other false ->
   Admin.shorten fuel req w = (Returned (Some invalid), w))
  /\ (forall url, Admin.body_url req = Admin.Text url -> ~ well_formed url ->
      Admin.shorten fuel req w = (Returned (Some invalid), w))
  /\ (forall url, Admin.body_url req = Admin.Text url -> well_formed url ->
      fst (Admin.shorten fuel req w) <> Returned (Some invalid))
  /\ (Admin.body_url req = Admin.Other true ->
      Admin.shorten fuel req w = (Threw TypeError, w)).
Proof.
  cbv zeta. repeat split.
  - intros [H | H]; unfold Admin.shorten, Admin.admin_bind; rewrite H; reflexivity.
  - intros url Hurl Hbad. unfold Admin.shorten, Admin.admin_bind. rewrite Hurl.
    cbn [Admin.url_rejected Admin.admin_ret].
    assert (Admin.url_matches url = false) as ->.
    { destruct (Admin.url_matches url) eqn:E; [| reflexivity].
      apply url_matches_shape in E. contradiction. }
    now rewrite orb_true_r.
  - intros url Hurl Hgood Hres.
    assert (Hm : Admin.url_matches url = true) by now apply url_matches_shape.
    pose proof (shorten_valid_statuses fuel req w url Hurl Hm) as Hst.
    rewrite Hres in Hst. cbn in Hst. destruct Hst as [H | [H | H]]; discriminate.
  - intros H. unfold Admin.shorten, Admin.admin_bind. rewrite H. reflexivity.
Qed.

End ShortenAnswers.

Section ShortenWithValidUrl.

Variables (fuel : nat) (req : Admin.admin_request) (w : Admin.admin_world) (url : string).

Hypothesis url_given : Admin.body_url req = Admin.Text url.

Hypothesis url_valid : Admin.url_matches url = true.

Lemma code_at_hand_unique (code code' : string) :
  code_at_hand req w code -> code_at_hand req w code' -> code = code'.
Proof.
  unfold code_at_hand. destruct (Js.truthy (Admin.body_customCode req)); congruence.
Qed.

(** X18.  A valid URL under a code that is free is stored: when the pool
    fails none of the statements (the check of the code, for a generated
    code the check of the loop, and the insert), the answer is 200 with the
    code and the short URL built from the protocol and the host of the
    request, and [urls] has one more row: the URL, the clock as [created], 0
    clicks, [partnerId || null] and the expiry of the request.  No other row
    of [urls] and no other table changes. *)
Theorem shorten_stores_the_link (code : string) :
  let custom := Js.truthy (Admin.body_customCode req) in
  let n := length (Admin.admin_sent w) in
  code_at_hand req w code ->
  urls (Admin.tables w) !! code = None ->
  pool_fault (Admin.admin_env w) n = false ->
  pool_fault (Admin.admin_env w) (S n) = false ->
  (custom = false -> pool_fault (Admin.admin_env w) (S (S n)) = false) ->
  exists w',
    Admin.shorten (S fuel) req w =
    (Returned (Some (Admin.MkAdminResponse 200
                       (Admin.JsonShortened code (Admin.shortUrl req code)))), w')
    /\ urls (Admin.tables w') =
       <[code := MkUrl url (clock (Admin.admin_env w)) 0
                   (Admin.partnerId_or_null (Admin.body_partnerId req))
                   (Admin.body_expiresAt req)]> (urls (Admin.tables w))
    /\ partners (Admin.tables w') = partners (Admin.tables w)
    /\ clicks_table (Admin.tables w') = clicks_table (Admin.tables w)
    /\ bypass_logs (Admin.tables w') = bypass_logs (Admin.tables w).
Proof.
  cbv zeta. intros Hcode Hfree F0 F1 F2.
  destruct (shorten_valid_run fuel req w url url_given url_valid)
    as (code0 & Hcode0 & res & w' & Hrun & _ & _ & _ & _ & Hp & Hc & Hb & _ & Hout).
  cbv zeta in Hout. cbn [Nat.add] in Hout.
  assert (code0 = code) as -> by (apply code_at_hand_unique; assumption).
  rewrite F0, F1, Hfree in Hout.
  rewrite bool_decide_false in Hout by (intros [x Hx]; discriminate).
  assert (Hok : Js.truthy (Admin.body_customCode req)
                || negb (pool_fault (Admin.admin_env w)
                           (S (S (length (Admin.admin_sent w))))) = true).
  { destruct (Js.truthy (Admin.body_customCode req)); [reflexivity |].
    now rewrite F2. }
  rewrite Hok in Hout. cbn [negb andb] in Hout. destruct Hout as [-> Hurls].
  exists w'. repeat split; assumption.
Qed.

(** X19.  A code that has a row is never given to another URL: when the
    code at hand is in [urls] and the pool does not fail the check, the
    answer is 409, whether the code came with the request or was generated
    (a generated code that collides is refused, it is not replaced); the
    check is the only statement sent and the tables are as they were. *)
Theorem shorten_refuses_a_code_in_use (code : string) (row : url_row) :
  code_at_hand req w code ->
  urls (Admin.tables w) !! code = Some row ->
  pool_fault (Admin.admin_env w) (length (Admin.admin_sent w)) = false ->
  exists w',
    Admin.shorten (S fuel) req w =
    (Returned (Some (Admin.MkAdminResponse 409 (Admin.JsonError "Code already exists"))),
     w')
    /\ Admin.tables w' = Admin.tables w
    /\ Admin.admin_sent w' = Admin.admin_sent w ++ [(Admin.SelectCode code, true)]
    /\ Admin.admin_console w' = Admin.admin_console w.
Proof.
  intros Hcode Hrow F0.
  unfold Admin.shorten, Admin.admin_bind at 1.
  rewrite url_given, (url_rejected_valid url w url_valid).
  unfold Admin.admin_try_catch, Admin.admin_bind at 1.
  unfold code_at_hand in Hcode.
  destruct (Js.truthy (Admin.body_customCode req)).
  - subst code. unfold Admin.admin_ret at 1.
    unfold Admin.admin_bind at 1.
    rewrite (admin_query_executed _ _ [Admin.CodeRow _] (Admin.tables w) F0)
      by (cbn; now rewrite Hrow).
    eexists. split; [reflexivity |]. repeat split.
  - destruct (generateCode_run w) as [code0 [Hgen _]].
    rewrite Hgen in Hcode. cbn in Hcode. injection Hcode as ->.
    rewrite Hgen. unfold Admin.admin_bind at 1.
    rewrite (admin_query_executed _ _ [Admin.CodeRow _] (Admin.tables w))
      by (cbn; first [exact F0 | now rewrite Hrow]).
    eexists. split; [reflexivity |]. repeat split.
Qed.

End ShortenWithValidUrl.

Section ShortenInvariants.

Variables (fuel : nat) (req : Admin.admin_request) (w : Admin.admin_world).

(** The handler on a request that it answers before the [try]. *)
Lemma shorten_invalid_run (n : nat) :
  (forall url, Admin.body_url req = Admin.Text url -> Admin.url_matches url = false) ->
  Admin.shorten n req w =
  (Returned (Some (Admin.MkAdminResponse 400 (Admin.JsonError "Invalid URL"))), w)
  \/ Admin.shorten n req w = (Threw TypeError, w).
Proof.
  intros Hbad. unfold Admin.shorten, Admin.admin_bind at 1.
  destruct (Admin.body_url req) as [|url|[|]] eqn:Hurl; cbn; auto.
  rewrite (Hbad url eq_refl), orb_true_r. now left.
Qed.

(** What a run of the handler does to the tables. *)
Lemma shorten_run_tables :
  let r := Admin.shorten (S fuel) req w in
  let db := Admin.tables w in
  let db' := Admin.tables (snd r) in
  Admin.admin_env (snd r) = Admin.admin_env w
  /\ partners db' = partners db
  /\ clicks_table db' = clicks_table db
  /\ bypass_logs db' = bypass_logs db
  /\ fst r <> Returned None
  /\ (urls db' = urls db
      /\ (forall res, fst r = Returned (Some res) -> Admin.admin_status res <> 200)
      \/ exists code url,
           Admin.body_url req = Admin.Text url
           /\ code_at_hand req w code
           /\ fst r = Returned (Some (Admin.MkAdminResponse 200
                                        (Admin.JsonShortened code (Admin.shortUrl req code))))
           /\ urls db !! code = None
           /\ urls db' = <[code := new_url_row url req (clock (Admin.admin_env w))]> (urls db)).
Proof.
  cbv zeta.
  destruct (Admin.body_url req) as [|url|b] eqn:Hurl.
  1,3: assert (Hbad : forall u, Admin.body_url req = Admin.Text u ->
                                Admin.url_matches u = false)
         by (intros u Hu; rewrite Hu in Hurl; discriminate);
       destruct (shorten_invalid_run (S fuel) Hbad) as [-> | ->];
       cbn; repeat split; try discriminate; left;
       (split; [reflexivity | intros res [= <-]; discriminate]).
  destruct (Admin.url_matches url) eqn:Hm.
  2:{ assert (Hbad : forall u, Admin.body_url req = Admin.Text u ->
                               Admin.url_matches u = false)
        by (intros u Hu; rewrite Hu in Hurl; injection Hurl as ->; exact Hm).
      destruct (shorten_invalid_run (S fuel) Hbad) as [-> | ->];
        cbn; repeat split; try discriminate; left;
        (split; [reflexivity | intros res [= <-]; discriminate]). }
  destruct (shorten_valid_run fuel req w url Hurl Hm)
    as (code & Hcode & res & w' & Hrun & Henv & _ & _ & _ & Hp & Hc & Hb & _ & Hout).
  rewrite Hrun. cbn [fst snd]. cbv zeta in Hout. cbn [Nat.add] in Hout.
  repeat (split; [first [assumption | discriminate] |]).
  destruct (pool_fault (Admin.admin_env w) (length (Admin.admin_sent w))).
  { destruct Hout as [-> Hu]. left. split; [exact Hu |]. intros r [= <-]. discriminate. }
  destruct (bool_decide (is_Some (urls (Admin.tables w) !! code))) eqn:Htaken.
  { destruct Hout as [-> Hu]. left. split; [exact Hu |]. intros r [= <-]. discriminate. }
  apply bool_decide_eq_false in Htaken.
  destruct (negb (pool_fault (Admin.admin_env w) (S (length (Admin.admin_sent w))))
            && (Js.truthy (Admin.body_customCode req)
                || negb (pool_fault (Admin.admin_env w)
                           (S (S (length (Admin.admin_sent w))))))).
  - destruct Hout as [-> Hu]. right. exists code, url.
    repeat split; try assumption.
    destruct (urls (Admin.tables w) !! code) eqn:E; [| reflexivity].
    exfalso. apply Htaken. eauto.
  - destruct Hout as [-> Hu]. left. split; [exact Hu |]. intros r [= <-]. discriminate.
Qed.

(** X20.  The handler never overwrites a link and touches no other table:
    whatever the request, every row of [urls] is after the run what it was
    before; [partners], [clicks] and [bypass_logs] are as they were; [urls]
    changes only together with a 200 answer, and then by one new row under a
    code that was free; and a 200 answer means that the row is in the
    table, under the code of the answer, with the URL of the request. *)
Theorem shorten_never_overwrites :
  let r := Admin.shorten (S fuel) req w in
  let db := Admin.tables w in
  let db' := Admin.tables (snd r) in
  partners db' = partners db
  /\ clicks_table db' = clicks_table db
  /\ bypass_logs db' = bypass_logs db
  /\ (forall k row, urls db !! k = Some row -> urls db' !! k = Some row)
  /\ (urls db' = urls db
      \/ exists code row,
           fst r = Returned (Some (Admin.MkAdminResponse 200
                                     (Admin.JsonShortened code (Admin.shortUrl req code))))
           /\ urls db !! code = None
           /\ urls db' = <[code := row]> (urls db))
  /\ (forall res, fst r = Returned (Some res) -> Admin.admin_status res = 200 ->
      exists code url,
        Admin.body_url req = Admin.Text url
        /\ Admin.admin_body res = Admin.JsonShortened code (Admin.shortUrl req code)
        /\ urls db' !! code = Some (new_url_row url req (clock (Admin.admin_env w)))).
Proof.
  cbv zeta.
  destruct shorten_run_tables as (_ & Hp & Hc & Hb & _ & Hcases). cbv zeta in Hcases.
  repeat (split; [assumption |]).
  destruct Hcases as [[Hu Hno] | (code & url & Hurl & _ & Hres & Hfree & Hu)].
  - rewrite Hu. split; [auto |]. split; [now left |].
    intros res Hres H200. now destruct (Hno res Hres).
  - rewrite Hu. split; [| split].
    + intros k row Hk. rewrite lookup_insert_ne; [exact Hk | congruence].
    + right. exists code. eexists. repeat split; eassumption.
    + intros res Hres' _. rewrite Hres in Hres'. injection Hres' as <-.
      exists code, url. repeat split; [assumption |]. apply lookup_insert_eq.
Qed.

Lemma admin_bind_ext {A B : Type} (c : Admin.AdminM A) (k k' : A -> Admin.AdminM B)
    (v : Admin.admin_world) :
  (forall a v', c v = (Returned a, v') -> k a v' = k' a v') ->
  Admin.admin_bind c k v = Admin.admin_bind c k' v.
Proof.
  intros H. unfold Admin.admin_bind. destruct (c v) as [[a|e] v']; [| reflexivity].
  now apply H.
Qed.

Lemma admin_try_catch_ext {A : Type} (body body' : Admin.AdminM A)
    (handler : exn -> Admin.AdminM A) (v : Admin.admin_world) :
  body v = body' v ->
  Admin.admin_try_catch body handler v = Admin.admin_try_catch body' handler v.
Proof. intros H. unfold Admin.admin_try_catch. now rewrite H. Qed.

(** The loop on a code that is free ends in its first round. *)
Lemma ensure_unique_first_round (code : string) (v : Admin.admin_world) :
  urls (Admin.tables v) !! code = None ->
  Admin.ensure_unique (S fuel) code v = Admin.ensure_unique 1 code v.
Proof.
  intros Hfree. cbn [Admin.ensure_unique].
  unfold Admin.admin_bind at 1 3, Admin.admin_query.
  cbn [Admin.admin_execute]. rewrite Hfree.
  now destruct (pool_fault (Admin.admin_env v) (length (Admin.admin_sent v))).
Qed.

(** A check that finds nothing leaves a world in which the code is free. *)
Lemma select_nothing (code : string) (v v' : Admin.admin_world)
    (rows : list Admin.admin_row) :
  Admin.admin_query (Admin.SelectCode code) v = (Returned rows, v') ->
  (0 <? length rows)%nat = false ->
  urls (Admin.tables v') !! code = None.
Proof.
  unfold Admin.admin_query. cbn [Admin.admin_execute].
  destruct (pool_fault (Admin.admin_env v) (length (Admin.admin_sent v)));
    [discriminate |].
  destruct (urls (Admin.tables v) !! code) eqn:E; intros [= <- <-]; cbn;
    [discriminate | intros _; exact E].
Qed.

(** X21.  With no other request in between, the uniqueness loop for a
    generated code ends in its first round: the bound on the rounds of the
    loop does not change the run, the handler always answers, and the code
    is never generated a second time (at most six values are drawn).  A run
    sends at most three statements. *)
Theorem uniqueness_loop_runs_once :
  let r := Admin.shorten (S fuel) req w in
  r = Admin.shorten 1 req w
  /\ fst r <> Returned None
  /\ (Admin.drawn (snd r) <= 6 + Admin.drawn w)%nat
  /\ (length (Admin.admin_sent (snd r)) <= 3 + length (Admin.admin_sent w))%nat.
Proof.
  cbv zeta. split; [| split].
  - unfold Admin.shorten.
    apply admin_bind_ext. intros rejected w0 _.
    destruct rejected; [reflexivity |].
    apply admin_try_catch_ext, admin_bind_ext. intros code w1 _.
    apply admin_bind_ext. intros rows w2 Hq.
    destruct (0 <? length rows)%nat eqn:Hrows; [reflexivity |].
    destruct (Js.truthy (Admin.body_customCode req)); [reflexivity |].
    unfold Admin.admin_bind.
    now rewrite (ensure_unique_first_round code w2 (select_nothing _ _ _ _ Hq Hrows)).
  - apply shorten_run_tables.
  - destruct (Admin.body_url req) as [|url|b] eqn:Hurl.
    1,3: assert (Hbad : forall u, Admin.body_url req = Admin.Text u ->
                                  Admin.url_matches u = false)
           by (intros u Hu; rewrite Hu in Hurl; discriminate);
         destruct (shorten_invalid_run (S fuel) Hbad) as [-> | ->]; cbn; lia.
    destruct (Admin.url_matches url) eqn:Hm.
    2:{ assert (Hbad : forall u, Admin.body_url req = Admin.Text u ->
                                 Admin.url_matches u = false)
          by (intros u Hu; rewrite Hu in Hurl; injection Hurl as ->; exact Hm).
        destruct (shorten_invalid_run (S fuel) Hbad) as [-> | ->]; cbn; lia. }
    destruct (shorten_valid_run fuel req w url Hurl Hm)
      as (code & _ & res & w' & Hrun & _ & _ & _ & Hd & _ & _ & _ & Hs & _).
    rewrite Hrun. cbn [snd]. split; [| exact Hs].
    rewrite Hd. destruct (Js.truthy (Admin.body_customCode req)); lia.
Qed.

End ShortenInvariants.

Section ShortenExamples.

Lemma shorten_stores_the_link_witness :
  exists w',
    Admin.shorten 1 (shorten_request "changeme123" "https://shop.example/new" (Some "fresh"))
      sample_admin_world
    = (Returned (Some (Admin.MkAdminResponse 200
                         (Admin.JsonShortened "fresh" "https://sho.rt/fresh"))), w')
    /\ urls (Admin.tables w') =
       <["fresh" := MkUrl "https://shop.example/new" 2000 0 None None]>
         (urls sample_database).
Proof.
  destruct (shorten_stores_the_link 0
              (shorten_request "changeme123" "https://shop.example/new" (Some "fresh"))
              sample_admin_world "https://shop.example/new"
              ltac:(reflexivity) ltac:(reflexivity) "fresh"
              ltac:(reflexivity) ltac:(reflexivity) ltac:(reflexivity)
              ltac:(reflexivity) ltac:(discriminate))
    as (w' & Hrun & Hurls & _).
  exists w'. split; [exact Hrun | exact Hurls].
Defined.

Lemma shorten_refuses_a_code_in_use_witness :
  exists w',
    Admin.shorten 1 (shorten_request "changeme123" "https://shop.example/new" (Some "deal"))
      sample_admin_world
    = (Returned (Some (Admin.MkAdminResponse 409 (Admin.JsonError "Code already exists"))),
       w')
    /\ Admin.tables w' = sample_database.
Proof.
  destruct (shorten_refuses_a_code_in_use 0
              (shorten_request "changeme123" "https://shop.example/new" (Some "deal"))
              sample_admin_world "https://shop.example/new"
              ltac:(reflexivity) ltac:(reflexivity) "deal"
              (MkUrl "https://shop.example/deal" 0 3 (Some 1) None)
              ltac:(reflexivity) ltac:(reflexivity) ltac:(reflexivity))
    as (w' & Hrun & Htables & _).
  exists w'. split; [exact Hrun | exact Htables].
Defined.

(** A request without a custom code in the sample world: the code is the
    generated one. *)
Example shorten_generated_sample :
  fst (Admin.shorten 1 (shorten_request "changeme123" "http://a.example/x" None)
         sample_admin_world)
  = Returned (Some (Admin.MkAdminResponse 200
                      (Admin.JsonShortened "dkryFM" "https://sho.rt/dkryFM"))).
Proof. reflexivity. Qed.

End ShortenExamples.

(** * Properties of [DELETE /api/urls/:code] and [POST /api/partners] *)

Section DeleteRoute.

Variables (req : Admin.admin_request) (w : Admin.admin_world).

Lemma other_code (a b : string) : negb (String.eqb a b) = true <-> a <> b.
Proof. rewrite negb_true_iff. apply String.eqb_neq. Qed.

(** The handler on each of its three paths. *)
Lemma delete_url_run :
  let code := Admin.route_code req in
  let db := Admin.tables w in
  let st := Admin.DeleteUrl code in
  Admin.delete_url req w =
  if pool_fault (Admin.admin_env w) (length (Admin.admin_sent w))
  then (Returned (Admin.MkAdminResponse 500 (Admin.JsonError "Database error")),
        admin_logged (Admin.ErrDeletingUrl DatabaseError) (admin_failed st w))
  else match urls db !! code with
       | Some _ =>
           (Returned (Admin.MkAdminResponse 200 Admin.JsonSuccess),
            admin_after st true
              (MkDatabase (delete code (urls db)) (partners db)
                 (List.filter (fun r => negb (String.eqb (click_code r) code))
                    (clicks_table db))
                 (List.filter (fun r => negb (String.eqb (bypass_code r) code))
                    (bypass_logs db)))
              w)
       | None =>
           (Returned (Admin.MkAdminResponse 404 (Admin.JsonError "URL not found")),
            admin_after st true db w)
       end.
Proof.
  cbv zeta. unfold Admin.delete_url, Admin.admin_try_catch, Admin.admin_bind,
    Admin.admin_query.
  cbn [Admin.admin_execute].
  destruct (pool_fault (Admin.admin_env w) (length (Admin.admin_sent w)));
    [reflexivity |].
  destruct (urls (Admin.tables w) !! Admin.route_code req); reflexivity.
Qed.

(** X22.  [DELETE /api/urls/:code] always answers, and sends one statement.
    A code without a row is answered 404 and a failure of the pool 500,
    with the tables as they were.  A code with a row is answered 200: its
    row is gone, and with it every click row and every bypass row of the
    code (the cascade of the schema), in the order the others had; the
    rows of the other codes, their clicks and their bypass rows, and
    [partners], are as they were. *)
Theorem delete_url_cascades :
  let code := Admin.route_code req in
  let db := Admin.tables w in
  let ok := negb (pool_fault (Admin.admin_env w) (length (Admin.admin_sent w))) in
  exists res w',
    Admin.delete_url req w = (Returned res, w')
    /\ Admin.admin_sent w' = Admin.admin_sent w ++ [(Admin.DeleteUrl code, ok)]
    /\ partners (Admin.tables w') = partners db
    /\ (forall k, k <> code -> urls (Admin.tables w') !! k = urls db !! k)
    /\ (forall r, click_code r <> code ->
        (In r (clicks_table (Admin.tables w')) <-> In r (clicks_table db)))
    /\ (forall r, bypass_code r <> code ->
        (In r (bypass_logs (Admin.tables w')) <-> In r (bypass_logs db)))
    /\ (ok = false ->
        res = Admin.MkAdminResponse 500 (Admin.JsonError "Database error")
        /\ Admin.tables w' = db)
    /\ (ok = true -> urls db !! code = None ->
        res = Admin.MkAdminResponse 404 (Admin.JsonError "URL not found")
        /\ Admin.tables w' = db)
    /\ (ok = true -> is_Some (urls db !! code) ->
        res = Admin.MkAdminResponse 200 Admin.JsonSuccess
        /\ urls (Admin.tables w') = delete code (urls db)
        /\ clicks_table (Admin.tables w') =
           List.filter (fun r => negb (String.eqb (click_code r) code)) (clicks_table db)
        /\ bypass_logs (Admin.tables w') =
           List.filter (fun r => negb (String.eqb (bypass_code r) code)) (bypass_logs db)
        /\ (forall r, In r (clicks_table (Admin.tables w')) -> click_code r <> code)
        /\ (forall r, In r (bypass_logs (Admin.tables w')) -> bypass_code r <> code)).
Proof.
  cbv zeta. rewrite delete_url_run. cbv zeta.
  destruct (pool_fault (Admin.admin_env w) (length (Admin.admin_sent w))).
  { do 2 eexists. split; [reflexivity |]. cbn.
    repeat split; auto; try discriminate; intros; now destruct (Admin.tables w). }
  destruct (urls (Admin.tables w) !! Admin.route_code req) as [row|] eqn:Hrow.
  - do 2 eexists. split; [reflexivity |]. cbn.
    split; [reflexivity |]. split; [reflexivity |].
    split; [intros k Hk; now rewrite lookup_delete_ne |].
    split; [intros r Hr; rewrite List.filter_In, other_code; tauto |].
    split; [intros r Hr; rewrite List.filter_In, other_code; tauto |].
    split; [discriminate |]. split; [discriminate |].
    intros _ _. repeat split.
    + intros r Hr. apply List.filter_In in Hr. now apply other_code.
    + intros r Hr. apply List.filter_In in Hr. now apply other_code.
  - do 2 eexists. split; [reflexivity |]. cbn.
    repeat split; auto; try discriminate;
      match goal with H : is_Some None |- _ => destruct H; discriminate end.
Qed.

End DeleteRoute.

Section PartnersRoute.

Variables (req : Admin.admin_request) (w : Admin.admin_world).

(** X23.  [POST /api/partners] answers 400 without sending anything when
    the name or the domain is missing or empty.  Otherwise it sends one
    insert; when the insert succeeds the answer is 200 with the row that was
    written, id included: [partners] has that one row more, under an id
    that was free, and nothing else has changed; when it fails the answer
    is 500 and the tables are as they were.  The domain is stored as it
    came, without any normalization or check of its shape. *)
Theorem create_partner_answers :
  let n := length (Admin.admin_sent w) in
  let id := Admin.partners_id_seq w n in
  let db := Admin.tables w in
  (absent (Admin.body_name req) \/ absent (Admin.body_domain req) ->
   Admin.create_partner req w =
   (Returned (Admin.MkAdminResponse 400 (Admin.JsonError "Name and domain are required")),
    w))
  /\ (forall name domain,
        present (Admin.body_name req) name ->
        present (Admin.body_domain req) domain ->
        let ok := negb (pool_fault (Admin.admin_env w) n)
                  && bool_decide (partners db !! id = None) in
        exists res w',
          Admin.create_partner req w = (Returned res, w')
          /\ Admin.admin_sent w' =
             Admin.admin_sent w ++ [(Admin.InsertPartner name domain, ok)]
          /\ urls (Admin.tables w') = urls db
          /\ clicks_table (Admin.tables w') = clicks_table db
          /\ bypass_logs (Admin.tables w') = bypass_logs db
          /\ (ok = true ->
              res = Admin.MkAdminResponse 200 (Admin.JsonPartner id name domain)
              /\ partners (Admin.tables w') = <[id := MkPartner name domain]> (partners db))
          /\ (ok = false ->
              res = Admin.MkAdminResponse 500 (Admin.JsonError "Database error")
              /\ Admin.tables w' = db)).
Proof.
  cbv zeta. split.
  - intros H. unfold Admin.create_partner.
    destruct H as [H | H]; rewrite (truthy_absent _ H); cbn;
      [reflexivity | now rewrite orb_true_r].
  - intros name domain Hn Hd. unfold Admin.create_partner.
    destruct (truthy_present _ _ Hn) as [-> ->].
    destruct (truthy_present _ _ Hd) as [-> ->].
    cbn [negb orb].
    unfold Admin.admin_try_catch, Admin.admin_bind, Admin.admin_query.
    cbn [Admin.admin_execute].
    destruct (pool_fault (Admin.admin_env w) (length (Admin.admin_sent w))).
    { do 2 eexists. split; [reflexivity |]. cbn.
      repeat split; try discriminate. }
    destruct (partners (Admin.tables w)
                !! Admin.partners_id_seq w (length (Admin.admin_sent w))) eqn:Hid.
    + do 2 eexists. split; [reflexivity |]. cbn.
      repeat split; try discriminate.
    + do 2 eexists. split; [reflexivity |]. cbn.
      repeat split; try discriminate.
Qed.

End PartnersRoute.

(** * The admin routes and the redirect handler together *)

Section ShortenedLink.

Variables (fuel : nat) (req : Admin.admin_request) (w w' : Admin.admin_world)
          (code shortUrl : string).

Hypothesis shortened :
  Admin.shorten (S fuel) req w =
  (Returned (Some (Admin.MkAdminResponse 200 (Admin.JsonShortened code shortUrl))), w').

Variables (visit : request) (v : world).

Hypothesis same_tables : store v = Admin.tables w'.

Hypothesis asks_for_code : params_code visit = code.

Hypothesis lookup_succeeds :
  pool_fault (env v) (length (statements (done v))) = false.

(** The row behind a 200 answer. *)
Lemma shortened_row :
  exists url,
    Admin.body_url req = Admin.Text url
    /\ urls (store v) !! params_code visit
       = Some (new_url_row url req (clock (Admin.admin_env w)))
    /\ partners (store v) = partners (Admin.tables w).
Proof.
  destruct (shorten_run_tables fuel req w) as (_ & Hp & _ & _ & _ & Hcases).
  cbv zeta in Hcases. rewrite shortened in Hp, Hcases. cbn [fst snd] in Hp, Hcases.
  destruct Hcases as [[_ Hno] | (c & url & Hurl & _ & Hres & _ & Hu)].
  { now destruct (Hno _ eq_refl). }
  injection Hres as <- _. exists url. split; [exact Hurl |].
  rewrite same_tables, Hu, asks_for_code. split; [apply lookup_insert_eq | exact Hp].
Qed.

(** X24.  A link that [POST /api/shorten] has answered with 200 is served
    by [GET /:code] from the tables it left: with the lookup succeeding, a
    visit is answered 410 when the expiry of the request has passed, and
    otherwise 403 when it is a bypass of the partner domain and 200 with
    the page that redirects to the URL of the request when it is not.  The
    partner domain is the domain of the [partners] row under [partnerId];
    the handler does not look for that row, so when [partnerId] is missing,
    0 or the id of no partner, the link is open to every referrer. *)
Theorem shortened_link_is_served :
  let pid := Admin.partnerId_or_null (Admin.body_partnerId req) in
  let pd := partner_domain <$> (pid ≫= (fun id => partners (Admin.tables w) !! id)) in
  exists url,
    Admin.body_url req = Admin.Text url
    /\ (expired (Admin.body_expiresAt req) (clock (env v)) = true ->
        fst (get_code visit v) = Returned (MkResponse 410 ExpiredPage, None))
    /\ (expired (Admin.body_expiresAt req) (clock (env v)) = false ->
        bypassed pd (referrer_of visit) ->
        fst (get_code visit v) = Returned (MkResponse 403 BypassDetectedPage, None))
    /\ (expired (Admin.body_expiresAt req) (clock (env v)) = false ->
        ~ bypassed pd (referrer_of visit) ->
        fst (get_code visit v) =
        Returned (MkResponse 200 (VerifyingPage url),
                  Some (MkClickTask code (getRealIP visit) (userAgent_of visit)
                          (parseUserAgent (Some (userAgent_of visit)))
                          (referrer_of visit))))
    /\ (Admin.body_partnerId req = None \/ Admin.body_partnerId req = Some 0
        \/ (exists id, Admin.body_partnerId req = Some id
                       /\ partners (Admin.tables w) !! id = None) ->
        forall referrer, ~ bypassed pd referrer).
Proof.
  cbv zeta. destruct shortened_row as (url & Hurl & Hrow & Hp).
  exists url. split; [exact Hurl |].
  set (u := new_url_row url req (clock (Admin.admin_env w))) in Hrow.
  assert (Hpd : row_partner_domain (join_partner (store v) u)
                = partner_domain <$>
                    (Admin.partnerId_or_null (Admin.body_partnerId req)
                       ≫= (fun id => partners (Admin.tables w) !! id))).
  { unfold join_partner. cbn [row_partner_domain u new_url_row partner_id].
    now rewrite Hp. }
  split; [| split; [| split]].
  - intros Hexp.
    assert (exists t, expires_at u = Some t /\ t < clock (env v)) as [t [Ht Hlt]].
    { cbn [u new_url_row expires_at]. unfold expired in Hexp.
      destruct (Admin.body_expiresAt req) as [t|]; [| discriminate].
      exists t. split; [reflexivity |]. now apply Z.ltb_lt. }
    now rewrite (get_code_expired visit v u lookup_succeeds Hrow t Ht Hlt).
  - intros Hexp Hb.
    rewrite (get_code_live visit v u lookup_succeeds Hrow Hexp). cbv zeta.
    rewrite Hpd. apply bypassed_decided in Hb. destruct Hb as [Ht Ha].
    now rewrite (enforce_partner_denied _ _ _ _ _ _ Ht Ha).
  - intros Hexp Hnb.
    rewrite (get_code_live visit v u lookup_succeeds Hrow Hexp). cbv zeta.
    rewrite Hpd, (not_bypassed_passes _ _ _ _ _ _ Hnb). now rewrite asks_for_code.
  - intros Hnone referrer [d [[Hd _] _]].
    destruct Hnone as [H | [H | (id & H & Hid)]]; rewrite H in Hd; cbn in Hd;
      try discriminate.
    destruct id; cbn in Hd; try discriminate; rewrite Hid in Hd; discriminate.
Qed.

End ShortenedLink.

Section DeletedLink.

Variables (req : Admin.admin_request) (w : Admin.admin_world).

Hypothesis delete_executed :
  pool_fault (Admin.admin_env w) (length (Admin.admin_sent w)) = false.

Variables (visit : request) (v : world).

Hypothesis same_tables : store v = Admin.tables (snd (Admin.delete_url req w)).

Hypothesis asks_for_code : params_code visit = Admin.route_code req.

Hypothesis lookup_succeeds :
  pool_fault (env v) (length (statements (done v))) = false.

(** X25.  After [DELETE /api/urls/:code] has run without a failure of the
    pool, whether it answered 200 or 404, a visit to the code is answered
    404 from the tables it left: the lookup is the only statement sent, the
    tables stay as they are and no click is recorded. *)
Theorem deleted_link_is_gone :
  (exists res, fst (Admin.delete_url req w) = Returned res
               /\ (Admin.admin_status res = 200 \/ Admin.admin_status res = 404))
  /\ get_code visit v =
     (Returned (MkResponse 404 NotFoundPage, None),
      sent (SelectUrlWithPartner (params_code visit)) true (store v) v)
  /\ serve visit v =
     (Returned (MkResponse 404 NotFoundPage),
      sent (SelectUrlWithPartner (params_code visit)) true (store v) v).
Proof.
  assert (Hgone : urls (store v) !! params_code visit = None
                  /\ exists res, fst (Admin.delete_url req w) = Returned res
                                 /\ (Admin.admin_status res = 200
                                     \/ Admin.admin_status res = 404)).
  { rewrite same_tables, asks_for_code, delete_url_run. cbv zeta.
    rewrite delete_executed.
    destruct (urls (Admin.tables w) !! Admin.route_code req) eqn:Hrow; cbn.
    - split; [apply lookup_delete_eq | eexists; split; [reflexivity | now left]].
    - split; [exact Hrow | eexists; split; [reflexivity | now right]]. }
  destruct Hgone as [Hnone Hres].
  pose proof (get_code_not_found visit v lookup_succeeds Hnone) as Hget.
  split; [exact Hres |]. split; [exact Hget |].
  unfold serve, bind. now rewrite Hget.
Qed.

End DeletedLink.

Section RoundTripExamples.

Lemma shortened_link_is_served_witness :
  exists url,
    Admin.body_url (shorten_request "changeme123" "https://shop.example/new"
                      (Some "fresh")) = Admin.Text url
    /\ fst (get_code (bare_request "fresh")
              (MkWorld (quiet_environment 3000)
                 (Admin.tables
                    (snd (Admin.shorten 1
                            (shorten_request "changeme123" "https://shop.example/new"
                               (Some "fresh"))
                            sample_admin_world)))
                 (MkEffects [] [] [])))
       = Returned (MkResponse 200 (VerifyingPage url),
                   Some (MkClickTask "fresh" "203.0.113.9" "Unknown"
                           (parseUserAgent (Some "Unknown")) "Direct")).
Proof.
  destruct (shortened_link_is_served 0
              (shorten_request "changeme123" "https://shop.example/new" (Some "fresh"))
              sample_admin_world
              (snd (Admin.shorten 1
                      (shorten_request "changeme123" "https://shop.example/new"
                         (Some "fresh"))
                      sample_admin_world))
              "fresh" "https://sho.rt/fresh"
              ltac:(reflexivity)
              (bare_request "fresh")
              (MkWorld (quiet_environment 3000)
                 (Admin.tables
                    (snd (Admin.shorten 1
                            (shorten_request "changeme123" "https://shop.example/new"
                               (Some "fresh"))
                            sample_admin_world)))
                 (MkEffects [] [] []))
              ltac:(reflexivity) ltac:(reflexivity) ltac:(reflexivity))
    as (url & Hurl & _ & _ & H200 & Hopen).
  exists url. split; [exact Hurl |].
  apply H200; [reflexivity |]. apply Hopen. now left.
Defined.

Lemma deleted_link_is_gone_witness :
  fst (serve (bare_request "deal")
         (MkWorld (quiet_environment 3000)
            (Admin.tables
               (snd (Admin.delete_url
                       (Admin.MkAdminRequest ∅ None "deal" "https" (Some "sho.rt")
                          Admin.Missing None None None None None)
                       sample_admin_world)))
            (MkEffects [] [] [])))
  = Returned (MkResponse 404 NotFoundPage).
Proof.
  destruct (deleted_link_is_gone
              (Admin.MkAdminRequest ∅ None "deal" "https" (Some "sho.rt")
                 Admin.Missing None None None None None)
              sample_admin_world ltac:(reflexivity)
              (bare_request "deal")
              (MkWorld (quiet_environment 3000)
                 (Admin.tables
                    (snd (Admin.delete_url
                            (Admin.MkAdminRequest ∅ None "deal" "https" (Some "sho.rt")
                               Admin.Missing None None None None None)
                            sample_admin_world)))
                 (MkEffects [] [] []))
              ltac:(reflexivity) ltac:(reflexivity) ltac:(reflexivity))
    as (_ & _ & Hserve).
  now rewrite Hserve.
Defined.

End RoundTripExamples.

(** * Properties of [GET /api/urls] and [GET /api/analytics/:code] *)

Section Listing.

Lemma set_property_proto (o : gmap string Admin.url_entry) (key : string)
    (value : Admin.url_entry) :
  Admin.set_property o key value !! "__proto__" = o !! "__proto__".
Proof.
  unfold Admin.set_property. destruct (String.eqb_spec key "__proto__") as [->|Hne].
  - reflexivity.
  - now rewrite lookup_insert_ne.
Qed.

Lemma set_property_other (o : gmap string Admin.url_entry) (key code : string)
    (value : Admin.url_entry) :
  key <> code ->
  Admin.set_property o key value !! code = o !! code.
Proof.
  intros Hne. unfold Admin.set_property. destruct (String.eqb key "__proto__").
  - reflexivity.
  - now rewrite lookup_insert_ne.
Qed.

Lemma set_property_same (o : gmap string Admin.url_entry) (code : string)
    (value : Admin.url_entry) :
  code <> "__proto__" ->
  Admin.set_property o code value !! code = Some value.
Proof.
  intros Hne. unfold Admin.set_property.
  destruct (String.eqb_spec code "__proto__") as [->|_]; [contradiction |].
  apply lookup_insert_eq.
Qed.

(** The object after the loop over the rows, key by key. *)
Lemma fold_add_listed (db : database) (order : list string)
    (acc : gmap string Admin.url_entry) (code : string) :
  fold_left Admin.add_listed (omap (Admin.listed_row db) order) acc !! code =
  if String.eqb code "__proto__" then acc !! code
  else if bool_decide (code ∈ order) then
         match listed_entry db code with
         | Some e => Some e
         | None => acc !! code
         end
       else acc !! code.
Proof.
  revert acc. induction order as [|c rest IH]; intros acc.
  { cbn. now destruct (String.eqb code "__proto__"). }
  cbn [omap list_omap]. unfold Admin.listed_row at 1.
  destruct (urls db !! c) as [u|] eqn:Hc; cbn [mbind option_bind fold_left].
  - rewrite IH. cbn [Admin.add_listed].
    destruct (String.eqb code "__proto__") eqn:Hp.
    { apply String.eqb_eq in Hp. rewrite Hp. apply set_property_proto. }
    apply String.eqb_neq in Hp.
    destruct (decide (c = code)) as [->|Hne].
    + rewrite (bool_decide_true (code ∈ code :: rest)) by (apply elem_of_cons; now left).
      unfold listed_entry. rewrite Hc. cbn [fmap option_fmap option_map].
      rewrite set_property_same by assumption.
      now destruct (bool_decide (code ∈ rest)).
    + rewrite (set_property_other _ _ _ _ Hne).
      assert (bool_decide (code ∈ c :: rest) = bool_decide (code ∈ rest)) as ->;
        [| reflexivity].
      apply bool_decide_ext. rewrite elem_of_cons. intuition congruence.
  - rewrite IH.
    destruct (String.eqb code "__proto__"); [reflexivity |].
    destruct (decide (c = code)) as [->|Hne].
    + rewrite (bool_decide_true (code ∈ code :: rest)) by (apply elem_of_cons; now left).
      unfold listed_entry. rewrite Hc. cbn [fmap option_fmap option_map].
      now destruct (bool_decide (code ∈ rest)).
    + assert (bool_decide (code ∈ c :: rest) = bool_decide (code ∈ rest)) as ->;
        [| reflexivity].
      apply bool_decide_ext. rewrite elem_of_cons. intuition congruence.
Qed.

(** X26.  [GET /api/urls] answers 500 when the pool fails the listing.
    Otherwise it answers 200 with an object that holds, whatever the order
    in which the database returns the rows, one entry for each link, under
    its code, with the URL, the creation instant, the counter, the partner
    id, the name and the domain of the partner that joins and the expiry of
    the link, and nothing else; except that a link whose code is
    [__proto__] is not in the object, since assigning to that key of an
    object creates no property.  The tables are as they were. *)
Theorem list_urls_one_entry_per_link (w : Admin.admin_world) :
  let n := length (Admin.admin_sent w) in
  let db := Admin.tables w in
  (pool_fault (Admin.admin_env w) n = true ->
   exists w',
     Admin.list_urls w =
     (Returned (Admin.MkAdminResponse 500 (Admin.JsonError "Database error")), w')
     /\ Admin.tables w' = db)
  /\ (pool_fault (Admin.admin_env w) n = false ->
      (forall code, code ∈ Admin.listing_order w n <-> is_Some (urls db !! code)) ->
      exists entries w',
        Admin.list_urls w =
        (Returned (Admin.MkAdminResponse 200 (Admin.JsonUrls entries)), w')
        /\ Admin.tables w' = db
        /\ Admin.admin_sent w' = Admin.admin_sent w ++ [(Admin.SelectAllUrls, true)]
        /\ entries !! "__proto__" = None
        /\ forall code, code <> "__proto__" ->
             entries !! code = listed_entry db code).
Proof.
  cbv zeta. split.
  - intros Hf. unfold Admin.list_urls, Admin.admin_try_catch, Admin.admin_bind.
    rewrite (admin_query_faulted _ _ Hf). eexists. split; reflexivity.
  - intros Hf Horder.
    unfold Admin.list_urls, Admin.admin_try_catch, Admin.admin_bind.
    rewrite (admin_query_executed _ _
               (omap (Admin.listed_row (Admin.tables w))
                  (Admin.listing_order w (length (Admin.admin_sent w))))
               (Admin.tables w) Hf) by reflexivity.
    do 2 eexists. split; [reflexivity |]. cbn. repeat split.
    + now rewrite fold_add_listed.
    + intros code Hproto. rewrite fold_add_listed.
      apply String.eqb_neq in Hproto. rewrite Hproto.
      destruct (bool_decide (code ∈ Admin.listing_order w (length (Admin.admin_sent w))))
        eqn:Hin.
      * now destruct (listed_entry (Admin.tables w) code).
      * apply bool_decide_eq_false in Hin.
        unfold listed_entry.
        destruct (urls (Admin.tables w) !! code) eqn:Hrow; [| reflexivity].
        exfalso. apply Hin, Horder. eauto.
Qed.

End Listing.

Section Analytics.

Variables (req : Admin.admin_request) (w : Admin.admin_world).

(** One of the four guarded queries: it never throws, sends its statement
    and gives the rows of the database, or none when the pool fails it. *)
Lemma rows_or_none_run (st : Admin.admin_statement)
    (log : list Admin.admin_row -> Admin.AdminM unit)
    (on_error : exn -> Admin.admin_console_line) (v : Admin.admin_world)
    (rows : list Admin.admin_row) :
  (forall r u, exists u', log r u = (Returned tt, u')
                          /\ Admin.tables u' = Admin.tables u
                          /\ Admin.admin_env u' = Admin.admin_env u
                          /\ Admin.analytics_rows u' = Admin.analytics_rows u
                          /\ Admin.admin_sent u' = Admin.admin_sent u) ->
  Admin.admin_execute (clock (Admin.admin_env v))
    (Admin.partners_id_seq v (length (Admin.admin_sent v)))
    (Admin.listing_order v (length (Admin.admin_sent v)))
    (Admin.analytics_rows v (length (Admin.admin_sent v))) st (Admin.tables v)
  = Some (rows, Admin.tables v) ->
  let ok := negb (pool_fault (Admin.admin_env v) (length (Admin.admin_sent v))) in
  exists v',
    Admin.rows_or_none st log on_error v
    = (Returned (if ok then rows else []), v')
    /\ Admin.tables v' = Admin.tables v
    /\ Admin.admin_env v' = Admin.admin_env v
    /\ Admin.analytics_rows v' = Admin.analytics_rows v
    /\ Admin.admin_sent v' = Admin.admin_sent v ++ [(st, ok)].
Proof.
  intros Hlog Hexec. cbv zeta.
  unfold Admin.rows_or_none, Admin.admin_try_catch, Admin.admin_bind at 1.
  destruct (pool_fault (Admin.admin_env v) (length (Admin.admin_sent v))) eqn:Hf.
  - rewrite (admin_query_faulted _ _ Hf). eexists. split; [reflexivity |].
    repeat split.
  - rewrite (admin_query_executed _ _ rows (Admin.tables v) Hf Hexec).
    unfold Admin.admin_bind.
    destruct (Hlog rows (admin_after st true (Admin.tables v) v))
      as (u' & -> & Ht & He & Ha & Hs).
    eexists. split; [reflexivity |]. cbn [negb]. repeat split; assumption.
Qed.

(** X27.  [GET /api/analytics/:code] always answers.  It answers 500 only
    when the pool fails the check of the code, and 404 when the code has
    no row; in both cases the check is the only statement sent.  For a code
    with a row it sends the four queries, in their order, whatever becomes
    of each, and answers 200: a query that the pool fails is written to the
    console and contributes an empty list, and does not keep the others
    from being sent and answered.  The tables are as they were. *)
Theorem analytics_survives_failed_queries :
  let code := Admin.route_code req in
  let n := length (Admin.admin_sent w) in
  let ok k := negb (pool_fault (Admin.admin_env w) (k + n)) in
  let part k :=
    if ok k then Admin.JsonRow <$> Admin.analytics_rows w (k + n)%nat else [] in
  exists res w',
    Admin.analytics req w = (Returned res, w')
    /\ Admin.tables w' = Admin.tables w
    /\ if ok 0%nat then
         match urls (Admin.tables w) !! code with
         | None =>
             res = Admin.MkAdminResponse 404 (Admin.JsonError "URL not found")
             /\ Admin.admin_sent w' = Admin.admin_sent w ++ [(Admin.SelectCode code, true)]
         | Some _ =>
             res = Admin.MkAdminResponse 200
                     (Admin.JsonAnalytics (part 1%nat) (part 2%nat) (part 3%nat)
                        (part 4%nat))
             /\ Admin.admin_sent w' =
                Admin.admin_sent w ++
                [(Admin.SelectCode code, true);
                 (Admin.SelectRecentClicks code, ok 1%nat);
                 (Admin.SelectCountryStats code, ok 2%nat);
                 (Admin.SelectDeviceStats code, ok 3%nat);
                 (Admin.SelectBypassLogs code, ok 4%nat)]
         end
       else
         res = Admin.MkAdminResponse 500
                 (Admin.JsonErrorDetails "Database error" DatabaseError code)
         /\ Admin.admin_sent w' = Admin.admin_sent w ++ [(Admin.SelectCode code, false)].
Proof.
  cbv zeta. cbn [Nat.add].
  unfold Admin.analytics, Admin.admin_try_catch.
  unfold Admin.admin_bind at 1, Admin.console_error at 1.
  unfold Admin.admin_bind at 1, Admin.admin_query at 1.
  cbn [Admin.admin_env Admin.admin_sent Admin.tables Admin.admin_execute].
  destruct (pool_fault (Admin.admin_env w) (length (Admin.admin_sent w))) eqn:F0;
    cbn [negb].
  { do 2 eexists. split; [reflexivity |]. repeat split. }
  destruct (urls (Admin.tables w) !! Admin.route_code req) as [row|] eqn:Hrow.
  2:{ do 2 eexists. split; [reflexivity |]. repeat split. }
  cbn [length Nat.eqb].
  set (w1 := Admin.MkAdminWorld _ _ _ _ _ _ _ _ _).
  assert (Hquiet : forall (A : Type) (f : A -> Admin.admin_console_line) a u,
            exists u', Admin.console_error (f a) u = (Returned tt, u')
                       /\ Admin.tables u' = Admin.tables u
                       /\ Admin.admin_env u' = Admin.admin_env u
                       /\ Admin.analytics_rows u' = Admin.analytics_rows u
                       /\ Admin.admin_sent u' = Admin.admin_sent u).
  { intros A f a u. eexists. split; [reflexivity |]. repeat split. }
  assert (Hsilent : forall (r : list Admin.admin_row) u,
            exists u', Admin.admin_ret tt u = (Returned tt, u')
                       /\ Admin.tables u' = Admin.tables u
                       /\ Admin.admin_env u' = Admin.admin_env u
                       /\ Admin.analytics_rows u' = Admin.analytics_rows u
                       /\ Admin.admin_sent u' = Admin.admin_sent u).
  { intros r u. eexists. split; [reflexivity |]. repeat split. }
  destruct (rows_or_none_run (Admin.SelectRecentClicks (Admin.route_code req))
              (fun rows => Admin.console_error
                             (Admin.LogFoundClicks (length rows) (Admin.route_code req)))
              Admin.ErrFetchingClicks w1 _
              (fun r u => Hquiet _ (fun k => Admin.LogFoundClicks k (Admin.route_code req))
                            (length r) u)
              eq_refl)
    as (w2 & Hrun2 & Ht2 & He2 & Ha2 & Hs2).
  destruct (rows_or_none_run (Admin.SelectCountryStats (Admin.route_code req))
              (fun _ => Admin.admin_ret tt)
              Admin.ErrFetchingCountryStats w2 _ Hsilent eq_refl)
    as (w3 & Hrun3 & Ht3 & He3 & Ha3 & Hs3).
  destruct (rows_or_none_run (Admin.SelectDeviceStats (Admin.route_code req))
              (fun _ => Admin.admin_ret tt)
              Admin.ErrFetchingDeviceStats w3 _ Hsilent eq_refl)
    as (w4 & Hrun4 & Ht4 & He4 & Ha4 & Hs4).
  destruct (rows_or_none_run (Admin.SelectBypassLogs (Admin.route_code req))
              (fun rows => Admin.console_error
                             (Admin.LogFoundBypasses (length rows) (Admin.route_code req)))
              Admin.ErrFetchingBypassLogs w4 _
              (fun r u => Hquiet _ (fun k => Admin.LogFoundBypasses k (Admin.route_code req))
                            (length r) u)
              eq_refl)
    as (w5 & Hrun5 & Ht5 & He5 & Ha5 & Hs5).
  unfold Admin.admin_bind at 1. rewrite Hrun2.
  unfold Admin.admin_bind at 1. rewrite Hrun3.
  unfold Admin.admin_bind at 1. rewrite Hrun4.
  unfold Admin.admin_bind at 1. rewrite Hrun5.
  unfold Admin.admin_bind, Admin.console_error, Admin.admin_ret.
  do 2 eexists. split; [reflexivity |].
  cbn [Admin.tables Admin.admin_sent].
  rewrite Hs5, Hs4, Hs3, Hs2, Ht5, Ht4, Ht3, Ht2, He4, He3, He2, Ha4, Ha3, Ha2.
  subst w1. cbn [Admin.tables Admin.admin_sent Admin.admin_env Admin.analytics_rows].
  rewrite !length_snoc, <- !app_assoc. cbn [app].
  repeat split.
Qed.

End Analytics.

Section DashboardExamples.

(** A link stored under the code [__proto__] is served and is not
    listed. *)
Example proto_link_is_not_listed :
  let stored :=
    snd (Admin.shorten 1
           (shorten_request "changeme123" "https://shop.example/new" (Some "__proto__"))
           sample_admin_world) in
  let listing :=
    Admin.MkAdminWorld (quiet_environment 3000) (fun _ => 0%nat) (Admin.tables stored)
      (fun _ => 9) (fun _ => ["__proto__"; "promo"; "open"; "deal"]) (fun _ => [])
      [] 0 [] in
  is_Some (urls (Admin.tables stored) !! "__proto__")
  /\ (exists entries,
        fst (Admin.list_urls listing)
        = Returned (Admin.MkAdminResponse 200 (Admin.JsonUrls entries))
        /\ entries !! "__proto__" = None
        /\ is_Some (entries !! "promo"))
  /\ fst <$> fst_returned
               (get_code (bare_request "__proto__")
                  (MkWorld (quiet_environment 3000) (Admin.tables stored)
                     (MkEffects [] [] [])))
     = Some (MkResponse 200 (VerifyingPage "https://shop.example/new")).
Proof.
  cbv zeta. split; [| split].
  - eexists. reflexivity.
  - eexists. split; [reflexivity |]. split; [reflexivity |]. eexists. reflexivity.
  - reflexivity.
Qed.

End DashboardExamples.
